(** * The contest evaluation pipeline: a shallow embedding

    This development embeds the rule-based evaluation engine of the
    trading-strategy contest (the four stage tools and the orchestrator
    that chains them) and proves properties of it.

    Modelling conventions.
    - A Python [str] is a [string]; the embedding is faithful on ASCII
      text (code points below 128).
    - A Python [float] is an exact rational in [Q]: comparisons are
      exact, arithmetic is not rounded, and the non-finite values
      ([inf], [nan]) are not represented.
    - A Python [dict] keyed by strings is a [gmap string _]; a list is
      a [list].
    - Whatever the tools read from disk (file names, file contents,
      the tree [ast.parse] returns, the rows of a CSV file) is an
      explicit argument of the embedded function. *)

From Stdlib Require Import ZArith QArith Qabs Qminmax Ascii String List Bool Lia.
From Stdlib Require Import DecimalString.
From Stdlib Require Import Sorting.Sorted Sorting.Permutation.
From Stdlib Require Import Floats.
From Stdlib Require Import Lqa.
From stdpp Require Import gmap strings list fin_maps.

Set Warnings "-register-all,-inexact-float".

(** ** Python string methods *)

Module PyStr.

Definition code (c : ascii) : N := N_of_ascii c.

Definition between (lo hi : N) (c : ascii) : bool :=
  ((lo <=? code c) && (code c <=? hi))%N.

Definition is_upper (c : ascii) : bool := between 65 90 c.
Definition is_lower (c : ascii) : bool := between 97 122 c.
Definition is_digit (c : ascii) : bool := between 48 57 c.
Definition is_alpha (c : ascii) : bool := is_upper c || is_lower c.

(** [\w] on ASCII: letters, digits and the underscore. *)
Definition is_word (c : ascii) : bool :=
  is_alpha c || is_digit c || (code c =? 95)%N.

(** [str.isspace] on ASCII: TAB, LF, VT, FF, CR, FS, GS, RS, US, SPACE. *)
Definition is_space (c : ascii) : bool := between 9 13 c || between 28 32 c.

(** The line boundaries of [str.splitlines] on ASCII:
    LF, VT, FF, CR, FS, GS, RS. *)
Definition is_linebreak (c : ascii) : bool := between 10 13 c || between 28 30 c.

Definition lower_ascii (c : ascii) : ascii :=
  if is_upper c then ascii_of_N (code c + 32) else c.
Definition upper_ascii (c : ascii) : ascii :=
  if is_lower c then ascii_of_N (code c - 32) else c.

Fixpoint smap (f : ascii -> ascii) (s : string) : string :=
  match s with
  | EmptyString => EmptyString
  | String c s' => String (f c) (smap f s')
  end.

(** [s.lower()] and [s.upper()]. *)
Definition lower : string -> string := smap lower_ascii.
Definition upper : string -> string := smap upper_ascii.

Fixpoint lstrip_with (p : ascii -> bool) (s : string) : string :=
  match s with
  | EmptyString => EmptyString
  | String c s' => if p c then lstrip_with p s' else s
  end.

Fixpoint rstrip_with (p : ascii -> bool) (s : string) : string :=
  match s with
  | EmptyString => EmptyString
  | String c s' =>
      match rstrip_with p s' with
      | EmptyString => if p c then EmptyString else String c EmptyString
      | r => String c r
      end
  end.

Definition strip_with (p : ascii -> bool) (s : string) : string :=
  rstrip_with p (lstrip_with p s).

(** [s.strip()]. *)
Definition strip : string -> string := strip_with is_space.

Fixpoint mem_char (c : ascii) (cs : string) : bool :=
  match cs with
  | EmptyString => false
  | String d cs' => Ascii.eqb c d || mem_char c cs'
  end.

(** [s.strip(chars)]. *)
Definition strip_chars (chars : string) : string -> string :=
  strip_with (fun c => mem_char c chars).

(** [s.startswith(p)]. *)
Definition startswith (p s : string) : bool := String.prefix p s.

(** [needle in hay]. *)
Fixpoint contains (needle hay : string) : bool :=
  String.prefix needle hay ||
  match hay with
  | EmptyString => false
  | String _ hay' => contains needle hay'
  end.

(** [s.split(sep)] for a one-character separator. *)
Fixpoint split_char (sep : ascii) (s : string) : list string :=
  match s with
  | EmptyString => [EmptyString]
  | String c s' =>
      if Ascii.eqb c sep then EmptyString :: split_char sep s'
      else match split_char sep s' with
           | [] => [String c EmptyString]
           | w :: ws => String c w :: ws
           end
  end.

(** [s.split(sep, 1)]: at most one split. *)
Fixpoint split_once (sep : ascii) (s : string) : list string :=
  match s with
  | EmptyString => [EmptyString]
  | String c s' =>
      if Ascii.eqb c sep then [EmptyString; s']
      else match split_once sep s' with
           | [] => [String c EmptyString]
           | w :: ws => String c w :: ws
           end
  end.

(** [s.split()]: the maximal runs of non-space characters. *)
Fixpoint words (s : string) : list string :=
  match s with
  | EmptyString => []
  | String c s' =>
      if is_space c then words s'
      else match s' with
           | EmptyString => [String c EmptyString]
           | String c' _ =>
               if is_space c' then String c EmptyString :: words s'
               else match words s' with
                    | [] => [String c EmptyString]
                    | w :: ws => String c w :: ws
                    end
           end
  end.

(** [sep.join(l)]. *)
Fixpoint join (sep : string) (l : list string) : string :=
  match l with
  | [] => EmptyString
  | [x] => x
  | x :: l' => x +:+ sep +:+ join sep l'
  end.

(** [s.splitlines()]: CR LF counts as one boundary and no empty line is
    produced after a final boundary. *)
Fixpoint splitlines (s : string) : list string :=
  match s with
  | EmptyString => []
  | String c s' =>
      if is_linebreak c then
        EmptyString ::
        match s' with
        | String c' s'' =>
            if (Ascii.eqb c "013" && Ascii.eqb c' "010")%char
            then splitlines s'' else splitlines s'
        | EmptyString => []
        end
      else match splitlines s' with
           | [] => [String c EmptyString]
           | l :: ls => String c l :: ls
           end
  end.

(** [s.replace(old, new)] for a non-empty [old]: [skip] counts the
    characters of a replaced occurrence that are still to be dropped. *)
Fixpoint replace_from (old new : string) (skip : nat) (s : string) : string :=
  match s with
  | EmptyString => EmptyString
  | String c s' =>
      match skip with
      | S k => replace_from old new k s'
      | O =>
          if String.prefix old s
          then new +:+ replace_from old new (String.length old - 1) s'
          else String c (replace_from old new 0 s')
      end
  end.

Definition replace (old new s : string) : string := replace_from old new 0 s.

(** [s[:n]]. *)
Fixpoint take (n : nat) (s : string) : string :=
  match n, s with
  | S k, String c s' => String c (take k s')
  | _, _ => EmptyString
  end.

(** The one-character string holding the double quote. *)
Definition dquote : string := String (ascii_of_N 34) EmptyString.

End PyStr.

(** ** Python number parsing *)

Module PyNum.
Import PyStr.

Definition digit_val (c : ascii) : Z := Z.of_N (code c) - 48.

(** The longest prefix of the form [digit (_? digit)*], without its
    underscores, and what follows it. *)
Fixpoint scan_digits (s : string) : string * string :=
  match s with
  | String c s' =>
      if is_digit c then
        match s' with
        | String u (String d _ as s'') =>
            if (Ascii.eqb u "_" && is_digit d)%char
            then let '(ds, r) := scan_digits s'' in (String c ds, r)
            else let '(ds, r) := scan_digits s' in (String c ds, r)
        | _ => let '(ds, r) := scan_digits s' in (String c ds, r)
        end
      else (EmptyString, s)
  | EmptyString => (EmptyString, EmptyString)
  end.

Fixpoint digits_value (acc : Z) (ds : string) : Z :=
  match ds with
  | EmptyString => acc
  | String c ds' => digits_value (10 * acc + digit_val c) ds'
  end.

(** An optional sign: [(true, rest)] when the sign is a minus. *)
Definition scan_sign (s : string) : bool * string :=
  match s with
  | String "-" s' => (true, s')
  | String "+" s' => (false, s')
  | _ => (false, s)
  end.

Definition signed (neg : bool) (z : Z) : Z := if neg then (- z)%Z else z.

(** [int(s)] in base 10: [None] stands for [ValueError]. *)
Definition int_of_string (s : string) : option Z :=
  let '(neg, r) := scan_sign (strip s) in
  match scan_digits r with
  | (String c ds, EmptyString) => Some (signed neg (digits_value 0 (String c ds)))
  | _ => None
  end.

Definition pow10 (n : nat) : positive := Z.to_pos (10 ^ Z.of_nat n).

(** The rational [m * 10^e / 10^k]. *)
Definition scaled (m : Z) (k : nat) (e : Z) : Q :=
  if (0 <=? e)%Z then Qmake (m * 10 ^ e) (pow10 k)
  else Qmake m (pow10 (k + Z.to_nat (- e))).

(** [float(s)] on decimal literals: [None] stands for [ValueError].
    The spellings of the non-finite values (inf, infinity, nan) have no
    counterpart in [Q] and are rejected as well. *)
Definition float_of_string (s : string) : option Q :=
  let '(neg, r) := scan_sign (strip s) in
  let '(ip, r1) := scan_digits r in
  let '(fp, r2) :=
    match r1 with
    | String "." r1' => scan_digits r1'
    | _ => (EmptyString, r1)
    end in
  match ip, fp with
  | EmptyString, EmptyString => None
  | _, _ =>
      let m := signed neg (digits_value (digits_value 0 ip) fp) in
      let k := String.length fp in
      match r2 with
      | EmptyString => Some (scaled m k 0)
      | String c r3 =>
          if Ascii.eqb (lower_ascii c) "e" then
            let '(eneg, r4) := scan_sign r3 in
            match scan_digits r4 with
            | (String d ds, EmptyString) =>
                Some (scaled m k (signed eneg (digits_value 0 (String d ds))))
            | _ => None
            end
          else None
      end
  end.

(** Round half to even of a non-negative rational. *)
Definition round_half_even (q : Q) : Z :=
  let n := Qnum q in
  let d := Zpos (Qden q) in
  let f := (n / d)%Z in
  let r := (2 * (n mod d))%Z in
  if (r <? d)%Z then f
  else if (d <? r)%Z then (f + 1)%Z
  else if Z.even f then f else (f + 1)%Z.

Definition string_of_Z (z : Z) : string := NilZero.string_of_int (Z.to_int z).

Definition pad_zeros (width : nat) (digits : string) : string :=
  match width - String.length digits with
  | O => digits
  | S k => String.append (String.concat EmptyString (repeat "0" (S k))) digits
  end.

(** [f"{x:.Nf}"]: [x] rounded to [d] decimals, half to even. *)
Definition format_fixed (d : nat) (x : Q) : string :=
  let scale := (10 ^ Z.of_nat d)%Z in
  let t := round_half_even (Qabs x * inject_Z scale) in
  let sign := if Qle_bool 0 x then EmptyString else "-" in
  let int_part := string_of_Z (t / scale) in
  match d with
  | O => sign +:+ int_part
  | _ => sign +:+ int_part +:+ "." +:+ pad_zeros d (string_of_Z (t mod scale))
  end.

Definition format_0f : Q -> string := format_fixed 0.
Definition format_1f : Q -> string := format_fixed 1.
Definition format_2f : Q -> string := format_fixed 2.

Definition of_nat (n : nat) : Q := inject_Z (Z.of_nat n).

(** The decimals of [num / den], a fraction below one, as long as they
    do not end and the fuel lasts. *)
Fixpoint frac_digits (fuel : nat) (num den : Z) : string :=
  match fuel with
  | O => EmptyString
  | S f =>
      if (num =? 0)%Z then EmptyString
      else string_of_Z (num * 10 / den) +:+ frac_digits f ((num * 10) mod den) den
  end.

(** [str(x)] of a float that was read from a decimal literal of at most
    fifteen significant digits and needs no exponent. *)
Definition repr_float (x : Q) : string :=
  let n := Z.abs (Qnum x) in
  let d := Zpos (Qden x) in
  let digits := frac_digits 17 (n mod d) d in
  (if Qle_bool 0 x then EmptyString else "-")
  +:+ string_of_Z (n / d) +:+ "."
  +:+ (if String.eqb digits EmptyString then "0" else digits).

(** [max(a, b)] and [min(a, b)] on floats. *)
Definition qmax (a b : Q) : Q := Qmax a b.
Definition qmin (a b : Q) : Q := Qmin a b.

End PyNum.

(** ** Regular expressions ([re])

    The patterns of the tools are kept as the pattern strings of the
    source; [compile] parses them and [search] runs a backtracking
    matcher with the priorities of Python's engine (leftmost match,
    alternatives from left to right, greedy and lazy repetition). *)

Module Re.
Import PyStr.

Inductive citem : Type :=
| CLit (c : ascii)
| CRange (lo hi : ascii)
| CDigit (neg : bool)
| CWord (neg : bool)
| CSpace (neg : bool).

Inductive regex : Type :=
| Eps
| Chr (c : ascii)
| AnyChar
| CharSet (neg : bool) (items : list citem)
| Bol
| Eol
| WordB (neg : bool)
| Seq (r1 r2 : regex)
| Alt (r1 r2 : regex)
| Rep (r : regex) (lo : nat) (hi : option nat) (greedy : bool)
| Group (i : nat) (r : regex)
| Lookbehind (neg : bool) (literal : string).

(** *** Parsing a pattern string *)

Definition parsed (A : Type) : Type := option (A * string).

(** The escape [\c] outside and inside a character class. *)
Definition class_escape (c : ascii) : option citem :=
  if Ascii.eqb c "d" then Some (CDigit false)
  else if Ascii.eqb c "D" then Some (CDigit true)
  else if Ascii.eqb c "w" then Some (CWord false)
  else if Ascii.eqb c "W" then Some (CWord true)
  else if Ascii.eqb c "s" then Some (CSpace false)
  else if Ascii.eqb c "S" then Some (CSpace true)
  else if Ascii.eqb c "n" then Some (CLit "010")
  else if Ascii.eqb c "t" then Some (CLit "009")
  else if Ascii.eqb c "r" then Some (CLit "013")
  else if Ascii.eqb c "f" then Some (CLit "012")
  else if Ascii.eqb c "v" then Some (CLit "011")
  else if is_alpha c || is_digit c then None
  else Some (CLit c).

Definition atom_escape (c : ascii) : option regex :=
  if Ascii.eqb c "b" then Some (WordB false)
  else if Ascii.eqb c "B" then Some (WordB true)
  else match class_escape c with
       | Some (CLit d) => Some (Chr d)
       | Some it => Some (CharSet false [it])
       | None => None
       end.

(** The items of a class up to the closing bracket. *)
Fixpoint parse_class_items (s : string) : parsed (list citem) :=
  match s with
  | EmptyString => None
  | String "]" s' => Some ([], s')
  | String "\" (String c s') =>
      match class_escape c, parse_class_items s' with
      | Some it, Some (its, r) => Some (it :: its, r)
      | _, _ => None
      end
  | String lo (String "-" (String hi s' as after_dash)) =>
      if Ascii.eqb hi "]" then
        match parse_class_items after_dash with
        | Some (its, r) => Some (CLit lo :: CLit "-" :: its, r)
        | None => None
        end
      else
        match parse_class_items s' with
        | Some (its, r) => Some (CRange lo hi :: its, r)
        | None => None
        end
  | String c s' =>
      match parse_class_items s' with
      | Some (its, r) => Some (CLit c :: its, r)
      | None => None
      end
  end.

Definition parse_class (s : string) : parsed regex :=
  match s with
  | String "^" s' =>
      match parse_class_items s' with
      | Some (its, r) => Some (CharSet true its, r)
      | None => None
      end
  | _ =>
      match parse_class_items s with
      | Some (its, r) => Some (CharSet false its, r)
      | None => None
      end
  end.

(** A decimal number at the head of [s] (nothing when there is none). *)
Fixpoint scan_nat (acc : option nat) (s : string) : option nat * string :=
  match s with
  | String c s' =>
      if is_digit c
      then scan_nat (Some (10 * default 0 acc + N.to_nat (code c - 48))) s'
      else (acc, s)
  | EmptyString => (acc, s)
  end.

(** The bounds [{m}], [{m,}], [{,n}], [{m,n}] after the opening brace. *)
Definition parse_bounds (s : string) : parsed (nat * option nat) :=
  match scan_nat None s with
  | (Some m, String "}" r) => Some ((m, Some m), r)
  | (lo, String "," s') =>
      match scan_nat None s' with
      | (hi, String "}" r) =>
          match lo, hi with
          | None, None => None
          | _, _ => Some ((default 0 lo, hi), r)
          end
      | _ => None
      end
  | _ => None
  end.

(** The optional quantifier after an atom, with its lazy mark. *)
Definition parse_quant (a : regex) (s : string) : regex * string :=
  let lazy (lo : nat) (hi : option nat) (r : string) :=
    match r with
    | String "?" r' => (Rep a lo hi false, r')
    | _ => (Rep a lo hi true, r)
    end in
  match s with
  | String "*" r => lazy 0 None r
  | String "+" r => lazy 1 None r
  | String "?" r => lazy 0 (Some 1) r
  | String "{" r =>
      match parse_bounds r with
      | Some ((lo, hi), r') => lazy lo hi r'
      | None => (a, s)
      end
  | _ => (a, s)
  end.

(** The body of a lookbehind, which must be plain text here, up to its
    closing parenthesis. *)
Fixpoint parse_literal (s : string) : parsed string :=
  match s with
  | EmptyString => None
  | String ")" s' => Some (EmptyString, s')
  | String c s' =>
      if is_alpha c || is_digit c || Ascii.eqb c "-" || Ascii.eqb c "_" || Ascii.eqb c " "
      then match parse_literal s' with
           | Some (lit, r) => Some (String c lit, r)
           | None => None
           end
      else None
  end.

(** Alternations, sequences and atoms; [g] is the number the next
    capturing group gets. The fuel bounds the length of the pattern. *)
Fixpoint parse_alt (fuel : nat) (s : string) (g : nat) : option (regex * string * nat) :=
  match fuel with
  | O => None
  | S f =>
      match parse_seq f s g with
      | Some (r1, String "|" s', g') =>
          match parse_alt f s' g' with
          | Some (r2, s'', g'') => Some (Alt r1 r2, s'', g'')
          | None => None
          end
      | res => res
      end
  end
with parse_seq (fuel : nat) (s : string) (g : nat) : option (regex * string * nat) :=
  match fuel with
  | O => None
  | S f =>
      match s with
      | EmptyString => Some (Eps, s, g)
      | String "|" _ => Some (Eps, s, g)
      | String ")" _ => Some (Eps, s, g)
      | _ =>
          match parse_atom f s g with
          | Some (a, s', g') =>
              let '(q, s'') := parse_quant a s' in
              match parse_seq f s'' g' with
              | Some (Eps, s3, g3) => Some (q, s3, g3)
              | Some (r, s3, g3) => Some (Seq q r, s3, g3)
              | None => None
              end
          | None => None
          end
      end
  end
with parse_atom (fuel : nat) (s : string) (g : nat) : option (regex * string * nat) :=
  match fuel with
  | O => None
  | S f =>
      match s with
      | String "(" (String "?" (String ":" s')) =>
          match parse_alt f s' g with
          | Some (r, String ")" s'', g') => Some (r, s'', g')
          | _ => None
          end
      | String "(" (String "?" (String "<" (String k s'))) =>
          match parse_literal s' with
          | Some (lit, s'') =>
              if Ascii.eqb k "!" then Some (Lookbehind true lit, s'', g)
              else if Ascii.eqb k "=" then Some (Lookbehind false lit, s'', g)
              else None
          | None => None
          end
      | String "(" (String "?" _) => None
      | String "(" s' =>
          match parse_alt f s' (S g) with
          | Some (r, String ")" s'', g') => Some (Group g r, s'', g')
          | _ => None
          end
      | String "[" s' =>
          match parse_class s' with
          | Some (r, s'') => Some (r, s'', g)
          | None => None
          end
      | String "\" (String c s') =>
          match atom_escape c with
          | Some r => Some (r, s', g)
          | None => None
          end
      | String "." s' => Some (AnyChar, s', g)
      | String "^" s' => Some (Bol, s', g)
      | String "$" s' => Some (Eol, s', g)
      | String "*" _ | String "+" _ | String "?" _ | String "\" _ => None
      | String c s' => Some (Chr c, s', g)
      | EmptyString => None
      end
  end.

(** [re.compile(pattern)]: the expression and its number of groups;
    [None] stands for a pattern outside the supported syntax. *)
Definition compile (pattern : string) : option (regex * nat) :=
  match parse_alt (3 * String.length pattern + 3) pattern 1 with
  | Some (r, EmptyString, g) => Some (r, g - 1)
  | _ => None
  end.

(** *** Matching *)

(** The flags [re.IGNORECASE], [re.MULTILINE] and [re.DOTALL]. *)
Record flags : Type := { ignorecase : bool; multiline : bool; dotall : bool }.

Definition no_flags : flags :=
  {| ignorecase := false; multiline := false; dotall := false |}.
Definition IGNORECASE : flags :=
  {| ignorecase := true; multiline := false; dotall := false |}.
Definition MULTILINE_DOTALL : flags :=
  {| ignorecase := false; multiline := true; dotall := true |}.

(** A position of the matcher: the text before it (its last character
    first), the text from it on, and the groups closed so far (the
    latest first). *)
Record mstate : Type :=
  { before : string; rest : string; caps : list (nat * string) }.

(** The character before the position. *)
Definition prev (st : mstate) : option ascii :=
  match before st with
  | String c _ => Some c
  | EmptyString => None
  end.

Definition item_test (it : citem) (d : ascii) : bool :=
  match it with
  | CLit x => Ascii.eqb d x
  | CRange lo hi => ((code lo <=? code d) && (code d <=? code hi))%N
  | CDigit neg => xorb neg (is_digit d)
  | CWord neg => xorb neg (is_word d)
  | CSpace neg => xorb neg (is_space d)
  end.

Definition item_match (fl : flags) (c : ascii) (it : citem) : bool :=
  if ignorecase fl
  then item_test it c || item_test it (lower_ascii c) || item_test it (upper_ascii c)
  else item_test it c.

Definition chr_match (fl : flags) (x c : ascii) : bool :=
  if ignorecase fl then Ascii.eqb (lower_ascii x) (lower_ascii c) else Ascii.eqb x c.

Definition newline : ascii := "010"%char.

Definition word_before (st : mstate) : bool :=
  match prev st with Some c => is_word c | None => false end.
Definition word_after (st : mstate) : bool :=
  match rest st with String c _ => is_word c | EmptyString => false end.

Definition at_bol (fl : flags) (st : mstate) : bool :=
  match prev st with
  | None => true
  | Some c => multiline fl && Ascii.eqb c newline
  end.

Definition at_eol (fl : flags) (st : mstate) : bool :=
  match rest st with
  | EmptyString => true
  | String c EmptyString => Ascii.eqb c newline
  | String c _ => multiline fl && Ascii.eqb c newline
  end.

(** One character [c] is consumed. *)
Definition step (c : ascii) (s' : string) (st : mstate) : mstate :=
  {| before := String c (before st); rest := s'; caps := caps st |}.

(** The text consumed between two positions of one run. *)
Definition consumed (st st' : mstate) : string :=
  take (String.length (rest st) - String.length (rest st')) (rest st).

Definition close_group (i : nat) (st st' : mstate) : mstate :=
  {| before := before st'; rest := rest st'; caps := (i, consumed st st') :: caps st' |}.

Definition advanced (st st' : mstate) : bool :=
  String.length (rest st') <? String.length (rest st).

Definition one_char (ok : ascii -> bool) (st : mstate)
    (k : mstate -> option mstate) : option mstate :=
  match rest st with
  | String c s' => if ok c then k (step c s' st) else None
  | EmptyString => None
  end.

(** The text before the position ends with [literal]. *)
Fixpoint ends_with (fl : flags) (literal_rev : list ascii) (before : string) : bool :=
  match literal_rev, before with
  | [], _ => true
  | x :: l', String c b' => chr_match fl x c && ends_with fl l' b'
  | _ :: _, EmptyString => false
  end.

Definition or_else (a : option mstate) (b : unit -> option mstate) : option mstate :=
  match a with
  | Some x => Some x
  | None => b tt
  end.

(** The matcher in continuation-passing style: [k] is what remains to
    be matched after [r]. A repetition first takes its [lo] mandatory
    rounds; every further round must consume text, so at most
    [length (rest st)] of them are tried. *)
Fixpoint run (fl : flags) (r : regex) (st : mstate)
    (k : mstate -> option mstate) {struct r} : option mstate :=
  match r with
  | Eps => k st
  | Chr x => one_char (chr_match fl x) st k
  | AnyChar => one_char (fun c => dotall fl || negb (Ascii.eqb c newline)) st k
  | CharSet neg items =>
      one_char (fun c => xorb neg (existsb (item_match fl c) items)) st k
  | Bol => if at_bol fl st then k st else None
  | Eol => if at_eol fl st then k st else None
  | WordB neg =>
      if xorb neg (xorb (word_before st) (word_after st)) then k st else None
  | Seq r1 r2 => run fl r1 st (fun st' => run fl r2 st' k)
  | Alt r1 r2 => or_else (run fl r1 st k) (fun _ => run fl r2 st k)
  | Group i r1 => run fl r1 st (fun st' => k (close_group i st st'))
  | Lookbehind neg literal =>
      if xorb neg (ends_with fl (rev (list_ascii_of_string literal)) (before st))
      then k st else None
  | Rep r1 lo hi greedy =>
      let more :=
        fix more (fuel : nat) (budget : option nat) (st : mstate) {struct fuel}
            : option mstate :=
          match fuel with
          | O => k st
          | S fuel' =>
              let again (_ : unit) :=
                match budget with
                | Some O => None
                | _ =>
                    run fl r1 st (fun st' =>
                      if advanced st st'
                      then more fuel' (Nat.pred <$> budget) st'
                      else None)
                end in
              if greedy then or_else (again tt) (fun _ => k st)
              else or_else (k st) again
          end in
      let must :=
        fix must (n : nat) (st : mstate) {struct n} : option mstate :=
          match n with
          | S n' => run fl r1 st (fun st' => must n' st')
          | O => more (S (String.length (rest st))) ((fun h => h - lo) <$> hi) st
          end in
      must lo st
  end.

(** A match object: where the match starts, the matched text
    ([group(0)]) and the captured groups. *)
Record match_ : Type :=
  { m_start : nat; m_text : string; m_groups : list (nat * string); m_after : mstate }.

(** [m.group(i)] for a group that took part in the match. *)
Definition group (i : nat) (m : match_) : option string :=
  match i with
  | O => Some (m_text m)
  | _ => snd <$> List.find (fun p => Nat.eqb (fst p) i) (m_groups m)
  end.

(** The leftmost match from a position on. *)
Fixpoint search_from (fl : flags) (r : regex) (b : string) (s : string)
    (idx : nat) : option match_ :=
  let st := {| before := b; rest := s; caps := [] |} in
  match run fl r st Some with
  | Some st' =>
      Some {| m_start := idx; m_text := consumed st st';
              m_groups := caps st'; m_after := st' |}
  | None =>
      match s with
      | String c s' => search_from fl r (String c b) s' (S idx)
      | EmptyString => None
      end
  end.

(** All the matches from left to right, each search starting where the
    match before it ended (one character further after an empty
    match). *)
Fixpoint matches_from (fuel : nat) (fl : flags) (r : regex) (b s : string)
    (idx : nat) : list match_ :=
  match fuel with
  | O => []
  | S f =>
      match search_from fl r b s idx with
      | None => []
      | Some m =>
          let st' := m_after m in
          let next := m_start m + String.length (m_text m) in
          m ::
          match m_text m, rest st' with
          | EmptyString, String c s' => matches_from f fl r (String c (before st')) s' (S next)
          | EmptyString, EmptyString => []
          | _, _ => matches_from f fl r (before st') (rest st') next
          end
      end
  end.

(** [re.search(pattern, text, flags)]. *)
Definition search (pattern text : string) (fl : flags) : option match_ :=
  match compile pattern with
  | Some (r, _) => search_from fl r EmptyString text 0
  | None => None
  end.

(** [bool(re.search(pattern, text, flags))]. *)
Definition found (pattern text : string) (fl : flags) : bool :=
  bool_decide (is_Some (search pattern text fl)).

(** [re.findall(pattern, text, flags)] for a pattern with at most one
    group: the text of the group (empty when the group took no part in
    the match), or the whole match of a pattern without groups. *)
Definition findall (pattern text : string) (fl : flags) : list string :=
  match compile pattern with
  | Some (r, groups) =>
      map (fun m => if groups =? 0 then m_text m else default EmptyString (group 1 m))
          (matches_from (S (String.length text)) fl r EmptyString text 0)
  | None => []
  end.

End Re.

(** ** The issue and severity model shared by the stage tools *)

(** The four severity labels the tools attach to an issue. *)
Inductive Severity : Type := CRITICAL | HIGH | MEDIUM | LOW.

#[export] Instance Severity_eq_dec : EqDecision Severity.
Proof. solve_decision. Defined.

Definition severity_eqb (a b : Severity) : bool := bool_decide (a = b).

(** [sum(1 for x in xs if x.severity == sev)]. *)
Definition count_severity {A : Type} (severity : A -> Severity)
    (sev : Severity) (xs : list A) : nat :=
  length (List.filter (fun x => severity_eqb (severity x) sev) xs).

(** [enumerate(xs, 1)]. *)
Definition enumerate1 {A : Type} (xs : list A) : list (nat * A) :=
  combine (seq 1 (length xs)) xs.

(** [xs[i]] for a line number counted from one. *)
Definition line_at (lines : list string) (lineno : nat) : option string :=
  lines !! (lineno - 1).

(** ** The syntax tree of a Python source ([ast])

    The tree is what [ast.parse] returns, restricted to what the tools
    inspect. Leaf nodes that no check looks at ([alias], [Load],
    [Store], ...) are left out, which does not change the order in
    which [ast.walk] yields the remaining nodes. A [Constant] carries
    [str(value)]; a [FunctionDef] carries the names of its positional
    parameters and its return annotation besides its child nodes. *)

Module Ast.

Inductive node : Type :=
| Import (lineno : nat) (names : list string)
| ImportFrom (lineno : nat) (module : option string)
| Call (lineno : nat) (func : node) (args : list node) (keywords : list node)
| Attribute (lineno : nat) (value : node) (attr : string)
| Name (id : string)
| Constant (value : string)
| List_ (elts : list node)
| ClassDef (name : string) (bases : list node) (body : list node)
| FunctionDef (name : string) (params : list string) (returns : option node)
    (children : list node)
| Other (children : list node).

(** [ast.iter_child_nodes]. *)
Definition child_nodes (n : node) : list node :=
  match n with
  | Call _ f args kws => f :: args ++ kws
  | Attribute _ v _ => [v]
  | List_ elts => elts
  | ClassDef _ bases body => bases ++ body
  | FunctionDef _ _ _ cs => cs
  | Other cs => cs
  | Import _ _ | ImportFrom _ _ | Name _ | Constant _ => []
  end.

(** The number of nodes of a tree. *)
Fixpoint size (n : node) : nat :=
  let sizes := fix sizes (l : list node) : nat :=
    match l with
    | [] => 0
    | x :: l' => size x + sizes l'
    end in
  match n with
  | Call _ f args kws => S (size f + sizes args + sizes kws)
  | Attribute _ v _ => S (size v)
  | List_ elts => S (sizes elts)
  | ClassDef _ bases body => S (sizes bases + sizes body)
  | FunctionDef _ _ _ cs => S (sizes cs)
  | Other cs => S (sizes cs)
  | Import _ _ | ImportFrom _ _ | Name _ | Constant _ => 1
  end.

(** [ast.walk]: the nodes in breadth-first order, from a queue. *)
Fixpoint walk_queue (fuel : nat) (todo : list node) : list node :=
  match fuel, todo with
  | S f, n :: todo' => n :: walk_queue f (todo' ++ child_nodes n)
  | _, _ => []
  end.

Definition walk (tree : node) : list node := walk_queue (size tree) [tree].

(** What [ast.parse(content)] does: it returns a tree, raises
    [SyntaxError] (with its line number, when it has one), or raises
    another exception. *)
Inductive parse_result : Type :=
| Parsed (tree : node)
| SyntaxError (lineno : option nat) (msg : string)
| ParseRaised (msg : string).

End Ast.

(** ** What a tool finds on disk *)

Module Fs.
Import PyStr Ast.

(** What reading a file gives: its text decoded as [utf-8]; its text
    decoded as [latin-1] after [utf-8] failed to decode; a failure of
    the second read too; or an exception other than a decoding error. *)
Inductive read_result : Type :=
| ReadText (content : string)
| ReadLatin1 (content : string)
| ReadUndecodable
| ReadRaised (msg : string).

(** One path below a submission directory, as [rglob("*")] yields it. *)
Record Entry : Type :=
  { rel_path : string;
    is_file : bool;
    is_dir : bool;
    file_size : N;
    text : read_result;
    parsed : parse_result }.

(** A submission directory: [str(submission_path)] and what is below it. *)
Record Submission : Type :=
  { sub_path : string;
    entries : list Entry }.

(** [path.name]: the last component. *)
Definition path_name (p : string) : string :=
  default EmptyString (last (split_char "/" p)).

(** [str(entry)]: the path of an entry below the submission. *)
Definition full_path (sub : Submission) (e : Entry) : string :=
  sub_path sub +:+ "/" +:+ rel_path e.

Fixpoint after_last_dot (s : string) : option string :=
  match s with
  | EmptyString => None
  | String c s' =>
      match after_last_dot s' with
      | Some t => Some t
      | None => if Ascii.eqb c "." then Some s' else None
      end
  end.

(** [path.suffix]: from the last dot of the name on, when that dot is
    neither the first nor the last character. *)
Definition path_suffix (p : string) : string :=
  match path_name p with
  | String _ tail =>
      match after_last_dot tail with
      | Some (String c t) => "." +:+ String c t
      | _ => EmptyString
      end
  | EmptyString => EmptyString
  end.

(** [s.endswith(e)]. *)
Definition endswith (e s : string) : bool :=
  bool_decide (String.length e <= String.length s) &&
  String.eqb (String.substring (String.length s - String.length e) (String.length e) s) e.

(** The entry at a relative path, when there is one. *)
Definition lookup_entry (sub : Submission) (rel : string) : option Entry :=
  List.find (fun e => String.eqb (rel_path e) rel) (entries sub).

(** [(submission_path / rel).exists()]. *)
Definition path_exists (sub : Submission) (rel : string) : bool :=
  bool_decide (is_Some (lookup_entry sub rel)).

(** [s in l] for a list of strings. *)
Definition in_list (s : string) (l : list string) : bool :=
  existsb (String.eqb s) l.

(** The characters of a text that are ASCII. *)
Fixpoint ascii_only (s : string) : string :=
  match s with
  | EmptyString => EmptyString
  | String c s' => if (code c <? 128)%N then String c (ascii_only s') else ascii_only s'
  end.

(** [read_text(encoding='utf-8', errors='ignore')]: bytes that do not
    decode are dropped. *)
Definition text_lenient (e : Entry) : option string :=
  match text e with
  | ReadText content => Some content
  | ReadLatin1 content => Some (ascii_only content)
  | _ => None
  end.

(** The entries whose name satisfies a test, as [glob("**/...")] and
    [rglob] yield them. *)
Definition glob_name (sub : Submission) (test : string -> bool) : list Entry :=
  List.filter (fun e => test (path_name (rel_path e))) (entries sub).

(** The entries outside the folder of the base template. *)
Definition outside_template (sub : Submission) (l : list Entry) : list Entry :=
  List.filter (fun e => negb (contains "base-bot-template" (full_path sub e))) l.

(** [any(w in s for w in words)]. *)
Definition any_in (words : list string) (s : string) : bool :=
  existsb (fun w => contains w s) words.

(** The elements of a list without their repetitions, each at its
    first place. *)
Fixpoint dedup_strings (l : list string) : list string :=
  match l with
  | [] => []
  | x :: l' => x :: List.filter (fun y => negb (String.eqb x y)) (dedup_strings l')
  end.

End Fs.

(** ** Stage 1: the security audit ([security_audit_framework_v2.py]) *)

Module SecurityAudit.
Import PyStr PyNum Ast Fs.

(** [SecurityIssue]; the remediation text, a fixed message per rule, is
    left out. *)
Record SecurityIssue : Type :=
  { severity : Severity;
    category : string;
    description : string;
    file_path : string;
    line_number : option nat;
    code_snippet : option string }.

(** One entry of [dangerous_patterns]. *)
Record PatternCategory : Type :=
  { cat_name : string;
    cat_patterns : list string;
    cat_severity : Severity;
    cat_category : string }.

(** [_initialize_patterns], in the order of the dictionary. *)
Definition dangerous_patterns : list PatternCategory :=
  [ {| cat_name := "code_injection";
       cat_patterns := ["\bexec\s*\("; "\beval\s*\("; "\bcompile\s*\("; "__import__\s*\("];
       cat_severity := CRITICAL; cat_category := "Code Injection" |};
    {| cat_name := "system_access";
       cat_patterns := ["\bos\.system\s*\("; "\bos\.popen\s*\("; "\bos\.spawn\w*\s*\(";
                        "\bcommands\."];
       cat_severity := CRITICAL; cat_category := "System Access" |};
    {| cat_name := "file_system_write";
       cat_patterns := ["open\s*\([^)]*[" +:+ dquote +:+ "\'][wa][" +:+ dquote +:+ "\']"];
       cat_severity := MEDIUM; cat_category := "File System Write" |};
    {| cat_name := "network_access";
       cat_patterns := ["\brequests\."; "\burllib\."; "\bsocket\."; "\bhttp\.";
                        "\bsmtplib\."; "\bftplib\."];
       cat_severity := HIGH; cat_category := "Network Access" |};
    {| cat_name := "reflection";
       cat_patterns := ["\bgetattr\s*\("; "\bsetattr\s*\("; "\bhasattr\s*\(";
                        "\bdelattr\s*\("; "\bglobals\s*\(\)"; "\blocals\s*\(\)";
                        "\bvars\s*\("];
       cat_severity := LOW; cat_category := "Reflection/Dynamic Access" |} ].

(** [_initialize_safe_imports]. *)
Definition safe_imports : list string :=
  [ "os"; "sys"; "datetime"; "time"; "math"; "statistics";
    "collections"; "typing"; "dataclasses"; "pathlib";
    "json"; "csv"; "logging"; "argparse"; "warnings";
    "queue"; "heapq"; "bisect"; "array"; "copy";
    "pickle"; "shelve"; "gzip"; "zipfile";
    "numpy"; "pandas"; "scipy"; "sklearn"; "statsmodels";
    "yfinance"; "ccxt"; "alpha_vantage"; "quandl"; "bloomberg";
    "investpy"; "fredapi"; "pandas_datareader";
    "talib"; "ta"; "finta"; "tulip"; "tulipy";
    "matplotlib"; "seaborn"; "plotly"; "bokeh";
    "strategy_interface"; "exchange_interface"; "universal_bot";
    "base64"; "hashlib"; "hmac"; "uuid";
    "unittest"; "pytest"; "mock";
    "__future__"; "abc"; "enum"; "functools"; "itertools";
    "operator"; "random"; "secrets"; "string"; "re" ].

Definition executable_extensions : list string :=
  [".sh"; ".bat"; ".ps1"; ".cmd"; ".exe"; ".dll"; ".so"; ".pyd"; ".jar"; ".class"].
Definition suspicious_extensions : list string := [".bin"; ".dat"; ".tmp"; ".log"].

(** The test of the comment skip: [line.strip().startswith('#')]. *)
Definition is_comment_line (line : string) : bool := startswith "#" (strip line).

(** The issue one rule raises on one line. *)
Definition pattern_issue (c : PatternCategory) (pattern path : string)
    (line_num : nat) (line : string) : SecurityIssue :=
  {| severity := cat_severity c;
     category := cat_category c;
     description := "Dangerous pattern detected: " +:+ pattern;
     file_path := path;
     line_number := Some line_num;
     code_snippet := Some (strip line) |}.

(** The innermost loop of [_check_dangerous_patterns]: one pattern over
    the numbered lines. *)
Definition scan_lines (c : PatternCategory) (pattern path : string)
    (numbered : list (nat * string)) : list SecurityIssue :=
  flat_map (fun '(line_num, line) =>
    if is_comment_line line then []
    else if Re.found pattern line Re.IGNORECASE
         then [pattern_issue c pattern path line_num line]
         else []) numbered.

(** [_check_dangerous_patterns] over a rule catalog: the categories,
    then the patterns of a category, then the lines. *)
Definition check_patterns_with (catalog : list PatternCategory)
    (content path : string) : list SecurityIssue :=
  let lines := splitlines content in
  flat_map (fun c =>
    flat_map (fun pattern => scan_lines c pattern path (enumerate1 lines))
             (cat_patterns c)) catalog.

Definition _check_dangerous_patterns : string -> string -> list SecurityIssue :=
  check_patterns_with dangerous_patterns.

(** [content_lines[node.lineno - 1].strip() if node.lineno <=
    len(content_lines) else ""]; line numbers start at one. *)
Definition full_line_at (content_lines : list string) (lineno : nat) : string :=
  if lineno <=? length content_lines
  then strip (default EmptyString (line_at content_lines lineno))
  else EmptyString.

Definition strategy_words : list string :=
  [ "strategy"; "champion"; "winner"; "ultimate"; "final"; "victory";
    "hybrid"; "aggressive"; "rapid"; "smart"; "breakout"; "momentum" ].

Definition contest_common : list string :=
  ["your_strategy"; "startup"; "backtest_runner"; "optimizer"].

(** [name.split('.')[0]]. *)
Definition first_component (name : string) : string :=
  default EmptyString (head (split_char "." name)).

(** The modules an import statement names. *)
Definition imported_modules (n : node) : list string :=
  match n with
  | Import _ names => map first_component names
  | ImportFrom _ (Some m) =>
      if String.eqb m EmptyString then [] else [first_component m]
  | _ => []
  end.

Definition node_lineno (n : node) : nat :=
  match n with
  | Import l _ | ImportFrom l _ | Call l _ _ _ | Attribute l _ _ => l
  | _ => 0
  end.

(** [_check_imports_allowlist]. *)
Definition _check_imports_allowlist (n : node) (content_lines : list string)
    (path : string) : list SecurityIssue :=
  let full_line := full_line_at content_lines (node_lineno n) in
  flat_map (fun md =>
    let is_contest_common := in_list md contest_common in
    let is_strategy_import :=
      existsb (fun w => contains w (lower md)) strategy_words in
    if negb (existsb (fun safe => startswith safe md) safe_imports)
       && negb is_contest_common
    then
      if is_strategy_import then
        [ {| severity := MEDIUM;
             category := "Strategy Import Collection";
             description := "Import of strategy module: " +:+ md
                            +:+ " (potential strategy collection)";
             file_path := path;
             line_number := Some (node_lineno n);
             code_snippet := Some full_line |} ]
      else
        [ {| severity := LOW;
             category := "Unapproved Imports";
             description := "Import of non-whitelisted module: " +:+ md;
             file_path := path;
             line_number := Some (node_lineno n);
             code_snippet := Some full_line |} ]
    else []) (imported_modules n).

(** The text of the constants of a list literal, joined by spaces. *)
Definition command_line_of (arg : node) : option string :=
  match arg with
  | List_ elts =>
      Some (join " " (omap (fun item =>
              match item with Constant v => Some v | _ => None end) elts))
  | _ => None
  end.

(** The test on one list argument of a [subprocess] call. *)
Definition is_pip_install_yfinance (command_line : string) : bool :=
  contains "pip" command_line && contains "install" command_line
  && contains "yfinance" command_line
  && bool_decide (last (words command_line) = Some "yfinance").

Definition is_yfinance_install (args : list node) : bool :=
  existsb (fun arg =>
    match command_line_of arg with
    | Some cl => is_pip_install_yfinance cl
    | None => false
    end) args.

Definition report_markers : list string :=
  [".md"; ".txt"; ".log"; ".csv"; ".json"; "report"; "backtest"].

Definition as_name (n : node) : option string :=
  match n with Name id => Some id | _ => None end.
Definition as_constant (n : node) : option string :=
  match n with Constant v => Some v | _ => None end.

(** [isinstance(func, ast.Attribute) and isinstance(func.value, ast.Name)],
    with the name when the test holds. *)
Definition as_attribute_of_name (func : node) : option string :=
  match func with Attribute _ v _ => as_name v | _ => None end.

(** The issues for a call of [exec], [eval], [compile] or [__import__]. *)
Definition code_execution_issues (id : string) (lineno : nat) (full_line path : string)
    : list SecurityIssue :=
  if in_list id ["exec"; "eval"; "compile"; "__import__"] then
    [ {| severity := CRITICAL;
         category := "Code Injection";
         description := "Dangerous code execution function: " +:+ id;
         file_path := path;
         line_number := Some lineno;
         code_snippet := Some full_line |} ]
  else [].

(** The issues for a call [subprocess.f(...)]. *)
Definition subprocess_issues (vid : string) (args : list node) (lineno : nat)
    (full_line path : string) : list SecurityIssue :=
  if String.eqb vid "subprocess" then
    if is_yfinance_install args then
      [ {| severity := LOW;
           category := "Dependency Management";
           description := "Runtime pip install for yfinance (contest acceptable)";
           file_path := path;
           line_number := Some lineno;
           code_snippet := Some full_line |} ]
    else
      [ {| severity := CRITICAL;
           category := "System Access";
           description := "Subprocess call detected - potential system access";
           file_path := path;
           line_number := Some lineno;
           code_snippet := Some full_line |} ]
  else [].

(** The issues for a call [open(name, mode)] with a constant mode. *)
Definition file_write_issues (args : list node) (lineno : nat)
    (full_line path : string) : list SecurityIssue :=
  match args !! 1 ≫= as_constant with
  | Some mode =>
      if existsb (fun m => contains m mode) ["w"; "a"; "x"] then
        let is_report_file :=
          match args !! 0 ≫= as_constant with
          | Some filename =>
              existsb (fun e => contains e (lower filename)) report_markers
          | None => false
          end in
        [ {| severity := if is_report_file then MEDIUM else HIGH;
             category := "File System Write";
             description := "File write operation detected: mode=" +:+ mode
                            +:+ (if is_report_file then " (report file)" else "");
             file_path := path;
             line_number := Some lineno;
             code_snippet := Some full_line |} ]
      else []
  | None => []
  end.

(** [_check_dangerous_calls]: the three branches of the source, tried
    in its order ([if] / [elif] / [elif]). *)
Definition _check_dangerous_calls (n : node) (content_lines : list string)
    (path : string) : list SecurityIssue :=
  match n with
  | Call lineno func args _ =>
      let full_line := full_line_at content_lines lineno in
      match as_name func with
      | Some id => code_execution_issues id lineno full_line path
      | None =>
          match as_attribute_of_name func with
          | Some vid => subprocess_issues vid args lineno full_line path
          | None =>
              match as_name func with
              | Some id =>
                  if String.eqb id "open"
                  then file_write_issues args lineno full_line path
                  else []
              | None => []
              end
          end
      end
  | _ => []
  end.

(** [_check_attribute_access]. *)
Definition _check_attribute_access (n : node) (content_lines : list string)
    (path : string) : list SecurityIssue :=
  match n with
  | Attribute lineno (Name vid) attr =>
      if String.eqb vid "os" && in_list attr ["environ"; "getenv"] then
        [ {| severity := MEDIUM;
             category := "Environment Access";
             description := "Access to environment variables detected";
             file_path := path;
             line_number := Some lineno;
             code_snippet := Some (full_line_at content_lines lineno) |} ]
      else []
  | _ => []
  end.

(** The body of the loop over [ast.walk(tree)]. *)
Definition node_issues (content_lines : list string) (path : string) (n : node)
    : list SecurityIssue :=
  match n with
  | Import _ _ | ImportFrom _ _ => _check_imports_allowlist n content_lines path
  | Call _ _ _ _ => _check_dangerous_calls n content_lines path
  | Attribute _ _ _ => _check_attribute_access n content_lines path
  | _ => []
  end.

(** [_analyze_ast]; [None] stands for an exception other than
    [SyntaxError] raised by the parser. *)
Definition _analyze_ast (content : string) (parsed : parse_result) (path : string)
    : option (list SecurityIssue) :=
  match parsed with
  | SyntaxError lineno msg =>
      Some [ {| severity := HIGH;
                category := "Syntax Error";
                description := "Python syntax error: " +:+ msg;
                file_path := path;
                line_number := lineno;
                code_snippet := None |} ]
  | ParseRaised _ => None
  | Parsed tree =>
      Some (flat_map (node_issues (splitlines content) path) (walk tree))
  end.

(** The long quoted run of base64 characters [_check_obfuscation]
    looks for. *)
Definition base64_literal_pattern : string :=
  "[" +:+ dquote +:+ "\'][A-Za-z0-9+/]{100,}={0,2}[" +:+ dquote +:+ "\']".

Definition base64_alphabet : string :=
  "ABCDEFGHIJKLMNOPQRSTUVWXYZabcdefghijklmnopqrstuvwxyz0123456789+/".

Fixpoint count_chars (p : ascii -> bool) (s : string) : nat :=
  match s with
  | EmptyString => 0
  | String c s' => (if p c then 1 else 0) + count_chars p s'
  end.

(** [lines[max(0, a):min(len(lines), b)]]. *)
Definition slice {A : Type} (a b : nat) (l : list A) : list A :=
  firstn (Nat.min (length l) b - a) (skipn a l).

Definition newline_string : string := String Re.newline EmptyString.

(** [_check_obfuscation]. *)
Definition _check_obfuscation (content path : string) : list SecurityIssue :=
  let lines := splitlines content in
  flat_map (fun '(line_num, line) =>
    if Re.found base64_literal_pattern line Re.no_flags then
      let context := join newline_string (slice (line_num - 3) (line_num + 3) lines) in
      if contains "base64" context && (contains "exec" context || contains "eval" context)
      then
        [ {| severity := CRITICAL;
             category := "Code Obfuscation";
             description := "Potential obfuscated code execution detected";
             file_path := path;
             line_number := Some line_num;
             code_snippet := Some (take 100 (strip line) +:+ "...") |} ]
      else if 200 <? count_chars (fun c => mem_char c base64_alphabet) line
      then
        [ {| severity := HIGH;
             category := "Suspicious Encoding";
             description := "Very long encoded string detected";
             file_path := path;
             line_number := Some line_num;
             code_snippet := Some (take 100 (strip line) +:+ "...") |} ]
      else []
    else []) (enumerate1 lines).

(** [_scan_python_file]; [inr msg] stands for an exception that
    escapes to [scan_submission]. The path given to the checks is
    [str(file_path)], the full path of the file. *)
Definition _scan_python_file (path : string) (txt : read_result)
    (tree : parse_result) : list SecurityIssue + string :=
  let scan (content : string) : list SecurityIssue + string :=
    let pattern_issues := _check_dangerous_patterns content path in
    match _analyze_ast content tree path with
    | None => inr (match tree with ParseRaised msg => msg | _ => EmptyString end)
    | Some ast_issues =>
        inl (pattern_issues ++ ast_issues ++ _check_obfuscation content path)
    end in
  match txt with
  | ReadText content | ReadLatin1 content => scan content
  | ReadUndecodable =>
      inl [ {| severity := HIGH;
               category := "File Read Error";
               description := "Cannot read file - potential encoding issues or corruption";
               file_path := path;
               line_number := None;
               code_snippet := None |} ]
  | ReadRaised msg => inr msg
  end.

(** [_check_non_python_files]. *)
Definition _check_non_python_files (sub : Submission) : list SecurityIssue :=
  flat_map (fun e =>
    if negb (is_file e) then []
    else if contains "base-bot-template" (full_path sub e) then []
    else
      let file_ext := lower (path_suffix (rel_path e)) in
      if in_list file_ext executable_extensions then
        [ {| severity := CRITICAL;
             category := "Executable Artifact";
             description := "Executable file present in submission: " +:+ file_ext;
             file_path := rel_path e;
             line_number := None;
             code_snippet := None |} ]
      else if negb (String.eqb file_ext ".py") && (1024 * 1024 <? file_size e)%N then
        [ {| severity := HIGH;
             category := "Suspicious Large File";
             description := "Large non-Python file ("
               +:+ format_1f (inject_Z (Z.of_N (file_size e)) / 1024 / 1024)
               +:+ "MB): " +:+ path_name (rel_path e);
             file_path := rel_path e;
             line_number := None;
             code_snippet := None |} ]
      else if in_list file_ext suspicious_extensions then
        [ {| severity := MEDIUM;
             category := "Suspicious File Type";
             description := "Potentially suspicious file type: " +:+ file_ext;
             file_path := rel_path e;
             line_number := None;
             code_snippet := None |} ]
      else []) (entries sub).

(** The folder-name pattern of a submission: [#ID (Name)]. *)
Definition participant_pattern : string := "#\d+\s*\(([^)]+)\)".

(** The participant named in a folder name, when it has the form
    [#ID (Name)]. *)
Definition participant_of_name (folder_name : string) : option string :=
  match Re.search participant_pattern folder_name Re.no_flags with
  | Some m => strip <$> Re.group 1 m
  | None => None
  end.

(** The first of the first ten lines that names an author, cut after
    its first colon. *)
Definition author_line (content : string) : option string :=
  let hit :=
    List.find (fun line =>
      existsb (fun kw => contains kw (lower line)) ["author:"; "participant:"; "by:"])
      (firstn 10 (splitlines content)) in
  match hit with
  | Some line => strip <$> split_once ":" line !! 1
  | None => None
  end.

(** [_extract_participant_name]: the folder name first, then the
    README files that exist and can be read. *)
Definition _extract_participant_name (sub : Submission) : string :=
  match participant_of_name (path_name (sub_path sub)) with
  | Some name => name
  | None =>
      let from_readme (readme : string) : option string :=
        match List.find (fun e => String.eqb (rel_path e) readme) (entries sub) with
        | Some e =>
            match text e with
            | ReadText content => author_line content
            | _ => None
            end
        | None => None
        end in
      default "Unknown"
        (head (omap from_readme ["README.md"; "README.txt"; "readme.md"; "readme.txt"]))
  end.

(** [SecurityAuditResult], without its time stamp. *)
Record SecurityAuditResult : Type :=
  { submission_id : string;
    participant : string;
    total_issues : nat;
    critical_issues : nat;
    high_issues : nat;
    medium_issues : nat;
    low_issues : nat;
    security_score : Q;
    passed : bool;
    issues : list SecurityIssue;
    files_scanned : list string }.

(** The score of [scan_submission]: 100 less 40, 15, 5 and 1 points per
    critical, high, medium and low issue, and never below zero. *)
Definition score_of_counts (critical high medium low : nat) : Q :=
  Qmax 0 (100 - of_nat critical * 40 - of_nat high * 15 - of_nat medium * 5
              - of_nat low * 1).

(** The Python files of a submission that are scanned. *)
Definition python_files (sub : Submission) : list Entry :=
  List.filter (fun e => endswith ".py" (path_name (rel_path e))
                   && negb (contains "base-bot-template" (full_path sub e)))
         (entries sub).

(** The issues of one Python file, as the loop of [scan_submission]
    collects them: an exception becomes one "Scan Error" issue. *)
Definition file_issues (sub : Submission) (e : Entry) : list SecurityIssue :=
  match _scan_python_file (full_path sub e) (text e) (parsed e) with
  | inl found => found
  | inr msg =>
      [ {| severity := HIGH;
           category := "Scan Error";
           description := "Failed to scan file: " +:+ msg;
           file_path := rel_path e;
           line_number := None;
           code_snippet := None |} ]
  end.

(** The verdict of [scan_submission] on a list of issues. *)
Definition audit_result (id who : string) (all_issues : list SecurityIssue)
    (scanned : list string) : SecurityAuditResult :=
  let critical_count := count_severity severity CRITICAL all_issues in
  let high_count := count_severity severity HIGH all_issues in
  let medium_count := count_severity severity MEDIUM all_issues in
  let low_count := count_severity severity LOW all_issues in
  let score := score_of_counts critical_count high_count medium_count low_count in
  {| submission_id := id;
     participant := who;
     total_issues := length all_issues;
     critical_issues := critical_count;
     high_issues := high_count;
     medium_issues := medium_count;
     low_issues := low_count;
     security_score := score;
     passed := (critical_count =? 0) && Qle_bool 60 score;
     issues := all_issues;
     files_scanned := scanned |}.

(** [scan_submission]. *)
Definition scan_submission (sub : Submission) : SecurityAuditResult :=
  let all_issues :=
    _check_non_python_files sub ++ flat_map (file_issues sub) (python_files sub) in
  audit_result (path_name (sub_path sub)) (_extract_participant_name sub)
    all_issues (map rel_path (python_files sub)).

(** One row of [security_audit_summary.json]. *)
Record SummaryEntry : Type :=
  { se_submission_id : string;
    se_security_score : Q;
    se_passed : bool;
    se_total_issues : nat }.

Definition summary_entry (r : SecurityAuditResult) : SummaryEntry :=
  {| se_submission_id := submission_id r;
     se_security_score := security_score r;
     se_passed := passed r;
     se_total_issues := total_issues r |}.

End SecurityAudit.

(** ** Stage 2: the strict compliance check
    ([contest_compliance_checker_strict.py]) *)

Module StrictCompliance.
Import PyStr PyNum Ast Fs.

(** [ComplianceIssue]; the remediation text is left out. *)
Record ComplianceIssue : Type :=
  { severity : Severity;
    category : string;
    description : string;
    file_path : string }.

Definition issue (sev : Severity) (cat desc path : string) : ComplianceIssue :=
  {| severity := sev; category := cat; description := desc; file_path := path |}.

(** [required_files], in the order of the dictionary. *)
Definition required_files : list (string * Severity) :=
  [ ("your-strategy-template/your_strategy.py", CRITICAL);
    ("your-strategy-template/startup.py", HIGH);
    ("your-strategy-template/Dockerfile", HIGH);
    ("your-strategy-template/requirements.txt", HIGH);
    ("your-strategy-template/README.md", MEDIUM);
    ("reports/backtest_runner.py", CRITICAL);
    ("reports/backtest_report.md", HIGH);
    ("trade_logic_explanation.md", LOW) ].

Definition constructor_patterns : list string :=
  [ "def __init__\s*\(\s*self\s*,.*config.*:.*Dict.*,.*exchange";
    "def __init__\s*\(\s*self\s*,.*\*.*,.*config.*:.*Dict.*,.*exchange" ].

Definition strategy_file : string := "your-strategy-template/your_strategy.py".

(** Each check returns its verdict and the issues it appends. *)
Definition checked : Type := bool * list ComplianceIssue.

(** [_check_exact_file_structure]. *)
Definition _check_exact_file_structure (sub : Submission) : checked :=
  let missing := List.filter (fun '(f, _) => negb (path_exists sub f)) required_files in
  (bool_decide (missing = []),
   map (fun '(f, sev) =>
          issue sev "Missing Required File" ("Required file missing: " +:+ f) f) missing).

(** The text of the strategy file when [read_text(encoding='utf-8')]
    succeeds. *)
Definition utf8_text (e : Entry) : option string :=
  match text e with
  | ReadText content => Some content
  | _ => None
  end.

Definition inherits_base_strategy (n : node) : bool :=
  match n with
  | ClassDef _ bases _ =>
      existsb (fun b => match b with Name id => String.eqb id "BaseStrategy" | _ => false end)
              bases
  | _ => false
  end.

Definition exception_text (e : Entry) : string :=
  match text e, parsed e with
  | ReadRaised msg, _ => msg
  | ReadText _, SyntaxError _ msg => msg
  | ReadText _, ParseRaised msg => msg
  | _, _ => EmptyString
  end.

(** [_check_base_strategy_inheritance]. *)
Definition _check_base_strategy_inheritance (sub : Submission) : checked :=
  match lookup_entry sub strategy_file with
  | None =>
      (false, [issue CRITICAL "Missing Strategy File"
                 "Main strategy file your_strategy.py not found" strategy_file])
  | Some e =>
      match utf8_text e, parsed e with
      | Some content, Parsed tree =>
          if negb (existsb inherits_base_strategy (walk tree)) then
            (false, [issue CRITICAL "BaseStrategy Inheritance"
                       "Strategy class does not inherit from BaseStrategy" strategy_file])
          else if negb (contains "from strategy_interface import" content)
                  || negb (contains "BaseStrategy" content) then
            (false, [issue CRITICAL "BaseStrategy Import"
                       "BaseStrategy not properly imported from strategy_interface"
                       strategy_file])
          else (true, [])
      | _, _ =>
          (false, [issue CRITICAL "Strategy File Error"
                     ("Error parsing strategy file: " +:+ exception_text e) strategy_file])
      end
  end.

Definition is_generate_signal (n : node) : bool :=
  match n with
  | FunctionDef name _ _ _ => String.eqb name "generate_signal"
  | _ => false
  end.

Definition has_correct_signature (n : node) : bool :=
  match n with
  | FunctionDef _ params _ _ =>
      (3 <=? length params) && in_list "self" params && in_list "market" params
      && in_list "portfolio" params
  | _ => false
  end.

Definition returns_signal_type (n : node) : bool :=
  match n with
  | FunctionDef _ _ (Some (Name id)) _ => String.eqb id "Signal"
  | _ => false
  end.

(** [_check_generate_signal_method]. *)
Definition _check_generate_signal_method (sub : Submission) : checked :=
  match lookup_entry sub strategy_file with
  | None => (false, [])
  | Some e =>
      match utf8_text e, parsed e with
      | Some content, Parsed tree =>
          let defs := List.filter is_generate_signal (walk tree) in
          if bool_decide (defs = []) then
            (false, [issue CRITICAL "Missing Method"
                       "generate_signal method not implemented" strategy_file])
          else
            (true,
             (if existsb has_correct_signature defs then []
              else [issue HIGH "Method Signature"
                      "generate_signal method has incorrect signature" strategy_file])
             ++
             (if existsb returns_signal_type defs then []
              else [issue HIGH "Return Type"
                      "generate_signal method should return Signal type" strategy_file]))
      | _, _ =>
          (false, [issue HIGH "Method Check Error"
                     ("Error checking generate_signal method: " +:+ exception_text e)
                     strategy_file])
      end
  end.

(** The checks on the text of the strategy file alone: a file that is
    missing or cannot be read fails the check without an issue. *)
Definition on_strategy_text (sub : Submission) (check : string -> checked) : checked :=
  match lookup_entry sub strategy_file with
  | None => (false, [])
  | Some e =>
      match utf8_text e with
      | Some content => check content
      | None => (false, [])
      end
  end.

(** [_check_signal_class_usage]. *)
Definition _check_signal_class_usage (sub : Submission) : checked :=
  on_strategy_text sub (fun content =>
    if negb (contains "Signal" content) then
      (false, [issue CRITICAL "Signal Import" "Signal class not imported" strategy_file])
    else if negb (contains "Signal(" content) && negb (contains "return Signal" content) then
      (false, [issue HIGH "Signal Usage" "Signal class not used in strategy" strategy_file])
    else (true, [])).

(** [_check_strategy_registration]. *)
Definition _check_strategy_registration (sub : Submission) : checked :=
  on_strategy_text sub (fun content =>
    if negb (contains "register_strategy" content) then
      (false, [issue HIGH "Strategy Registration"
                 "Strategy not registered using register_strategy()" strategy_file])
    else (true, [])).

(** [_check_constructor_compliance]. *)
Definition _check_constructor_compliance (sub : Submission) : checked :=
  on_strategy_text sub (fun content =>
    if existsb (fun pattern => Re.found pattern content Re.MULTILINE_DOTALL)
               constructor_patterns
    then (true, [])
    else (false, [issue HIGH "Constructor Signature"
                    "Constructor does not match required signature" strategy_file])).

Definition deduction (sev : Severity) : Q :=
  match sev with
  | CRITICAL => 25
  | HIGH => 10
  | MEDIUM => 5
  | LOW => 2
  end.

(** [_calculate_compliance_score]. *)
Definition _calculate_compliance_score (issues : list ComplianceIssue) : Q :=
  qmax 0 (fold_left (fun score i => (score - deduction (severity i))%Q) issues 100%Q).

Record ComplianceResult : Type :=
  { submission_id : string;
    participant : string;
    passed : bool;
    compliance_score : Q;
    issues : list ComplianceIssue;
    required_structure_compliance : bool;
    base_strategy_inheritance : bool;
    generate_signal_method : bool;
    signal_class_usage : bool;
    strategy_registration : bool;
    constructor_compliance : bool;
    required_files_found : nat;
    required_files_total : nat }.

(** [any(issue.severity == "CRITICAL" for issue in issues)]. *)
Definition critical_failed {A : Type} (severity : A -> Severity) (l : list A) : bool :=
  existsb (fun i => severity_eqb (severity i) CRITICAL) l.

(** [_extract_participant_name]. *)
Definition _extract_participant_name (sub : Submission) : string :=
  default "Unknown" (SecurityAudit.participant_of_name (path_name (sub_path sub))).

(** [check_submission]. *)
Definition check_submission (sub : Submission) : ComplianceResult :=
  let c1 := _check_exact_file_structure sub in
  let c2 := _check_base_strategy_inheritance sub in
  let c3 := _check_generate_signal_method sub in
  let c4 := _check_signal_class_usage sub in
  let c5 := _check_strategy_registration sub in
  let c6 := _check_constructor_compliance sub in
  let all := c1.2 ++ c2.2 ++ c3.2 ++ c4.2 ++ c5.2 ++ c6.2 in
  let score := _calculate_compliance_score all in
  {| submission_id := path_name (sub_path sub);
     participant := _extract_participant_name sub;
     passed := negb (critical_failed severity all) && Qle_bool 80 score;
     compliance_score := score;
     issues := all;
     required_structure_compliance := c1.1;
     base_strategy_inheritance := c2.1;
     generate_signal_method := c3.1;
     signal_class_usage := c4.1;
     strategy_registration := c5.1;
     constructor_compliance := c6.1;
     required_files_found :=
       length (List.filter (fun '(f, _) => path_exists sub f) required_files);
     required_files_total := length required_files |}.

End StrictCompliance.

(** ** Stage 3: the data integrity check ([data_integrity_checker.py]) *)

Module DataIntegrity.
Import PyStr PyNum Ast Fs.

(** [DataIntegrityIssue]; the remediation text is left out. *)
Record DataIntegrityIssue : Type :=
  { severity : Severity;
    category : string;
    description : string;
    file_path : string;
    line_number : option nat;
    code_snippet : option string }.

Definition hardcoded_patterns : list string :=
  [ "(?:market_|current_|last_)?price\s*=\s*[\d.]{4,}";
    "(?:market_)?close\s*=\s*[\d.]{4,}";
    "(?:market_)?open\s*=\s*[\d.]{4,}";
    "(?:market_)?high\s*=\s*[\d.]{4,}";
    "(?:market_)?low\s*=\s*[\d.]{4,}";
    "(?:bid_|ask_)price\s*=\s*[\d.]{4,}";
    "(?:market_)?volume\s*=\s*[\d.]{6,}";
    "df\[[\'" +:+ dquote +:+ "](Close|Open|High|Low|Volume)[\'" +:+ dquote +:+ "]\]\s*=\s*[\d.]{4,}";
    "data\[[\'" +:+ dquote +:+ "](Close|Open|High|Low|Volume)[\'" +:+ dquote +:+ "]\]\s*=\s*[\d.]{4,}";
    "np\.array\(\[[\d.,\s]{20,}\]\)";
    "pd\.DataFrame\(\{[^}]*[\'" +:+ dquote +:+ "](Close|Open|High|Low|Volume)[^}]*:.*[\d.]{4,}.*\}\)";
    "if\s+.*price.*[>=<]+\s*[\d.]{4,}";
    "while\s+.*price.*[>=<]+\s*[\d.]{4,}" ].

Definition synthetic_patterns : list string :=
  [ "np\.random\.(randn|normal|uniform|randint|choice)";
    "random\.(gauss|uniform|normalvariate|randint|choice|sample)";
    "np\.linspace\(";
    "np\.arange\(";
    "range\(\d{2,}\)";
    "np\.(ones|zeros|full)\(\d+";
    "fake.*data";
    "mock.*data";
    "test.*data";
    "dummy.*data";
    "simulate.*data";
    "synthetic.*data";
    "artificial.*data";
    "generated.*prices";
    "math\.sin\(.*\)\s*\*.*price";
    "math\.cos\(.*\)\s*\*.*price";
    "np\.sin\(.*\)\s*\*.*[\d.]+";
    "fibonacci.*price";
    "for.*in.*range.*price.*=" ].

Definition hindsight_patterns : list string :=
  [ "shift\(-\d+\)";
    "\.loc\[.*:.*\+.*\]";
    "future.*data";
    "lookahead";
    "tomorrow";
    "next.*day";
    "forecast.*actual" ].

Definition timestamp_patterns : list string :=
  [ "datetime\(202[0-4].*23:59";
    "datetime\(.*00:00:00\)";
    "pd\.Timestamp\(.*weekend";
    "holiday.*trading";
    "3[2-9]:\d{2}:\d{2}";
    "[6-9][0-9]:\d{2}:\d{2}" ].

(** [content.split('\n')], numbered from one. *)
Definition numbered_lines (content : string) : list (nat * string) :=
  enumerate1 (split_char Re.newline content).

(** The files of a list of relative paths that exist and whose text
    can be read as [utf-8]. *)
Definition readable (sub : Submission) (paths : list string) : list (Entry * string) :=
  omap (fun rel =>
    match lookup_entry sub rel with
    | Some e => match text e with ReadText c => Some (e, c) | _ => None end
    | None => None
    end) paths.

(** The lines [_check_hardcoded_data] leaves alone. *)
Definition hardcoded_skip (line : string) : bool :=
  let ls := strip line in
  startswith "#" ls
  || (startswith "self." ls && any_in ["= 0.0"; "= 0"; "= None"] ls)
  || contains "config.get" ls
  || contains "_period" ls
  || contains "_threshold" ls
  || contains "param" (lower ls)
  || contains "optimization" (lower ls)
  || contains "range" (lower ls)
  || (contains "=" ls && contains "[" ls
      && any_in ["period"; "threshold"; "param"; "factor"; "ratio"; "weight";
                 "alpha"; "beta"; "gamma"] (lower ls)).

Definition line_issue (sev : Severity) (cat prefix : string) (e : Entry)
    (i : nat) (line : string) : DataIntegrityIssue :=
  {| severity := sev;
     category := cat;
     description := prefix +:+ strip line;
     file_path := rel_path e;
     line_number := Some i;
     code_snippet := Some (strip line) |}.

(** One issue per line and matching pattern, the lines outermost. *)
Definition line_pattern_issues (fl : Re.flags) (patterns : list string)
    (keep : string -> bool) (mk : nat -> string -> DataIntegrityIssue)
    (content : string) : list DataIntegrityIssue :=
  flat_map (fun '(i, line) =>
    if keep line then
      flat_map (fun pattern => if Re.found pattern line fl then [mk i line] else [])
               patterns
    else []) (numbered_lines content).

Definition critical_files : list string :=
  ["your-strategy-template/your_strategy.py"; "reports/backtest_runner.py"].

(** Each check returns whether it detected something and the issues it
    appends. *)
Definition checked : Type := bool * list DataIntegrityIssue.

Definition detected (found : list DataIntegrityIssue) : checked :=
  (negb (bool_decide (found = [])), found).

(** [_check_hardcoded_data]. *)
Definition _check_hardcoded_data (sub : Submission) : checked :=
  detected (flat_map (fun '(e, content) =>
    let name := lower (path_name (rel_path e)) in
    if contains "test" name || contains "example" name then []
    else line_pattern_issues Re.IGNORECASE hardcoded_patterns
           (fun line => negb (hardcoded_skip line))
           (line_issue CRITICAL "Hardcoded Data" "Hardcoded market data detected: " e)
           content) (readable sub critical_files)).

Definition market_terms : list string :=
  ["price"; "close"; "open"; "high"; "low"; "volume"; "data"; "ohlc"].

(** [_check_synthetic_data]. *)
Definition _check_synthetic_data (sub : Submission) : checked :=
  detected (flat_map (fun '(e, content) =>
    line_pattern_issues Re.IGNORECASE synthetic_patterns
      (fun line =>
         negb (startswith "#" (strip line))
         && negb (any_in ["test"; "demo"; "example"; "mock"; "param"; "optimization";
                          "grid"; "search"] (lower line))
         && any_in market_terms (lower line))
      (line_issue HIGH "Synthetic Data" "Synthetic data generation detected: " e)
      content) (readable sub critical_files)).

(** [_check_hindsight_bias]. *)
Definition _check_hindsight_bias (sub : Submission) : checked :=
  detected (flat_map (fun '(e, content) =>
    line_pattern_issues Re.IGNORECASE hindsight_patterns
      (fun line => negb (startswith "#" (strip line)))
      (line_issue CRITICAL "Hindsight Bias" "Potential future data leakage: " e)
      content) (readable sub ["your-strategy-template/your_strategy.py"])).

(** The entries [rglob] yields for a suffix, with the text of those
    that can be read as [utf-8]. *)
Definition readable_with_suffix (sub : Submission) (suffix : string)
    : list (Entry * string) :=
  omap (fun e =>
    if endswith suffix (path_name (rel_path e)) then
      match text e with ReadText c => Some (e, c) | _ => None end
    else None) (entries sub).

(** [_check_timestamp_manipulation]. *)
Definition _check_timestamp_manipulation (sub : Submission) : checked :=
  detected (flat_map (fun '(e, content) =>
    line_pattern_issues Re.no_flags timestamp_patterns (fun _ => true)
      (line_issue HIGH "Timestamp Manipulation" "Suspicious timestamp pattern: " e)
      content) (readable_with_suffix sub ".py")).

(** What the statistics of [pandas] give for one CSV file: an
    exception, or the largest relative price change when one exceeds
    50 percent and the largest volume spike when one exceeds 100 times
    the median. *)
Inductive csv_outcome : Type :=
| CsvRaised
| CsvStats (extreme_change : option Q) (extreme_spike : option Q).

(** [_check_unrealistic_data_patterns], given those statistics. *)
Definition _check_unrealistic_data_patterns (sub : Submission)
    (stats : string -> csv_outcome) : checked :=
  detected (flat_map (fun e =>
    if endswith ".csv" (path_name (rel_path e)) then
      match stats (rel_path e) with
      | CsvRaised => []
      | CsvStats change spike =>
          match change with
          | Some m =>
              [ {| severity := MEDIUM; category := "Unrealistic Data";
                   description := "Extreme price change detected: " +:+ format_1f m +:+ "%";
                   file_path := rel_path e; line_number := None; code_snippet := None |} ]
          | None => []
          end ++
          match spike with
          | Some m =>
              [ {| severity := MEDIUM; category := "Unrealistic Data";
                   description := "Extreme volume spike detected: " +:+ format_0f m
                                  +:+ "x median";
                   file_path := rel_path e; line_number := None; code_snippet := None |} ]
          | None => []
          end
      end
    else []) (entries sub)).

Definition timestamp_pattern : string := "(\d{4}-\d{2}-\d{2}\s+(\d{2}):(\d{2}):(\d{2}))".

(** The scan of the lines of one log: the first time stamp that is not
    a time of day ends the scan of the file (the exception is
    swallowed); the first one outside 9:30 to 16:00 is reported and
    ends it too. *)
Fixpoint first_off_hours (e : Entry) (lines : list (nat * string))
    : list DataIntegrityIssue :=
  match lines with
  | [] => []
  | (i, line) :: rest =>
      match Re.search timestamp_pattern line Re.no_flags with
      | None => first_off_hours e rest
      | Some m =>
          match Re.group 1 m, Re.group 2 m ≫= int_of_string, Re.group 3 m ≫= int_of_string with
          | Some stamp, Some hour, Some minute =>
              if ((24 <=? hour) || (60 <=? minute))%Z then []
              else if ((hour <? 9) || ((hour =? 9) && (minute <? 30))
                       || (16 <? hour) || ((hour =? 16) && (0 <? minute)))%Z
              then
                [ {| severity := MEDIUM;
                     category := "Non-Market Hours Trading";
                     description := "Trading activity outside market hours: " +:+ stamp;
                     file_path := rel_path e;
                     line_number := Some i;
                     code_snippet := Some (take 100 (strip line)) |} ]
              else first_off_hours e rest
          | _, _, _ => []
          end
      end
  end.

(** [_check_non_market_hours_trading]: the logs, then the CSV files. *)
Definition _check_non_market_hours_trading (sub : Submission) : checked :=
  detected (flat_map (fun '(e, content) => first_off_hours e (numbered_lines content))
    (readable_with_suffix sub ".log" ++ readable_with_suffix sub ".csv")).

(** [_check_yfinance_authenticity]. *)
Definition _check_yfinance_authenticity (sub : Submission) : checked :=
  detected (flat_map (fun '(e, content) =>
    if (contains "download" (lower content) || contains "fetch" (lower content))
       && negb (contains "yfinance" content) && negb (contains "yf" content)
    then
      [ {| severity := LOW;
           category := "Data Source Info";
           description := "Custom data loading without clear yfinance reference";
           file_path := rel_path e; line_number := None; code_snippet := None |} ]
    else []) (readable sub ["reports/backtest_runner.py"; "reports/data_loader.py"])).

Definition deduction (sev : Severity) : Q :=
  match sev with
  | CRITICAL => 30
  | HIGH => 15
  | MEDIUM => 8
  | LOW => 3
  end.

(** [_calculate_integrity_score]. *)
Definition _calculate_integrity_score (issues : list DataIntegrityIssue) : Q :=
  qmax 0 (fold_left (fun score i => (score - deduction (severity i))%Q) issues 100%Q).

Record DataIntegrityResult : Type :=
  { submission_id : string;
    participant : string;
    passed : bool;
    integrity_score : Q;
    issues : list DataIntegrityIssue;
    hardcoded_data_detected : bool;
    synthetic_data_detected : bool;
    hindsight_bias_detected : bool;
    suspicious_timestamps : bool;
    unrealistic_data_patterns : bool;
    non_market_hours_trading : bool }.

(** [check_submission]. *)
Definition check_submission (sub : Submission) (stats : string -> csv_outcome)
    : DataIntegrityResult :=
  let c1 := _check_hardcoded_data sub in
  let c2 := _check_synthetic_data sub in
  let c3 := _check_hindsight_bias sub in
  let c4 := _check_timestamp_manipulation sub in
  let c5 := _check_unrealistic_data_patterns sub stats in
  let c6 := _check_non_market_hours_trading sub in
  let c7 := _check_yfinance_authenticity sub in
  let all := c1.2 ++ c2.2 ++ c3.2 ++ c4.2 ++ c5.2 ++ c6.2 ++ c7.2 in
  let score := _calculate_integrity_score all in
  {| submission_id := path_name (sub_path sub);
     participant := StrictCompliance._extract_participant_name sub;
     passed := negb (StrictCompliance.critical_failed severity all) && Qle_bool 70 score;
     integrity_score := score;
     issues := all;
     hardcoded_data_detected := c1.1;
     synthetic_data_detected := c2.1;
     hindsight_bias_detected := c3.1;
     suspicious_timestamps := c4.1;
     unrealistic_data_patterns := c5.1;
     non_market_hours_trading := c6.1 |}.

End DataIntegrity.

(** ** Stage 4: the contest rules verification
    ([contest_rules_verifier.py]) *)

Module ContestRules.
Import PyStr PyNum Ast Fs.

(** [RuleViolation]; the remediation text is left out. *)
Record RuleViolation : Type :=
  { severity : Severity;
    category : string;
    description : string;
    file_path : string;
    metric_value : option Q;
    threshold : option Q }.

Definition violation (sev : Severity) (cat desc path : string) : RuleViolation :=
  {| severity := sev; category := cat; description := desc; file_path := path;
     metric_value := None; threshold := None |}.

(** The thresholds of [__init__]. *)
Definition MAX_DRAWDOWN : Q := 50.
Definition MIN_TRADES : Q := 10.
Definition STARTING_CAPITAL : Q := 10000.
Definition MAX_POSITION_SIZE : Q := 0.55.
Definition EXCELLENT_RETURN : Q := 25.
Definition GOOD_RETURN : Q := 10.

(** A dictionary of metrics. *)
Abbreviation Metrics := (gmap string Q).

(** [a.update(b)]: the keys of [b] take the values of [b]. *)
Definition update (a b : Metrics) : Metrics := b ∪ a.

(** *** The metric extractor *)

(** A step of a [try] block: [None] stands for [ValueError]. *)
Definition step : Type := Metrics -> option Metrics.

(** The steps in order: the dictionary as the last step that did not
    raise left it, and whether all of them ran. *)
Fixpoint run_steps (steps : list step) (m : Metrics) : Metrics * bool :=
  match steps with
  | [] => (m, true)
  | f :: fs =>
      match f m with
      | Some m' => run_steps fs m'
      | None => (m, false)
      end
  end.

(** [if s: ...float(s)...]: nothing happens on an empty cell. *)
Definition with_float (s : string) (use : Q -> Metrics -> Metrics) : step :=
  fun m =>
    if String.eqb s EmptyString then Some m
    else match float_of_string s with
         | Some v => Some (use v m)
         | None => None
         end.

Definition with_int (s : string) (use : Q -> Metrics -> Metrics) : step :=
  fun m =>
    if String.eqb s EmptyString then Some m
    else match int_of_string s with
         | Some v => Some (use (inject_Z v) m)
         | None => None
         end.

Definition set_return (v : Q) (m : Metrics) : Metrics :=
  <["total_pnl" := (v * STARTING_CAPITAL / 100)%Q]> (<["total_return" := v]> m).

Definition cell (cells : list string) (i : nat) : string :=
  default EmptyString (cells !! i).

(** The row of a table in the first format, cut into cells. *)
Definition combined_cells (row : string) : list string :=
  map (strip_chars " |*") (split_char "|" row).

(** The body of the [try] block for a row of at least five cells. *)
Definition combined_row_steps (cells : list string) : list step :=
  [ with_float (strip (replace "%" "" (cell cells 2))) set_return;
    with_float (strip (replace "%" "" (cell cells 3)))
      (fun v => <["max_drawdown" := Qabs v]>);
    with_float (strip (cell cells 4)) (fun v => <["sharpe_ratio" := v]>);
    if 6 <=? length cells
    then with_int (strip (cell cells 5)) (fun v => <["total_trades" := v]>)
    else Some ].

Definition is_combined_row (row : string) : bool :=
  (contains "combined" row || contains "total" row) && contains "|" row.

(** The rows below a header of the first format: [true] when a row was
    read to its end, which ends the whole extraction. *)
Fixpoint scan_combined_rows (rows : list string) (m : Metrics) : Metrics * bool :=
  match rows with
  | [] => (m, false)
  | row :: rest =>
      if is_combined_row row then
        let cells := combined_cells row in
        if 5 <=? length cells then
          match run_steps (combined_row_steps cells) m with
          | (m', true) => (m', true)
          | (m', false) => scan_combined_rows rest m'
          end
        else scan_combined_rows rest m
      else scan_combined_rows rest m
  end.

(** One row of a table in the second format (metric and value). *)
Definition metric_row_step (row : string) : step :=
  fun m =>
    if negb (contains "|" row) then Some m
    else
      let cells := map (strip_chars " |*+") (split_char "|" row) in
      if 2 <=? length cells then
        let metric_name := lower (cell cells 0) in
        let metric_value := cell cells 1 in
        if contains "combined return" metric_name || contains "total return" metric_name then
          with_float
            (strip (replace "**" "" (replace "+" "" (replace "%" "" metric_value))))
            set_return m
        else if contains "max drawdown" metric_name || contains "drawdown" metric_name then
          with_float (strip (replace "**" "" (replace "%" "" metric_value)))
            (fun v => <["max_drawdown" := Qabs v]>) m
        else if contains "total trades" metric_name then
          match Re.search "(\d+)" (strip (replace "**" "" metric_value)) Re.no_flags with
          | Some mt =>
              match Re.group 1 mt ≫= int_of_string with
              | Some v => Some (<["total_trades" := inject_Z v]> m)
              | None => None
              end
          | None => Some m
          end
        else Some m
      else Some m.

(** The rows below a header of the second format: a row that raises is
    passed over. *)
Fixpoint scan_metric_rows (rows : list string) (m : Metrics) : Metrics :=
  match rows with
  | [] => m
  | row :: rest => scan_metric_rows rest (default m (metric_row_step row m))
  end.

(** The loop over the lines, each with the lines from it on: [true]
    when a row of the first format ended the extraction. *)
Fixpoint scan_tables (lines : list string) (m : Metrics) : Metrics * bool :=
  match lines with
  | [] => (m, false)
  | line :: rest =>
      let line_lower := lower line in
      if (contains "symbol" line_lower || contains "combined" line_lower)
         && contains "|" line then
        match scan_combined_rows (map lower (firstn 10 lines)) m with
        | (m', true) => (m', true)
        | (m', false) => scan_tables rest m'
        end
      else if contains "metric" line_lower && contains "value" line_lower
              && contains "|" line then
        scan_tables rest (scan_metric_rows (firstn 15 lines) m)
      else scan_tables rest m
  end.

(** The fallback on a line that speaks of the average drawdown. *)
Fixpoint average_drawdown (lines : list string) (m : Metrics) : Metrics :=
  match lines with
  | [] => m
  | line :: rest =>
      if contains "average drawdown" (lower line) && contains "%" line then
        match Re.search "(\d+\.\d+)%" line Re.no_flags with
        | Some mt =>
            match Re.group 1 mt ≫= float_of_string with
            | Some v => <["max_drawdown" := v]> m
            | None => m
            end
        | None => average_drawdown rest m
        end
      else average_drawdown rest m
  end.

(** [extract_from_markdown_table]. *)
Definition extract_from_markdown_table (content : string) : Metrics :=
  let lines := split_char Re.newline content in
  match scan_tables lines ∅ with
  | (m, true) => m
  | (m, false) =>
      if bool_decide (is_Some (m !! "max_drawdown")) then m
      else average_drawdown lines m
  end.

Definition pnl_patterns : list string :=
  [ "(?:total pnl|final pnl|profit|return)[\s:]*\$?([+-]?\d+(?:\.\d+)?)";
    "(?:total return|final return|combined)[\s:]*([+-]?\d+(?:\.\d+)?)%";
    "\$(\d+(?:\.\d+)?)\s*(?:profit|pnl|return)";
    "(\d+(?:\.\d+)?)%\s*(?:return|profit)";
    "\|\s*[*]*(?:combined|total)[*]*\s*\|\s*[*]*([+-]?\d+(?:\.\d+)?)%?[*]*\s*\|";
    "return[^\|]*\|\s*(\d+(?:\.\d+)?)%" ].

Definition drawdown_patterns : list string :=
  [ "(?:max drawdown|maximum drawdown|worst drawdown|max dd)[\s:]*([+-]?\d+(?:\.\d+)?)%?";
    "drawdown[\s:]*([+-]?\d+(?:\.\d+)?)%";
    "\|\s*[*]*(?:combined|total)[*]*\s*\|[^|]*\|\s*([+-]?\d+(?:\.\d+)?)%?\s*\|";
    "max dd[^\|]*\|\s*(\d+(?:\.\d+)?)%" ].

Definition trade_patterns : list string :=
  [ "(?:total trades|number of trades|trades executed)[\s:]*(\d+)";
    "(\d+)\s*(?:trades|transactions)";
    "\|\s*[*]*(?:combined|total)[*]*\s*\|[^|]*\|[^|]*\|[^|]*\|\s*(\d+)\s*\|";
    "trades[^\|]*\|\s*(\d+)\s*\|" ].

Definition combined_sharpe_pattern : string :=
  "combined:\s*[\d\.]+/[\d\.]+ = \*\*([+-]?\d+(?:\.\d+)?)\*\*".

Definition sharpe_patterns : list string :=
  [ "sharpe ratio[:\s]*([+-]?\d+(?:\.\d+)?)";
    "(?:^|\s)sharpe[:\s]*([+-]?\d+(?:\.\d+)?)(?:\s|$)" ].

Definition winrate_patterns : list string :=
  [ "(?:win rate|success rate|winning percentage)[\s:]*(\d+(?:\.\d+)?)%?";
    "(\d+(?:\.\d+)?)%\s*(?:win|success|wins)" ].

(** [match.group(1)] of [re.search(pattern, text)]. *)
Definition search_group1 (pattern text : string) : option string :=
  match Re.search pattern text Re.no_flags with
  | Some mt => Re.group 1 mt
  | None => None
  end.

(** A loop over a list of patterns: a pattern that matches is handed
    to [attempt] with its first group; the loop ends at the first
    attempt that succeeds ([break]) and goes on after one that does not
    ([continue], or the end of the body). *)
Fixpoint first_attempt (patterns : list string) (text : string)
    (attempt : string -> string -> option (Metrics -> Metrics)) (m : Metrics) : Metrics :=
  match patterns with
  | [] => m
  | pattern :: rest =>
      match search_group1 pattern text ≫= attempt pattern with
      | Some change => change m
      | None => first_attempt rest text attempt m
      end
  end.

(** A Sharpe ratio is kept when it lies between -5 and 10. *)
Definition plausible_sharpe (v : Q) : bool := Qle_bool (-5) v && Qle_bool v 10.

(** The two ways a value of the return patterns is stored. *)
Definition store_return (pattern : string) (value : Q) : Metrics -> Metrics :=
  if contains "return" pattern || contains "%" pattern || Qle_bool value 100
  then set_return value
  else fun m =>
    <["total_return" := (value / STARTING_CAPITAL * 100)%Q]> (<["total_pnl" := value]> m).

(** [extract_metrics_from_text]. *)
Definition extract_metrics_from_text (content : string) : Metrics :=
  let content_lower := lower content in
  let m0 : Metrics := update ∅ (extract_from_markdown_table content) in
  let m1 := first_attempt pnl_patterns content_lower
              (fun pattern g => store_return pattern <$> float_of_string g) m0 in
  let m2 := first_attempt drawdown_patterns content_lower
              (fun _ g => (fun v => <["max_drawdown" := Qabs v]>) <$> float_of_string g) m1 in
  let m3 := first_attempt trade_patterns content_lower
              (fun _ g => (fun v => <["total_trades" := inject_Z v]>) <$> int_of_string g) m2 in
  let m4 :=
    match search_group1 combined_sharpe_pattern content_lower ≫= float_of_string with
    | Some v => if plausible_sharpe v then <["sharpe_ratio" := v]> m3 else m3
    | None => m3
    end in
  let m5 :=
    if bool_decide (is_Some (m4 !! "sharpe_ratio")) then m4
    else first_attempt sharpe_patterns content_lower
           (fun _ g =>
              match float_of_string g with
              | Some v => if plausible_sharpe v
                          then Some (<["sharpe_ratio" := v]>) else None
              | None => None
              end) m4 in
  first_attempt winrate_patterns content_lower
    (fun _ g => (fun v => <["win_rate" := v]>) <$> float_of_string g) m5.

(** *** Metrics from a CSV file

    A data frame as [pandas.read_csv] returns it: the columns in order,
    each either numeric or text, with its missing cells. *)

Inductive column : Type :=
| NumCol (cells : list (option Q))
| ObjCol (cells : list (option string)).

Definition DataFrame : Type := list (string * column).

Definition value_terms : list string := ["portfolio"; "value"; "pnl"; "balance"; "equity"].
Definition trade_terms : list string := ["trade"; "signal"; "position"; "action"].

(** The first column whose name contains one of the terms. *)
Definition first_column (terms : list string) (df : DataFrame) : option column :=
  snd <$> List.find (fun '(name, _) => any_in terms (lower name)) df.

(** [values.cummax()]. *)
Fixpoint cummax_from (top : Q) (values : list Q) : list Q :=
  match values with
  | [] => []
  | v :: rest => let top' := qmax top v in top' :: cummax_from top' rest
  end.

Definition cummax (values : list Q) : list Q :=
  match values with
  | [] => []
  | v :: rest => v :: cummax_from v rest
  end.

(** [((values - cummax) / cummax) * 100]. *)
Definition drawdown_series (values : list Q) : list Q :=
  zip_with (fun v top => ((v - top) / top * 100)%Q) values (cummax values).

(** [series.min()] of a non-empty series. *)
Definition series_min (l : list Q) : Q :=
  match l with
  | [] => 0
  | v :: rest => fold_left qmin rest v
  end.

(** The portfolio-value part of [extract_metrics_from_csv]. *)
Definition value_metrics (df : DataFrame) (m : Metrics) : Metrics :=
  match first_column value_terms df with
  | Some (NumCol cells) =>
      let values := omap id cells in
      match values, last values with
      | initial_value :: _, Some final_value =>
          if Qlt_le_dec 0 initial_value then
            <["max_drawdown" := Qabs (series_min (drawdown_series values))]>
              (<["total_pnl" := (final_value - initial_value)%Q]>
                 (<["total_return" :=
                      ((final_value - initial_value) / initial_value * 100)%Q]> m))
          else m
      | _, _ => m
      end
  | _ => m
  end.

(** The trade-marker part of [extract_metrics_from_csv]: the cells that
    are neither missing, nor zero, nor a hold. *)
Definition trade_metrics (df : DataFrame) (m : Metrics) : Metrics :=
  match first_column trade_terms df with
  | Some (NumCol cells) =>
      <["total_trades" :=
          of_nat (length (List.filter (fun v => negb (Qeq_bool v 0)) (omap id cells)))]> m
  | Some (ObjCol cells) =>
      <["total_trades" :=
          of_nat (length (List.filter (fun v => negb (in_list v ["HOLD"; "hold"; ""]))
                                 (omap id cells)))]> m
  | None => m
  end.

(** [extract_metrics_from_csv]. *)
Definition extract_metrics_from_csv (df : DataFrame) : Metrics :=
  trade_metrics df (value_metrics df ∅).

(** [check_backtest_report]: whether a report was found, the metrics
    read from the reports and the violation appended. *)
Definition report_files (sub : Submission) : list Entry :=
  glob_name sub (String.eqb "backtest_report.md")
  ++ glob_name sub (String.eqb "backtest_report.txt")
  ++ glob_name sub (String.eqb "README.md").

Definition check_backtest_report (sub : Submission)
    : bool * Metrics * list RuleViolation :=
  match report_files sub with
  | [] =>
      (false, ∅, [violation HIGH "Backtest Report" "No backtest report found"
                    "reports/backtest_report.md"])
  | files =>
      (true,
       fold_left (fun data e =>
         match text_lenient e with
         | Some content => update data (extract_metrics_from_text content)
         | None => data
         end) files ∅,
       [])
  end.

Definition required_metrics : list string := ["total_pnl"; "max_drawdown"; "total_trades"].

(** [validate_extracted_metrics]. *)
Definition validate_extracted_metrics (m : Metrics) : list RuleViolation :=
  let missing := List.filter (fun k => negb (bool_decide (is_Some (m !! k)))) required_metrics in
  match missing with
  | [] => []
  | _ =>
      [violation HIGH "Performance Metrics"
         ("Missing required metrics: " +:+ join ", " missing) "reports/backtest_report.md"]
  end.

(** [extract_performance_metrics]: [frames] gives the data frame read
    from a CSV file, or nothing when reading it raises. *)
Definition extract_performance_metrics (sub : Submission)
    (frames : string -> option DataFrame) (backtest_data : Metrics)
    : Metrics * list RuleViolation :=
  let metrics :=
    fold_left (fun m e =>
      if (1024 * 1024 <? file_size e)%N then m
      else match frames (rel_path e) with
           | Some df => update m (extract_metrics_from_csv df)
           | None => m
           end) (glob_name sub (endswith ".csv")) backtest_data in
  (metrics, validate_extracted_metrics metrics).

(** [abs(pnl / (ret / 100))]. *)
Definition implied_capital (pnl ret : Q) : Q := Qabs (pnl / (ret / 100)).

Definition valid_patterns : list string :=
  ["\bBTC-USD\b"; "\bETH-USD\b"; "\bBTCUSDT\b"; "\bETHUSDT\b"].

Definition forbidden_patterns : list string :=
  [ "\b(LTC|XRP|ADA|DOT|SOL|AVAX|MATIC|LINK|DOGE|SHIB|UNI|AAVE)[/-]?USD[T]?\b";
    "\b(LITECOIN|RIPPLE|CARDANO|POLKADOT|SOLANA|AVALANCHE|POLYGON|CHAINLINK)\b";
    "\b[A-Z]{3,5}USD[T]?\b(?<!BTC-USD)(?<!ETH-USD)(?<!BTCUSDT)(?<!ETHUSDT)" ].

Definition VALID_ASSETS : list string := ["BTC-USD"; "ETH-USD"; "BTCUSDT"; "ETHUSDT"].

(** The Python and Markdown files outside the base template, with the
    text of those that can be read. *)
Definition code_files (sub : Submission) : list Entry :=
  outside_template sub (glob_name sub (endswith ".py")).

Definition asset_files (sub : Submission) : list Entry :=
  code_files sub ++ outside_template sub (glob_name sub (endswith ".md")).

Definition texts (l : list Entry) : list (Entry * string) :=
  omap (fun e => pair e <$> text_lenient e) l.

(** The forbidden names found in one text. *)
Definition forbidden_in (content_upper : string) : list string :=
  flat_map (fun pattern =>
    flat_map (fun found =>
      if existsb (fun v => Re.found v content_upper Re.no_flags) valid_patterns then
        let is_in_valid_context :=
          existsb (fun ctx => contains ctx content_upper && in_list ctx VALID_ASSETS)
                  [found +:+ "-USD"; found +:+ "USD"; found +:+ "USDT"] in
        if is_in_valid_context then [] else [found]
      else [found]) (Re.findall pattern content_upper Re.no_flags))
    forbidden_patterns.

(** [check_asset_compliance]. The names are listed in the order in
    which they were first found; Python lists them in the order of a
    set. *)
Definition check_asset_compliance (sub : Submission) : bool * list RuleViolation :=
  let files := texts (asset_files sub) in
  let found_forbidden := dedup_strings (flat_map (fun '(_, c) => forbidden_in (upper c)) files) in
  let actual_forbidden :=
    List.filter (fun asset =>
      if in_list asset ["BTC"; "ETH"] then
        negb (existsb (fun '(_, c) =>
                contains (asset +:+ "-USD") (upper c) || contains (asset +:+ "USD") (upper c))
              files)
      else true) found_forbidden in
  match actual_forbidden with
  | [] => (true, [])
  | _ =>
      (false, [violation HIGH "Asset Compliance"
                 ("Invalid assets detected: " +:+ join ", " actual_forbidden)
                 "strategy files"])
  end.

(** The dictionary [check_contest_compliance] returns. *)
Record Compliance : Type := { capital : bool; period : bool; assets : bool }.

(** [check_contest_compliance]. *)
Definition check_contest_compliance (sub : Submission) (m : Metrics)
    : Compliance * list RuleViolation :=
  let '(capital_ok, capital_violations) :=
    match m !! "total_pnl" with
    | Some pnl =>
        let total_return := default 0%Q (m !! "total_return") in
        let implied := if Qeq_bool total_return 0 then 0%Q else implied_capital pnl total_return in
        if Qlt_le_dec 1000 (Qabs (implied - STARTING_CAPITAL)) then
          (false,
           [ {| severity := MEDIUM;
                category := "Starting Capital";
                description := "Starting capital appears to be $" +:+ format_0f implied
                               +:+ ", should be $" +:+ format_1f STARTING_CAPITAL;
                file_path := "backtest configuration";
                metric_value := Some implied;
                threshold := Some STARTING_CAPITAL |} ])
        else (true, [])
    | None => (true, [])
    end in
  let '(assets_ok, asset_violations) := check_asset_compliance sub in
  ({| capital := capital_ok; period := true; assets := assets_ok |},
   capital_violations ++ asset_violations).

(** [a > b] on floats. *)
Definition gt (a b : Q) : bool := if Qlt_le_dec b a then true else false.
(** [a >= b] on floats. *)
Definition ge (a b : Q) : bool := Qle_bool b a.

(** The disqualification for an excessive drawdown. *)
Definition drawdown_violation (dd : Q) : RuleViolation :=
  {| severity := CRITICAL;
     category := "DISQUALIFICATION - Drawdown Violation";
     description := "Maximum drawdown " +:+ format_1f dd
                    +:+ "% exceeds contest limit of " +:+ format_1f MAX_DRAWDOWN
                    +:+ "% - AUTOMATIC DISQUALIFICATION";
     file_path := "performance metrics";
     metric_value := Some dd;
     threshold := Some MAX_DRAWDOWN |}.

(** [validate_financial_constraints]. *)
Definition validate_financial_constraints (m : Metrics) : list RuleViolation :=
  match m !! "max_drawdown" with
  | Some dd => if ge dd MAX_DRAWDOWN then [drawdown_violation dd] else []
  | None => []
  end
  ++
  match m !! "total_trades" with
  | Some n =>
      if gt MIN_TRADES n then
        [ {| severity := CRITICAL;
             category := "DISQUALIFICATION - Insufficient Trading";
             description := "Only " +:+ format_0f n +:+ " trades executed, minimum required: "
                            +:+ format_0f MIN_TRADES +:+ " - AUTOMATIC DISQUALIFICATION";
             file_path := "trading activity";
             metric_value := Some n;
             threshold := Some MIN_TRADES |} ]
      else []
  | None => []
  end
  ++
  match m !! "total_pnl", m !! "total_return" with
  | Some pnl, Some ret =>
      if negb (Qeq_bool ret 0)
         && gt (Qabs (implied_capital pnl ret - STARTING_CAPITAL)) 500 then
        [ {| severity := CRITICAL;
             category := "Starting Capital Violation";
             description := "Starting capital $" +:+ format_0f (implied_capital pnl ret)
                            +:+ " does not match required $" +:+ format_1f STARTING_CAPITAL;
             file_path := "backtest configuration";
             metric_value := Some (implied_capital pnl ret);
             threshold := Some STARTING_CAPITAL |} ]
      else []
  | _, _ => []
  end
  ++
  match m !! "total_return" with
  | Some ret =>
      if gt ret 1000 then
        [ {| severity := HIGH;
             category := "Unrealistic Performance";
             description := "Return of " +:+ format_1f ret +:+ "% appears unrealistic";
             file_path := "performance metrics";
             metric_value := Some ret;
             threshold := Some 1000%Q |} ]
      else if gt (-90) ret then
        [ {| severity := MEDIUM;
             category := "Poor Performance";
             description := "Significant loss of " +:+ format_1f ret +:+ "%";
             file_path := "performance metrics";
             metric_value := Some ret;
             threshold := Some (-90)%Q |} ]
      else []
  | None => []
  end
  ++
  match m !! "sharpe_ratio" with
  | Some sh =>
      if gt sh 10 then
        [violation MEDIUM "Unrealistic Sharpe"
           ("Sharpe ratio of " +:+ format_2f sh +:+ " appears unrealistic")
           "performance metrics"]
      else if gt (-2) sh then
        [violation LOW "Poor Risk-Adjusted Return"
           ("Poor Sharpe ratio of " +:+ format_2f sh) "performance metrics"]
      else []
  | None => []
  end.

Definition deduction (sev : Severity) : Q :=
  match sev with
  | CRITICAL => 30
  | HIGH => 15
  | MEDIUM => 8
  | LOW => 3
  end.

(** The bonus points of [calculate_rules_score]. *)
Definition bonus (m : Metrics) : Q :=
  (match m !! "total_return" with
   | Some ret => if gt ret EXCELLENT_RETURN then 10 else if gt ret GOOD_RETURN then 5 else 0
   | None => 0
   end
   +
   match m !! "max_drawdown" with
   | Some dd => if gt 10 dd then 5 else if gt 20 dd then 2 else 0
   | None => 0
   end
   +
   match m !! "sharpe_ratio" with
   | Some sh => if gt sh 2 then 5 else if gt sh 1 then 2 else 0
   | None => 0
   end)%Q.

(** [calculate_rules_score]. *)
Definition calculate_rules_score (violations : list RuleViolation) (m : Metrics) : Q :=
  let base_score :=
    fold_left (fun score v => (score - deduction (severity v))%Q) violations 100%Q in
  qmax 0 (qmin 100 (base_score + bonus m)).

(** *** Structure, position sizing and data compliance *)

(** [check_folder_structure]. *)
Definition check_folder_structure (sub : Submission) : bool * list RuleViolation :=
  let strategy_folders :=
    List.filter (fun e => negb (contains "/" (rel_path e)) && is_dir e
                          && contains "strategy" (lower (rel_path e))) (entries sub) in
  let no_strategy := bool_decide (strategy_folders = []) in
  let no_reports :=
    negb (path_exists sub "reports")
    && bool_decide (glob_name sub (String.eqb "reports") = []) in
  (negb no_strategy && negb no_reports,
   (if no_strategy
    then [violation CRITICAL "Folder Structure" "Missing your-strategy-template/ folder"
            "your-strategy-template/"]
    else [])
   ++
   (if no_reports
    then [violation CRITICAL "Folder Structure" "Missing reports/ folder" "reports/"]
    else [])).

Definition position_patterns : list string :=
  [ "position[_\s]*size[_\s]*[=:]\s*([0-9]*\.?[0-9]+)";
    "allocation[_\s]*[=:]\s*([0-9]*\.?[0-9]+)";
    "exposure[_\s]*[=:]\s*([0-9]*\.?[0-9]+)";
    "weight[_\s]*[=:]\s*([0-9]*\.?[0-9]+)";
    "fraction[_\s]*[=:]\s*([0-9]*\.?[0-9]+)";
    "max[_\s]*position[_\s]*[=:]\s*([0-9]*\.?[0-9]+)" ].

Definition position_context_words : list string :=
  ["position"; "allocation"; "size"; "exposure"; "weight"; "fraction"].

(** An entry of [position_violations]. *)
Record PositionFinding : Type :=
  { pf_file : string; pf_value : Q; pf_context : string }.

(** The values assigned to a position size that exceed 55 percent. *)
Definition assigned_positions (name content_lower : string) : list PositionFinding :=
  flat_map (fun pattern =>
    flat_map (fun found =>
      match float_of_string found with
      | Some value =>
          if (gt value 0.55 && Qle_bool value 1) || (gt value 55 && Qle_bool value 100)
          then [ {| pf_file := name; pf_value := value;
                    pf_context := "position_assignment" |} ]
          else []
      | None => []
      end) (Re.findall pattern content_lower Re.no_flags)) position_patterns.

(** The lines the percentage scan leaves alone. *)
Definition percent_skip (line_lower : string) : bool :=
  startswith "#" line_lower || startswith "//" line_lower || startswith "*" line_lower
  || any_in ["win rate"; "success rate"; "return"; "performance"; "drawdown"; "sharpe";
             "author:"; "trades:"] line_lower.

(** The percentages above 55 on the lines that speak of positions. *)
Definition percent_positions (name content : string) : list PositionFinding :=
  flat_map (fun line =>
    let line_lower := strip (lower line) in
    if percent_skip line_lower then []
    else if any_in position_context_words line_lower then
      flat_map (fun found =>
        match float_of_string found with
        | Some value =>
            if gt value 55
            then [ {| pf_file := name; pf_value := value;
                      pf_context := "percentage_in_position_context: " +:+ strip line |} ]
            else []
        | None => []
        end) (Re.findall "([0-9]+(?:\.[0-9]+)?)\s*%" line Re.no_flags)
    else []) (split_char Re.newline content).

(** [d[k] = v] on a dictionary kept as the list of its items in
    insertion order: a key that is present keeps its place. *)
Fixpoint dict_set (k : Q) (v : PositionFinding) (d : list (Q * PositionFinding))
    : list (Q * PositionFinding) :=
  match d with
  | [] => [(k, v)]
  | (k', v') :: d' =>
      if Qeq_bool k' k then (k', v) :: d' else (k', v') :: dict_set k v d'
  end.

(** [{v['value']: v for v in l}.values()]: one finding per value, at
    the place of the first and with the content of the last. *)
Definition unique_by_value (l : list PositionFinding) : list PositionFinding :=
  map snd (fold_left (fun d f => dict_set (pf_value f) f d) l []).

Definition genuine_position (f : PositionFinding) : bool :=
  negb (Qeq_bool (pf_value f) 66.7)
  && negb (any_in ["win rate"; "return"; "performance"] (lower (pf_context f))).

(** [validate_position_sizing]. *)
Definition validate_position_sizing (sub : Submission) : list RuleViolation :=
  let position_violations :=
    flat_map (fun '(e, content) =>
      let name := path_name (rel_path e) in
      assigned_positions name (lower content) ++ percent_positions name content)
      (texts (code_files sub)) in
  map (fun f =>
    {| severity := CRITICAL;
       category := "DISQUALIFICATION - Position Size Violation";
       description := "Position size " +:+ repr_float (pf_value f)
                      +:+ " exceeds maximum 55% (0.55) - AUTOMATIC DISQUALIFICATION";
       file_path := pf_file f;
       metric_value := Some (pf_value f);
       threshold := Some MAX_POSITION_SIZE |})
    (unique_by_value (List.filter genuine_position position_violations)).

Definition forbidden_sources : list string :=
  ["alpha_vantage"; "quandl"; "polygon"; "iex"; "binance"; "coinbase"; "kraken"].

(** [check_data_source_compliance]. The sources are listed in the order
    in which they were first found; Python lists them in the order of a
    set. *)
Definition check_data_source_compliance (sub : Submission) : list RuleViolation :=
  let files := map (fun '(e, c) => (e, lower c)) (texts (code_files sub)) in
  let has_yfinance :=
    existsb (fun '(_, cl) => contains "yfinance" cl || contains "import yf" cl) files in
  let forbidden_found :=
    flat_map (fun '(_, cl) => List.filter (fun src => contains src cl) forbidden_sources)
             files in
  flat_map (fun '(e, cl) =>
    if any_in ["api_key"; "requests.get"; "urllib"; "http"] cl
       && negb (contains "yahoo" cl || contains "yfinance" cl)
    then [violation HIGH "Suspicious External Data Access"
            "Detected external API calls - verify data source compliance"
            (path_name (rel_path e))]
    else []) files
  ++
  (match forbidden_found with
   | [] => []
   | _ =>
       [violation CRITICAL "DISQUALIFICATION - Forbidden Data Source"
          ("Forbidden data sources detected: " +:+ join ", " (dedup_strings forbidden_found)
           +:+ " - AUTOMATIC DISQUALIFICATION") "strategy files"]
   end)
  ++
  (if has_yfinance then []
   else [violation HIGH "Missing Required Data Source"
           "No yfinance usage detected - verify Yahoo Finance compliance" "strategy files"]).

Definition forbidden_intervals : list string :=
  ["1m"; "5m"; "15m"; "30m"; "1d"; "1wk"; "1mo"; "daily"; "minute"].
Definition valid_intervals : list string := ["1h"; "hourly"; "1 hour"; "hour"].

Definition quote_class : string := "[\'\" +:+ dquote +:+ "]".

Definition interval_patterns : list string :=
  [ "interval\s*[=:]\s*" +:+ quote_class +:+ "(.*?)" +:+ quote_class;
    "period\s*[=:]\s*" +:+ quote_class +:+ "(.*?)" +:+ quote_class;
    "freq\s*[=:]\s*" +:+ quote_class +:+ "(.*?)" +:+ quote_class ].

Definition hourly_patterns : list string :=
  [ "download\([^)]*interval\s*=\s*" +:+ quote_class +:+ "(1h|hourly)" +:+ quote_class;
    "download\([^)]*" +:+ quote_class +:+ "(1h|hourly)" +:+ quote_class;
    "hourly\s+data";
    "1h\s+data";
    "interval.*1h";
    "yahoo.*hourly" ].

(** The intervals a file names in an assignment. *)
Definition found_intervals (content : string) : list string :=
  flat_map (fun pattern => Re.findall pattern content Re.IGNORECASE) interval_patterns.

(** Whether a file speaks of hourly data. *)
Definition mentions_hourly (content : string) : bool :=
  let cl := lower content in
  existsb (fun i => in_list (lower i) valid_intervals) (found_intervals content)
  || any_in valid_intervals cl
  || (contains "yfinance" cl && contains "download" cl
      && existsb (fun pattern => Re.found pattern cl Re.no_flags) hourly_patterns).

(** The reports are read in order: one that speaks of hourly data
    settles the question, one that cannot be read ends the search. *)
Fixpoint report_mentions_hourly (reports : list Entry) : bool :=
  match reports with
  | [] => false
  | e :: rest =>
      match text_lenient e with
      | Some content =>
          any_in valid_intervals (lower content) || report_mentions_hourly rest
      | None => false
      end
  end.

(** [fnmatch(name, "*report*.md")]. *)
Definition is_report_md (name : string) : bool :=
  endswith ".md" name && contains "report" (take (String.length name - 3) name).

(** [check_data_interval_compliance]. *)
Definition check_data_interval_compliance (sub : Submission) : list RuleViolation :=
  let files := texts (code_files sub) in
  let critical_violations :=
    flat_map (fun '(e, content) =>
      map (fun i => (i, path_name (rel_path e)))
          (List.filter (fun i => in_list (lower i) forbidden_intervals)
                       (found_intervals content))) files in
  let has_explicit_hourly := existsb (fun '(_, content) => mentions_hourly content) files in
  map (fun '(interval, filename) =>
    violation CRITICAL "DISQUALIFICATION - Wrong Data Interval"
      ("Data interval '" +:+ interval
       +:+ "' not allowed - only '1h' (hourly) permitted - AUTOMATIC DISQUALIFICATION")
      filename) critical_violations
  ++
  (if bool_decide (critical_violations = []) && negb has_explicit_hourly
      && existsb (fun '(_, content) =>
                    any_in ["yfinance"; "download"; "fetch"; "get_data"] (lower content)) files
      && negb (report_mentions_hourly (glob_name sub is_report_md))
   then [violation LOW "Interval Verification Recommended"
           "Data interval not clearly specified as hourly (1h) - verification recommended"
           "strategy files"]
   else []).

Definition date_patterns : list string :=
  [ "20\d{2}-\d{2}-\d{2}";
    quote_class +:+ "\d{4}-\d{1,2}-\d{1,2}" +:+ quote_class;
    "start[_\s]*[=:]\s*" +:+ quote_class +:+ "(.*?)" +:+ quote_class;
    "end[_\s]*[=:]\s*" +:+ quote_class +:+ "(.*?)" +:+ quote_class ].

(** The dates of a file that fall outside the contest period. *)
Definition wrong_dates (content : string) : list string :=
  List.filter (fun d =>
    negb (String.eqb d EmptyString) && contains "2024" d
    && negb (startswith "2024-01" d || startswith "2024-06-30" d)
    && (any_in ["2024-07"; "2024-08"; "2024-09"; "2024-10"; "2024-11"; "2024-12"] d
        || any_in ["2023-"; "2025-"] d))
    (flat_map (fun pattern => Re.findall pattern content Re.no_flags) date_patterns).

(** What [pandas] reads from the date column of a CSV file: the days
    from 2024-01-01 to the first date and from 2024-06-30 to the last
    one, with the two dates as text. *)
Record DateSpan : Type :=
  { first_offset : Z; first_text : string; last_offset : Z; last_text : string }.

(** [check_data_period_compliance]: [spans] gives the dates read from a
    CSV file, or nothing when it has no date column or reading it
    raises. The dates are listed in the order in which they were first
    found; Python lists them in the order of a set. *)
Definition check_data_period_compliance (sub : Submission)
    (spans : string -> option DateSpan) : list RuleViolation :=
  flat_map (fun '(e, content) =>
    match wrong_dates content with
    | [] => []
    | wrong =>
        [violation HIGH "Data Period Violation"
           ("Incorrect data period detected: " +:+ join ", " (dedup_strings wrong)
            +:+ " - Must use 2024-01-01 to 2024-06-30") (path_name (rel_path e))]
    end) (texts (code_files sub))
  ++
  flat_map (fun e =>
    if (10 * 1024 * 1024 <? file_size e)%N then []
    else match spans (rel_path e) with
         | Some sp =>
             (if (7 <? Z.abs (first_offset sp))%Z
              then [violation MEDIUM "Data Start Date Issue"
                      ("Data starts " +:+ first_text sp +:+ ", expected around 2024-01-01")
                      (path_name (rel_path e))]
              else [])
             ++
             (if (7 <? Z.abs (last_offset sp))%Z
              then [violation MEDIUM "Data End Date Issue"
                      ("Data ends " +:+ last_text sp +:+ ", expected around 2024-06-30")
                      (path_name (rel_path e))]
              else [])
         | None => []
         end) (glob_name sub (endswith ".csv")).

(** [validate_data_compliance]. *)
Definition validate_data_compliance (sub : Submission)
    (spans : string -> option DateSpan) : list RuleViolation :=
  check_data_source_compliance sub ++ check_data_interval_compliance sub
  ++ check_data_period_compliance sub spans.

(** *** The verdict *)

(** What [pandas] reads from the CSV files of a submission. *)
Record CsvReader : Type :=
  { frames : string -> option DataFrame;
    spans : string -> option DateSpan }.

Record ContestRulesResult : Type :=
  { submission_id : string;
    participant : string;
    passed : bool;
    rules_score : Q;
    violations : list RuleViolation;
    total_pnl : option Q;
    total_return : option Q;
    max_drawdown : option Q;
    sharpe_ratio : option Q;
    total_trades : option Q;
    win_rate : option Q;
    folder_structure_valid : bool;
    backtest_report_present : bool;
    required_files_present : bool;
    starting_capital_compliant : bool;
    trading_period_compliant : bool;
    assets_compliant : bool }.

(** The metrics and the violations of the seven steps of
    [check_submission], in their order. *)
Definition performance_metrics (sub : Submission) (csv : CsvReader) : Metrics :=
  (extract_performance_metrics sub (frames csv) (check_backtest_report sub).1.2).1.

Definition all_violations (sub : Submission) (csv : CsvReader) : list RuleViolation :=
  let m := performance_metrics sub csv in
  (check_folder_structure sub).2
  ++ (check_backtest_report sub).2
  ++ validate_extracted_metrics m
  ++ (check_contest_compliance sub m).2
  ++ validate_financial_constraints m
  ++ validate_position_sizing sub
  ++ validate_data_compliance sub (spans csv).

(** The pass criterion: a score of at least 70, no critical violation
    and at most two high ones. *)
Definition verdict (rules_score : Q) (violations : list RuleViolation) : bool :=
  Qle_bool 70 rules_score
  && (count_severity severity CRITICAL violations =? 0)
  && (count_severity severity HIGH violations <=? 2).

(** [check_submission]. *)
Definition check_submission (sub : Submission) (csv : CsvReader) : ContestRulesResult :=
  let m := performance_metrics sub csv in
  let vs := all_violations sub csv in
  let score := calculate_rules_score vs m in
  let compliance := (check_contest_compliance sub m).1 in
  {| submission_id := path_name (sub_path sub);
     participant := StrictCompliance._extract_participant_name sub;
     passed := verdict score vs;
     rules_score := score;
     violations := vs;
     total_pnl := m !! "total_pnl";
     total_return := m !! "total_return";
     max_drawdown := m !! "max_drawdown";
     sharpe_ratio := m !! "sharpe_ratio";
     total_trades := m !! "total_trades";
     win_rate := m !! "win_rate";
     folder_structure_valid := (check_folder_structure sub).1;
     backtest_report_present := (check_backtest_report sub).1.1;
     required_files_present := (check_folder_structure sub).1;
     starting_capital_compliant := capital compliance;
     trading_period_compliant := period compliance;
     assets_compliant := assets compliance |}.

End ContestRules.

(** ** The pipeline orchestrator ([contest_evaluation_orchestrator.py]) *)

Module Orchestrator.
Import PyStr PyNum Fs.

(** What [stage_results] keeps for a submission in a stage; its
    [issues] field, which is stored and never read, is left out. *)
Record StageEntry : Type := { passed : bool; score : Q }.

Inductive Stage : Type := Security | Compliance | DataIntegrityStage | ContestRulesStage.

(** [SubmissionResult], without its time stamp. *)
Record SubmissionResult : Type :=
  { submission_id : string;
    participant : string;
    security_passed : bool;
    security_score : Q;
    compliance_passed : bool;
    compliance_score : Q;
    data_integrity_passed : bool;
    data_integrity_score : Q;
    contest_rules_passed : bool;
    contest_rules_score : Q;
    overall_score : Q;
    final_status : string;
    issues : list string }.

(** The orchestrator: the four dictionaries of [stage_results] and
    [final_results]. *)
Record State : Type :=
  { security : gmap string StageEntry;
    compliance : gmap string StageEntry;
    data_integrity : gmap string StageEntry;
    contest_rules : gmap string StageEntry;
    final_results : list SubmissionResult }.

(** [__init__]. *)
Definition initial : State :=
  {| security := ∅; compliance := ∅; data_integrity := ∅; contest_rules := ∅;
     final_results := [] |}.

Definition stage_dict (s : Stage) (st : State) : gmap string StageEntry :=
  match s with
  | Security => security st
  | Compliance => compliance st
  | DataIntegrityStage => data_integrity st
  | ContestRulesStage => contest_rules st
  end.

Definition set_stage_dict (s : Stage) (d : gmap string StageEntry) (st : State) : State :=
  match s with
  | Security =>
      {| security := d; compliance := compliance st; data_integrity := data_integrity st;
         contest_rules := contest_rules st; final_results := final_results st |}
  | Compliance =>
      {| security := security st; compliance := d; data_integrity := data_integrity st;
         contest_rules := contest_rules st; final_results := final_results st |}
  | DataIntegrityStage =>
      {| security := security st; compliance := compliance st; data_integrity := d;
         contest_rules := contest_rules st; final_results := final_results st |}
  | ContestRulesStage =>
      {| security := security st; compliance := compliance st;
         data_integrity := data_integrity st; contest_rules := d;
         final_results := final_results st |}
  end.

(** [stage_results[stage][id] = {'passed': p, 'score': x, ...}]. *)
Definition record_entry (s : Stage) (id : string) (p : bool) (x : Q) (st : State) : State :=
  set_stage_dict s (<[id := {| passed := p; score := x |}]> (stage_dict s st)) st.

(** One row of the results file of a stage tool, as the orchestrator
    reads it: the id, the verdict and the score of a submission. *)
Record Row : Type := { row_id : string; row_passed : bool; row_score : Q }.

(** How the invocation of a stage tool ends: with an exception in the
    orchestrator, with a non-zero exit code, without a results file, or
    with the rows of the results file. *)
Inductive Invocation : Type :=
| Raised
| Failed
| NoResultsFile
| Results (rows : list Row).

(** The loop over the rows of a results file: every row is recorded and
    the ids of the rows that passed are the survivors. *)
Definition record_rows (s : Stage) (rows : list Row) (st : State) : State * list string :=
  (fold_left (fun acc r => record_entry s (row_id r) (row_passed r) (row_score r) acc) rows st,
   map row_id (List.filter row_passed rows)).

(** All the given submissions pass with a default score. *)
Definition assume_pass (s : Stage) (default_score : Q) (ids : list string) (st : State)
    : State :=
  fold_left (fun acc id => record_entry s id true default_score acc) ids st.

(** [run_security_audit]. *)
Definition run_security_audit (inv : Invocation) (st : State) : State * list string :=
  match inv with
  | Results rows => record_rows Security rows st
  | _ => (st, [])
  end.

(** [run_compliance_check]. *)
Definition run_compliance_check (inv : Invocation) (survivors : list string) (st : State)
    : State * list string :=
  match inv with
  | Results rows => record_rows Compliance rows st
  | _ => (st, survivors)
  end.

(** [run_data_integrity_check]. *)
Definition run_data_integrity_check (inv : Invocation) (survivors : list string)
    (st : State) : State * list string :=
  match inv with
  | Results rows => record_rows DataIntegrityStage rows st
  | _ => (st, [])
  end.

(** [run_contest_rules_verification]. *)
Definition run_contest_rules_verification (inv : Invocation) (survivors : list string)
    (st : State) : State * list string :=
  match inv with
  | Results rows => record_rows ContestRulesStage rows st
  | _ => (assume_pass ContestRulesStage 75 survivors st, survivors)
  end.

(** The value of [--submissions]. *)
Definition submissions_argument (survivors : list string) : string := join "," survivors.

(** [stage_results[stage].get(id, {'passed': False, 'score': 0})]. *)
Definition get_entry (s : Stage) (st : State) (id : string) : StageEntry :=
  default {| passed := false; score := 0 |} (stage_dict s st !! id).

(** The weights of the four stages. *)
Definition security_weight : Q := 0.3.
Definition compliance_weight : Q := 0.25.
Definition data_integrity_weight : Q := 0.25.
Definition contest_rules_weight : Q := 0.2.

(** [extract_participant_name]. *)
Definition extract_participant_name (submission_id : string) : string :=
  default "Unknown" (SecurityAudit.participant_of_name submission_id).

Definition failed_note (label : string) (e : StageEntry) : list string :=
  if passed e then []
  else [label +:+ ": Failed (" +:+ format_1f (score e) +:+ "/100)"].

(** The record [generate_final_ranking] builds for one submission. *)
Definition final_record (st : State) (id : string) : SubmissionResult :=
  let sec := get_entry Security st id in
  let com := get_entry Compliance st id in
  let dat := get_entry DataIntegrityStage st id in
  let rul := get_entry ContestRulesStage st id in
  {| submission_id := id;
     participant := extract_participant_name id;
     security_passed := passed sec;
     security_score := score sec;
     compliance_passed := passed com;
     compliance_score := score com;
     data_integrity_passed := passed dat;
     data_integrity_score := score dat;
     contest_rules_passed := passed rul;
     contest_rules_score := score rul;
     overall_score :=
       score sec * security_weight + score com * compliance_weight
       + score dat * data_integrity_weight + score rul * contest_rules_weight;
     final_status :=
       if passed sec && passed com && passed dat && passed rul then "PASS" else "FAIL";
     issues :=
       failed_note "Security" sec ++ failed_note "Compliance" com
       ++ failed_note "Data Integrity" dat ++ failed_note "Contest Rules" rul |}.

(** The place of a record in a list sorted by decreasing score: after
    the records with a greater score and before the others. *)
Fixpoint insert_by_score (x : SubmissionResult) (l : list SubmissionResult)
    : list SubmissionResult :=
  match l with
  | [] => [x]
  | y :: l' =>
      if Qle_bool (overall_score y) (overall_score x)
      then x :: y :: l'
      else y :: insert_by_score x l'
  end.

(** [l.sort(key=lambda x: x.overall_score, reverse=True)]: the sort is
    stable, so records of equal score keep their order. *)
Definition sort_by_score (l : list SubmissionResult) : list SubmissionResult :=
  fold_right insert_by_score [] l.

(** The ids that have a result in some stage. *)
Definition all_submissions (st : State) : gset string :=
  dom (security st) ∪ dom (compliance st) ∪ dom (data_integrity st)
  ∪ dom (contest_rules st).

(** [generate_final_ranking]; [order] is the order in which the set of
    ids is iterated over, which Python does not fix. *)
Definition generate_final_ranking (order : list string) (st : State) : State :=
  {| security := security st; compliance := compliance st;
     data_integrity := data_integrity st; contest_rules := contest_rules st;
     final_results := sort_by_score (final_results st ++ map (final_record st) order) |}.

(** An order of iteration over the ids of a state. *)
Definition iterates (order : list string) (st : State) : Prop :=
  NoDup order /\ forall id, id ∈ order <-> id ∈ all_submissions st.

(** The outcome of the four tool invocations of one run. *)
Record Invocations : Type :=
  { security_run : Invocation;
    compliance_run : list string -> Invocation;
    data_integrity_run : list string -> Invocation;
    contest_rules_run : list string -> Invocation }.

(** The survivors of the four stages of a run. *)
Record Survivors : Type :=
  { security_survivors : list string;
    compliance_survivors : list string;
    data_survivors : list string;
    final_survivors : list string }.

(** The four stages of [run_full_evaluation], each on the survivors of
    the stage before it. *)
Definition run_stages (inv : Invocations) : State * Survivors :=
  let '(st1, s1) := run_security_audit (security_run inv) initial in
  let '(st2, s2) := run_compliance_check (compliance_run inv s1) s1 st1 in
  let '(st3, s3) := run_data_integrity_check (data_integrity_run inv s2) s2 st2 in
  let '(st4, s4) := run_contest_rules_verification (contest_rules_run inv s3) s3 st3 in
  (st4, {| security_survivors := s1; compliance_survivors := s2;
           data_survivors := s3; final_survivors := s4 |}).

(** [run_full_evaluation]. *)
Definition run_full_evaluation (inv : Invocations) (order : list string) : State :=
  generate_final_ranking order (run_stages inv).1.

(** *** The stage tools as the orchestrator runs them

    The base directory holds one folder per candidate; a folder comes
    with what [pandas] reads from its CSV files. Folder names hold no
    path separator. *)

Record Folder : Type :=
  { folder_name : string;
    folder_entries : list Entry;
    folder_stats : string -> DataIntegrity.csv_outcome;
    folder_csv : ContestRules.CsvReader }.

Record World : Type :=
  { base_path : string;
    folders : list Folder }.

Definition folder_submission (w : World) (f : Folder) : Submission :=
  {| sub_path := base_path w +:+ "/" +:+ folder_name f; entries := folder_entries f |}.

(** The entry of a directory. *)
Definition dir_entry (name : string) : Entry :=
  {| rel_path := name; is_file := false; is_dir := true; file_size := 4096;
     text := ReadRaised "Is a directory"; parsed := Ast.ParseRaised EmptyString |}.

Definition under (name : string) (e : Entry) : Entry :=
  {| rel_path := name +:+ "/" +:+ rel_path e; is_file := is_file e; is_dir := is_dir e;
     file_size := file_size e; text := text e; parsed := parsed e |}.

(** The folder a path below the base directory goes through, and the
    rest of the path. *)
Definition locate (w : World) (rel : string) : option (Folder * string) :=
  match split_once "/" rel with
  | [name; rest] =>
      (fun f => (f, rest)) <$> List.find (fun f => String.eqb (folder_name f) name) (folders w)
  | _ => None
  end.

(** The base directory itself, seen as a folder: this is what
    [base_path / ""] denotes. *)
Definition base_folder (w : World) : Folder :=
  {| folder_name := EmptyString;
     folder_entries :=
       flat_map (fun f => dir_entry (folder_name f)
                          :: map (under (folder_name f)) (folder_entries f)) (folders w);
     folder_stats := fun rel =>
       match locate w rel with
       | Some (f, rest) => folder_stats f rest
       | None => DataIntegrity.CsvRaised
       end;
     folder_csv :=
       {| ContestRules.frames := fun rel =>
            match locate w rel with
            | Some (f, rest) => ContestRules.frames (folder_csv f) rest
            | None => None
            end;
          ContestRules.spans := fun rel =>
            match locate w rel with
            | Some (f, rest) => ContestRules.spans (folder_csv f) rest
            | None => None
            end |} |}.

(** The directory [base_path / id] when it exists, with its path. *)
Definition resolve (w : World) (id : string) : option (Submission * Folder) :=
  if String.eqb id EmptyString then
    Some ({| sub_path := base_path w; entries := folder_entries (base_folder w) |},
          base_folder w)
  else
    (fun f => (folder_submission w f, f))
      <$> List.find (fun f => String.eqb (folder_name f) id) (folders w).

(** [sorted(dirs, key=lambda x: x.name)]. *)
Fixpoint insert_by_name (f : Folder) (l : list Folder) : list Folder :=
  match l with
  | [] => [f]
  | g :: l' =>
      if String.ltb (folder_name f) (folder_name g) then f :: g :: l'
      else g :: insert_by_name f l'
  end.

Definition sort_by_name (l : list Folder) : list Folder :=
  fold_right insert_by_name [] l.

(** [main] of the security audit: the folders whose name starts with
    [#], in the order of their names; without such a folder the tool
    exits with code 1. *)
Definition security_main (w : World) : Invocation :=
  match List.filter (fun f => startswith "#" (folder_name f)) (folders w) with
  | [] => Failed
  | dirs =>
      Results (map (fun f =>
        let r := SecurityAudit.scan_submission (folder_submission w f) in
        {| row_id := SecurityAudit.submission_id r;
           row_passed := SecurityAudit.passed r;
           row_score := SecurityAudit.security_score r |}) (sort_by_name dirs))
  end.

(** The directories a tool checks for a value of [--submissions]: the
    value is cut at its commas, each part is stripped, and the parts
    that name no existing path are passed over. *)
Definition checked_directories (w : World) (submissions : string)
    : list (Submission * Folder) :=
  omap (fun id => resolve w (strip id)) (split_char "," submissions).

(** [main] of the strict compliance checker. *)
Definition compliance_main (w : World) (submissions : string) : Invocation :=
  Results (map (fun '(sub, _) =>
    let r := StrictCompliance.check_submission sub in
    {| row_id := StrictCompliance.submission_id r;
       row_passed := StrictCompliance.passed r;
       row_score := StrictCompliance.compliance_score r |})
    (checked_directories w submissions)).

(** [main] of the data integrity checker. *)
Definition data_integrity_main (w : World) (submissions : string) : Invocation :=
  Results (map (fun '(sub, f) =>
    let r := DataIntegrity.check_submission sub (folder_stats f) in
    {| row_id := DataIntegrity.submission_id r;
       row_passed := DataIntegrity.passed r;
       row_score := DataIntegrity.integrity_score r |})
    (checked_directories w submissions)).

(** [main] of the contest rules verifier. *)
Definition contest_rules_main (w : World) (submissions : string) : Invocation :=
  Results (map (fun '(sub, f) =>
    let r := ContestRules.check_submission sub (folder_csv f) in
    {| row_id := ContestRules.submission_id r;
       row_passed := ContestRules.passed r;
       row_score := ContestRules.rules_score r |})
    (checked_directories w submissions)).

(** The ids of the submissions a stage tool evaluates for a list of
    survivors. *)
Definition evaluated (w : World) (survivors : list string) : list string :=
  map (fun '(sub, _) => path_name (sub_path sub))
      (checked_directories w (submissions_argument survivors)).

(** A run in which every tool runs to its end. *)
Definition tools (w : World) : Invocations :=
  {| security_run := security_main w;
     compliance_run := fun s => compliance_main w (submissions_argument s);
     data_integrity_run := fun s => data_integrity_main w (submissions_argument s);
     contest_rules_run := fun s => contest_rules_main w (submissions_argument s) |}.

(** *** The interactive mode *)








End Orchestrator.

(** * Properties *)

(** ** The verdict of a stage and its critical issues *)

(** One evaluation of one submission by one of the four stage tools. *)
Inductive StageRun : Type :=
| SecurityRun (sub : Fs.Submission)
| ComplianceRun (sub : Fs.Submission)
| DataIntegrityRun (sub : Fs.Submission) (stats : string -> DataIntegrity.csv_outcome)
| ContestRulesRun (sub : Fs.Submission) (csv : ContestRules.CsvReader).

(** The [passed] flag of the result of a run. *)
Definition run_passed (r : StageRun) : bool :=
  match r with
  | SecurityRun sub => SecurityAudit.passed (SecurityAudit.scan_submission sub)
  | ComplianceRun sub => StrictCompliance.passed (StrictCompliance.check_submission sub)
  | DataIntegrityRun sub stats =>
      DataIntegrity.passed (DataIntegrity.check_submission sub stats)
  | ContestRulesRun sub csv => ContestRules.passed (ContestRules.check_submission sub csv)
  end.

(** The severities of the issues (or violations) of the result. *)
Definition run_severities (r : StageRun) : list Severity :=
  match r with
  | SecurityRun sub =>
      map SecurityAudit.severity (SecurityAudit.issues (SecurityAudit.scan_submission sub))
  | ComplianceRun sub =>
      map StrictCompliance.severity
          (StrictCompliance.issues (StrictCompliance.check_submission sub))
  | DataIntegrityRun sub stats =>
      map DataIntegrity.severity
          (DataIntegrity.issues (DataIntegrity.check_submission sub stats))
  | ContestRulesRun sub csv =>
      map ContestRules.severity
          (ContestRules.violations (ContestRules.check_submission sub csv))
  end.

Lemma severity_eqb_true (a b : Severity) : severity_eqb a b = true <-> a = b.
Proof. unfold severity_eqb. apply bool_decide_eq_true. Qed.

Lemma count_severity_zero {A : Type} (sev : A -> Severity) (s : Severity) (xs : list A) :
  count_severity sev s xs = 0 -> ~ In s (map sev xs).
Proof.
  unfold count_severity. induction xs as [|x xs IH]; simpl; [tauto|].
  destruct (severity_eqb (sev x) s) eqn:E; simpl; [discriminate|].
  intros H [Hx|Hin]; [|exact (IH H Hin)].
  apply severity_eqb_true in Hx. congruence.
Qed.

Lemma critical_failed_false {A : Type} (sev : A -> Severity) (xs : list A) :
  StrictCompliance.critical_failed sev xs = false -> ~ In CRITICAL (map sev xs).
Proof.
  unfold StrictCompliance.critical_failed. induction xs as [|x xs IH]; simpl; [tauto|].
  intros H. apply orb_false_iff in H as [Hx Hxs].
  intros [E|Hin]; [|exact (IH Hxs Hin)].
  apply severity_eqb_true in E. congruence.
Qed.

(** C1. In each of the four stages, a result whose [passed] flag is
    true has no issue of severity CRITICAL in its issue list. *)
Theorem passed_implies_no_critical (r : StageRun) :
  run_passed r = true -> ~ In CRITICAL (run_severities r).
Proof.
  destruct r as [sub|sub|sub stats|sub csv]; simpl; intros H.
  - apply andb_true_iff in H as [H _]. apply Nat.eqb_eq in H.
    exact (count_severity_zero _ _ _ H).
  - apply andb_true_iff in H as [H _]. apply negb_true_iff in H.
    exact (critical_failed_false _ _ H).
  - apply andb_true_iff in H as [H _]. apply negb_true_iff in H.
    exact (critical_failed_false _ _ H).
  - unfold ContestRules.verdict in H.
    apply andb_true_iff in H as [H _]. apply andb_true_iff in H as [_ H].
    apply Nat.eqb_eq in H. exact (count_severity_zero _ _ _ H).
Qed.

(** A submission with no file at all passes the security audit. *)
Definition empty_submission : Fs.Submission :=
  {| Fs.sub_path := "final_evaluation/#1 (Ann Lee)"; Fs.entries := [] |}.

Lemma passed_implies_no_critical_witness :
  ~ In CRITICAL (run_severities (SecurityRun empty_submission)).
Proof. apply (passed_implies_no_critical (SecurityRun empty_submission)). reflexivity. Defined.

(** ** The final ranking *)

Section Ranking.
Import Orchestrator.

(** The order of the ranking: the score does not increase. *)
Definition by_score_desc (a b : SubmissionResult) : Prop :=
  (overall_score b <= overall_score a)%Q.

(** The records of a list whose score is [q]. *)
Definition with_score (q : Q) (l : list SubmissionResult) : list SubmissionResult :=
  List.filter (fun r => Qeq_bool (overall_score r) q) l.

Lemma insert_by_score_perm x l : Permutation (insert_by_score x l) (x :: l).
Proof.
  induction l as [|y l IH]; simpl; [reflexivity|].
  destruct (Qle_bool (overall_score y) (overall_score x)); [reflexivity|].
  rewrite IH. apply perm_swap.
Qed.

Lemma sort_by_score_perm l : Permutation (sort_by_score l) l.
Proof.
  induction l as [|x l IH]; simpl; [reflexivity|].
  rewrite insert_by_score_perm. now rewrite IH.
Qed.

Lemma insert_by_score_sorted x l :
  Sorted by_score_desc l -> Sorted by_score_desc (insert_by_score x l).
Proof.
  induction l as [|y l IH]; simpl; intros Hs.
  - constructor; constructor.
  - destruct (Qle_bool (overall_score y) (overall_score x)) eqn:E.
    + constructor; [assumption|]. constructor. now apply Qle_bool_iff.
    + assert (Hyx : by_score_desc y x).
      { unfold by_score_desc. destruct (Qlt_le_dec (overall_score x) (overall_score y)) as [Hlt|Hle].
        - now apply Qlt_le_weak.
        - apply Qle_bool_iff in Hle. congruence. }
      inversion Hs as [|? ? Hs' Hhd]; subst.
      constructor; [now apply IH|].
      destruct l as [|z l]; simpl.
      * now constructor.
      * destruct (Qle_bool (overall_score z) (overall_score x)); constructor; trivial.
        now inversion Hhd.
Qed.

Lemma sort_by_score_sorted l : Sorted by_score_desc (sort_by_score l).
Proof.
  induction l as [|x l IH]; simpl; [constructor|]. now apply insert_by_score_sorted.
Qed.

Lemma by_score_desc_trans : Relations_1.Transitive by_score_desc.
Proof. intros a b c Hab Hbc. unfold by_score_desc in *. eapply Qle_trans; eassumption. Qed.

Lemma sort_by_score_strongly_sorted l : StronglySorted by_score_desc (sort_by_score l).
Proof. apply Sorted_StronglySorted; [exact by_score_desc_trans|apply sort_by_score_sorted]. Qed.

Lemma with_score_insert q x l :
  with_score q (insert_by_score x l) = with_score q (x :: l).
Proof.
  induction l as [|y l IH]; [reflexivity|]. simpl insert_by_score.
  destruct (Qle_bool (overall_score y) (overall_score x)) eqn:E; [reflexivity|].
  unfold with_score in *. simpl List.filter in *. rewrite IH.
  destruct (Qeq_bool (overall_score x) q) eqn:Ex; [|reflexivity].
  destruct (Qeq_bool (overall_score y) q) eqn:Ey; [|reflexivity].
  apply Qeq_bool_iff in Ex, Ey.
  assert (Hle : (overall_score y <= overall_score x)%Q) by (rewrite Ex, Ey; apply Qle_refl).
  apply Qle_bool_iff in Hle. congruence.
Qed.

Lemma with_score_sort q l : with_score q (sort_by_score l) = with_score q l.
Proof.
  induction l as [|x l IH]; [reflexivity|]. simpl sort_by_score.
  rewrite with_score_insert. unfold with_score in *. simpl. now rewrite IH.
Qed.

Lemma final_results_record_entry s id p x st :
  final_results (record_entry s id p x st) = final_results st.
Proof. now destruct s. Qed.

Lemma final_results_record_rows s rows st :
  final_results (record_rows s rows st).1 = final_results st.
Proof.
  unfold record_rows. simpl. revert st.
  induction rows as [|r rows IH]; intros st; simpl; [reflexivity|].
  rewrite IH. apply final_results_record_entry.
Qed.

Lemma final_results_assume_pass s x ids st :
  final_results (assume_pass s x ids st) = final_results st.
Proof.
  unfold assume_pass. revert st.
  induction ids as [|i ids IH]; intros st; simpl; [reflexivity|].
  rewrite IH. apply final_results_record_entry.
Qed.

Lemma final_results_run_stages inv : final_results (run_stages inv).1 = [].
Proof.
  unfold run_stages.
  destruct (run_security_audit (security_run inv) initial) as [st1 s1] eqn:E1.
  destruct (run_compliance_check (compliance_run inv s1) s1 st1) as [st2 s2] eqn:E2.
  destruct (run_data_integrity_check (data_integrity_run inv s2) s2 st2) as [st3 s3] eqn:E3.
  destruct (run_contest_rules_verification (contest_rules_run inv s3) s3 st3)
    as [st4 s4] eqn:E4.
  simpl.
  assert (H1 : final_results st1 = []).
  { unfold run_security_audit in E1. destruct (security_run inv);
      try (injection E1 as <- _; reflexivity).
    pose proof (final_results_record_rows Security rows initial) as F.
    rewrite E1 in F. exact F. }
  assert (H2 : final_results st2 = []).
  { unfold run_compliance_check in E2. destruct (compliance_run inv s1);
      try (injection E2 as <- _; assumption).
    pose proof (final_results_record_rows Compliance rows st1) as F.
    rewrite E2 in F. simpl in F. congruence. }
  assert (H3 : final_results st3 = []).
  { unfold run_data_integrity_check in E3. destruct (data_integrity_run inv s2);
      try (injection E3 as <- _; assumption).
    pose proof (final_results_record_rows DataIntegrityStage rows st2) as F.
    rewrite E3 in F. simpl in F. congruence. }
  unfold run_contest_rules_verification in E4.
  destruct (contest_rules_run inv s3);
    try (injection E4 as <- _; now rewrite final_results_assume_pass).
  pose proof (final_results_record_rows ContestRulesStage rows st3) as F.
  rewrite E4 in F. simpl in F. congruence.
Qed.

(** The ranking of a run: the records of the ids in iteration order,
    sorted. *)
Lemma ranking_of_run inv order :
  final_results (run_full_evaluation inv order)
  = sort_by_score (map (final_record (run_stages inv).1) order).
Proof.
  unfold run_full_evaluation, generate_final_ranking. simpl.
  now rewrite final_results_run_stages.
Qed.

(** The score [stage_results] holds for a submission in a stage, and 0
    when the stage has no result for it. *)
Definition recorded_score (s : Stage) (st : State) (id : string) : Q :=
  match stage_dict s st !! id with
  | Some e => score e
  | None => 0
  end.

Lemma get_entry_score (s : Stage) (st : State) (id : string) :
  score (get_entry s st id) = recorded_score s st id.
Proof. unfold get_entry, recorded_score. now destruct (stage_dict s st !! id). Qed.

Lemma stage_dict_ranking (s : Stage) (order : list string) (st : State) :
  stage_dict s (generate_final_ranking order st) = stage_dict s st.
Proof. now destruct s. Qed.

(** C3. The final ranking of a run holds exactly one record for each
    submission id the ranking iterates over, hence one for every
    submission with a result in some stage, and the overall score of
    every record is the sum of the four scores that [stage_results]
    holds for its submission (0 for a stage without a result), each
    times the weight of its stage; the record stores these four scores,
    and the four weights (0.3, 0.25, 0.25, 0.2) sum to 1. *)
Theorem overall_score_is_weighted_sum (inv : Invocations) (order : list string) :
  Permutation (map submission_id (final_results (run_full_evaluation inv order))) order
  /\ Forall (fun r =>
       overall_score r
       = (recorded_score Security (run_full_evaluation inv order) (submission_id r)
            * security_weight
          + recorded_score Compliance (run_full_evaluation inv order) (submission_id r)
            * compliance_weight
          + recorded_score DataIntegrityStage (run_full_evaluation inv order)
              (submission_id r) * data_integrity_weight
          + recorded_score ContestRulesStage (run_full_evaluation inv order)
              (submission_id r) * contest_rules_weight)%Q
       /\ security_score r
          = recorded_score Security (run_full_evaluation inv order) (submission_id r)
       /\ compliance_score r
          = recorded_score Compliance (run_full_evaluation inv order) (submission_id r)
       /\ data_integrity_score r
          = recorded_score DataIntegrityStage (run_full_evaluation inv order)
              (submission_id r)
       /\ contest_rules_score r
          = recorded_score ContestRulesStage (run_full_evaluation inv order)
              (submission_id r))
     (final_results (run_full_evaluation inv order))
  /\ (security_weight == 0.3)%Q /\ (compliance_weight == 0.25)%Q
  /\ (data_integrity_weight == 0.25)%Q /\ (contest_rules_weight == 0.2)%Q
  /\ (security_weight + compliance_weight + data_integrity_weight
      + contest_rules_weight == 1)%Q
  /\ (iterates order (run_stages inv).1 ->
      forall id, id ∈ all_submissions (run_stages inv).1 ->
        exists r, In r (final_results (run_full_evaluation inv order))
                  /\ submission_id r = id).
Proof.
  assert (Hperm : Permutation
            (map submission_id (final_results (run_full_evaluation inv order))) order).
  { rewrite ranking_of_run.
    rewrite (Permutation_map submission_id (sort_by_score_perm _)).
    rewrite map_map. cbn [final_record submission_id]. now rewrite map_id. }
  split; [exact Hperm|]. split; [|repeat split; try reflexivity].
  2:{ intros [_ Hit] id Hid. apply Hit, list_elem_of_In in Hid.
      apply (Permutation_in _ (Permutation_sym Hperm)) in Hid.
      apply in_map_iff in Hid as (r & Hr & Hin). now exists r. }
  - unfold recorded_score, run_full_evaluation. rewrite !stage_dict_ranking.
    fold (recorded_score Security (run_stages inv).1).
    fold (recorded_score Compliance (run_stages inv).1).
    fold (recorded_score DataIntegrityStage (run_stages inv).1).
    fold (recorded_score ContestRulesStage (run_stages inv).1).
    fold (run_full_evaluation inv order).
    rewrite ranking_of_run. apply List.Forall_forall. intros r Hr.
    apply (Permutation_in _ (sort_by_score_perm _)) in Hr.
    apply in_map_iff in Hr as (id & <- & _).
    cbn [final_record overall_score submission_id security_score compliance_score
         data_integrity_score contest_rules_score].
    rewrite !get_entry_score. repeat split; reflexivity.
Qed.

(** A run in which "#1 (Ann)" is rejected by the security audit with
    the score 20 and then, the tools being given all the ids, gets 80,
    90 and 100 in the other stages. *)
Definition mixed_run : Invocations :=
  {| security_run :=
       Results [ {| row_id := "#1 (Ann)"; row_passed := false; row_score := 20 |} ];
     compliance_run := fun _ =>
       Results [ {| row_id := "#1 (Ann)"; row_passed := true; row_score := 80 |} ];
     data_integrity_run := fun _ =>
       Results [ {| row_id := "#1 (Ann)"; row_passed := true; row_score := 90 |} ];
     contest_rules_run := fun _ =>
       Results [ {| row_id := "#1 (Ann)"; row_passed := true; row_score := 100 |} ] |}.

Lemma mixed_run_ids : all_submissions (run_stages mixed_run).1 = {["#1 (Ann)"]}.
Proof. vm_compute. reflexivity. Qed.

Lemma overall_score_is_weighted_sum_witness :
  exists r, In r (final_results (run_full_evaluation mixed_run ["#1 (Ann)"]))
            /\ submission_id r = "#1 (Ann)"
            /\ (overall_score r == 20 * 0.3 + 80 * 0.25 + 90 * 0.25 + 100 * 0.2)%Q.
Proof.
  destruct (overall_score_is_weighted_sum mixed_run ["#1 (Ann)"])
    as (_ & Hall & _ & _ & _ & _ & _ & Hex).
  destruct (Hex) with (id := "#1 (Ann)") as (r & Hr & Hid).
  - split.
    + apply (bool_decide_unpack _). vm_compute. exact I.
    + intros id. rewrite mixed_run_ids.
      rewrite !elem_of_cons, elem_of_nil, !elem_of_singleton. tauto.
  - rewrite mixed_run_ids. now apply elem_of_singleton.
  - exists r. split; [exact Hr|]. split; [exact Hid|].
    eapply List.Forall_forall in Hall; [|exact Hr]. destruct Hall as [Ho _].
    rewrite Ho, Hid. vm_compute. reflexivity.
Defined.

End Ranking.

Section RankingOrder.
Import Orchestrator.

(** C8 (amended). The final ranking of a run is sorted by overall score
    in descending order, and records of equal overall score keep the
    order in which they were built, which is the order of iteration
    over the set of ids. *)
Theorem ranking_sorted_and_stable (inv : Invocations) (order : list string) :
  StronglySorted by_score_desc (final_results (run_full_evaluation inv order))
  /\ forall q : Q,
       with_score q (final_results (run_full_evaluation inv order))
       = with_score q (map (final_record (run_stages inv).1) order).
Proof.
  rewrite ranking_of_run. split.
  - apply sort_by_score_strongly_sorted.
  - intros q. apply with_score_sort.
Qed.

(** Records of equal score in the order of their ids. *)
Definition ties_by_id (l : list SubmissionResult) : Prop :=
  StronglySorted (fun a b =>
    (overall_score a == overall_score b)%Q ->
    String.leb (submission_id a) (submission_id b) = true) l.

Definition full_marks (id : string) : Row :=
  {| row_id := id; row_passed := true; row_score := 100 |}.

(** A run in which two submissions get the same scores in all stages. *)
Definition tie_run : Invocations :=
  let rows := Results [full_marks "#1 (Ann)"; full_marks "#2 (Bob)"] in
  {| security_run := rows; compliance_run := fun _ => rows;
     data_integrity_run := fun _ => rows; contest_rules_run := fun _ => rows |}.

Definition ranked_ids (st : State) : list string := map submission_id (final_results st).

Lemma tie_run_ids :
  all_submissions (run_stages tie_run).1 = {["#1 (Ann)"; "#2 (Bob)"]}.
Proof.
  unfold all_submissions. simpl. unfold record_entry. simpl.
  rewrite !dom_insert_L, !dom_empty_L. set_solver.
Qed.

(** C8, counterexample. Two submissions with equal scores are ranked in
    the order in which the set of ids is iterated over: when the set
    yields "#2 (Bob)" first, the ranking lists it first, against the
    order of the ids; when the set yields "#1 (Ann)" first, the ranking
    is the other way round. *)
Lemma ties_follow_iteration_order :
  iterates ["#2 (Bob)"; "#1 (Ann)"] (run_stages tie_run).1
  /\ ranked_ids (run_full_evaluation tie_run ["#2 (Bob)"; "#1 (Ann)"])
     = ["#2 (Bob)"; "#1 (Ann)"]
  /\ ~ ties_by_id (final_results (run_full_evaluation tie_run ["#2 (Bob)"; "#1 (Ann)"]))
  /\ ranked_ids (run_full_evaluation tie_run ["#1 (Ann)"; "#2 (Bob)"])
     = ["#1 (Ann)"; "#2 (Bob)"].
Proof.
  split; [|split; [|split]].
  - split.
    + apply (bool_decide_unpack _). vm_compute. exact I.
    + intros id. rewrite tie_run_ids.
      rewrite !elem_of_cons, elem_of_nil, elem_of_union, !elem_of_singleton. tauto.
  - vm_compute. reflexivity.
  - intros H. unfold ties_by_id in H. vm_compute in H.
    inversion H as [|a l Hl Hall E]; subst. apply Forall_cons_1 in Hall as [Hab _].
    specialize (Hab eq_refl). discriminate.
  - vm_compute. reflexivity.
Qed.

End RankingOrder.

(** ** The fallback of a stage whose tool fails *)

Section Fallback.
Import Orchestrator.

(** The invocation did not produce a results file that could be read:
    it raised, exited with a non-zero code or left no file. *)
Definition failed (inv : Invocation) : Prop :=
  match inv with
  | Results _ => False
  | _ => True
  end.

Lemma stage_dict_record_entry s id p x st :
  stage_dict s (record_entry s id p x st)
  = <[id := {| passed := p; score := x |}]> (stage_dict s st).
Proof. now destruct s. Qed.

Lemma stage_dict_record_entry_other s s' id p x st :
  s <> s' -> stage_dict s' (record_entry s id p x st) = stage_dict s' st.
Proof. destruct s, s'; simpl; congruence. Qed.

Lemma stage_dict_assume_pass s x ids st id :
  stage_dict s (assume_pass s x ids st) !! id
  = if decide (id ∈ ids) then Some {| passed := true; score := x |}
    else stage_dict s st !! id.
Proof.
  unfold assume_pass. revert st.
  induction ids as [|i ids IH]; intros st; simpl.
  - destruct (decide (id ∈ [])) as [H|_]; [|reflexivity]. now apply elem_of_nil in H.
  - rewrite IH, stage_dict_record_entry.
    destruct (decide (id ∈ ids)) as [Hin|Hnin].
    + rewrite decide_True; [reflexivity|]. now apply elem_of_cons; right.
    + destruct (decide (id = i)) as [->|Hne].
      * rewrite lookup_insert_eq, decide_True; [reflexivity|]. apply elem_of_cons; now left.
      * rewrite lookup_insert_ne by congruence.
        rewrite decide_False; [reflexivity|].
        intros [?|?]%elem_of_cons; contradiction.
Qed.

Lemma stage_dict_assume_pass_other s s' x ids st :
  s <> s' -> stage_dict s' (assume_pass s x ids st) = stage_dict s' st.
Proof.
  intros Hne. unfold assume_pass. revert st.
  induction ids as [|i ids IH]; intros st; simpl; [reflexivity|].
  rewrite IH. now apply stage_dict_record_entry_other.
Qed.

(** C7 (amended). When the invocation of a stage tool fails (it raises,
    exits with a non-zero code or leaves no results file): the contest
    rules stage records every incoming survivor as passed with the
    default score 75, leaves the other records alone and lets all of
    them survive; the data integrity stage and the security stage
    record nothing and let nobody survive; the compliance stage lets
    all the incoming survivors survive. *)
Theorem fallback_of_a_failed_stage (inv : Invocation) (survivors : list string)
    (st : State) :
  failed inv ->
  ((run_contest_rules_verification inv survivors st).2 = survivors
   /\ (forall id, id ∈ survivors ->
         contest_rules (run_contest_rules_verification inv survivors st).1 !! id
         = Some {| passed := true; score := 75 |})
   /\ (forall id, id ∉ survivors ->
         contest_rules (run_contest_rules_verification inv survivors st).1 !! id
         = contest_rules st !! id)
   /\ forall s, s <> ContestRulesStage ->
         stage_dict s (run_contest_rules_verification inv survivors st).1 = stage_dict s st)
  /\ run_data_integrity_check inv survivors st = (st, [])
  /\ run_security_audit inv st = (st, [])
  /\ (run_compliance_check inv survivors st).2 = survivors.
Proof.
  intros Hf.
  assert (E : run_contest_rules_verification inv survivors st
              = (assume_pass ContestRulesStage 75 survivors st, survivors)).
  { destruct inv; simpl in Hf; [reflexivity..|contradiction]. }
  rewrite E. simpl. repeat split.
  - intros id Hin.
    change (contest_rules ?s) with (stage_dict ContestRulesStage s).
    rewrite stage_dict_assume_pass. now rewrite decide_True.
  - intros id Hnin.
    change (contest_rules ?s) with (stage_dict ContestRulesStage s).
    rewrite stage_dict_assume_pass. now rewrite decide_False.
  - intros s Hs. apply stage_dict_assume_pass_other. congruence.
  - destruct inv; simpl in Hf; [reflexivity..|contradiction].
  - destruct inv; simpl in Hf; [reflexivity..|contradiction].
  - destruct inv; simpl in Hf; [reflexivity..|contradiction].
Qed.

Lemma fallback_of_a_failed_stage_witness :
  (run_contest_rules_verification Failed ["#1 (Ann)"] initial).2 = ["#1 (Ann)"]
  /\ run_data_integrity_check Failed ["#1 (Ann)"] initial = (initial, []).
Proof.
  pose proof (fallback_of_a_failed_stage Failed ["#1 (Ann)"] initial I) as H.
  split; [exact (proj1 (proj1 H))|exact (proj1 (proj2 H))].
Defined.

(** C7, counterexample. A survivor of the compliance stage whose data
    integrity check exits with an error is dropped and no result is
    recorded for it in that stage; a survivor whose compliance check
    exits with an error goes on to the next stage with no result
    recorded for it either. *)
Lemma failed_stage_drops_survivor :
  let out := run_data_integrity_check Failed ["#1 (Ann)"] initial in
  out.2 = [] /\ data_integrity out.1 !! "#1 (Ann)" = None
  /\ compliance (run_compliance_check Failed ["#1 (Ann)"] initial).1 !! "#1 (Ann)" = None.
Proof. repeat split. Qed.

End Fallback.

(** ** The text-pattern scanner *)

Section PatternScanner.
Import PyStr SecurityAudit.

(** The rules of a catalog in its order: every pattern with its
    category. *)
Definition rules_of (catalog : list PatternCategory) : list (PatternCategory * string) :=
  flat_map (fun c => map (pair c) (cat_patterns c)) catalog.

(** The numbered lines a rule fires on: those that are no comment and
    that the pattern matches. *)
Definition matching_lines (pattern : string) (lines : list string) : list (nat * string) :=
  List.filter (fun '(_, line) =>
    negb (is_comment_line line) && Re.found pattern line Re.IGNORECASE) (enumerate1 lines).

Lemma check_patterns_with_rules catalog content path :
  check_patterns_with catalog content path
  = flat_map (fun '(c, p) => scan_lines c p path (enumerate1 (splitlines content)))
             (rules_of catalog).
Proof.
  unfold check_patterns_with, rules_of.
  induction catalog as [|c catalog IH]; simpl; [reflexivity|].
  rewrite flat_map_app, IH. f_equal.
  induction (cat_patterns c) as [|p ps IHp]; simpl; [reflexivity|]. now rewrite IHp.
Qed.

Lemma scan_lines_matching c p path numbered :
  scan_lines c p path numbered
  = map (fun '(n, line) => pattern_issue c p path n line)
        (List.filter (fun '(_, line) =>
           negb (is_comment_line line) && Re.found p line Re.IGNORECASE) numbered).
Proof.
  unfold scan_lines. induction numbered as [|[n line] rest IH]; simpl; [reflexivity|].
  rewrite IH. destruct (is_comment_line line); simpl; [reflexivity|].
  now destruct (Re.found p line Re.IGNORECASE).
Qed.

Lemma filter_increasing {A : Type} (f : nat * A -> bool) (l : list (nat * A)) :
  StronglySorted lt (map fst l) -> StronglySorted lt (map fst (List.filter f l)).
Proof.
  induction l as [|x l IH]; simpl; intros Hs; [constructor|].
  apply StronglySorted_inv in Hs as [Hs Hall].
  destruct (f x); simpl; [|now apply IH].
  constructor; [now apply IH|].
  apply List.Forall_forall. intros n Hn.
  apply in_map_iff in Hn as (y & <- & Hy). apply filter_In in Hy as [Hy _].
  eapply List.Forall_forall in Hall; [exact Hall|]. now apply in_map.
Qed.

Lemma seq_increasing start len : StronglySorted lt (seq start len).
Proof.
  revert start. induction len as [|len IH]; intros start; simpl; constructor; [apply IH|].
  apply List.Forall_forall. intros n Hn. apply in_seq in Hn. lia.
Qed.

Lemma enumerate1_fst {A : Type} (l : list A) : map fst (enumerate1 l) = seq 1 (length l).
Proof.
  unfold enumerate1. generalize 1. induction l as [|x l IH]; intros k; simpl; [reflexivity|].
  now rewrite IH.
Qed.

(** C9 (amended). The text-pattern scanner emits its issues rule by
    rule, in the order of the rule catalog (the categories, and in each
    category its patterns); the issues of one rule are those of the
    lines that are no comment and match its pattern, one issue per such
    line, in the order of the lines. *)
Theorem issues_by_rule_then_line (content path : string) :
  _check_dangerous_patterns content path
  = flat_map (fun '(c, p) =>
      map (fun '(n, line) => pattern_issue c p path n line)
          (matching_lines p (splitlines content)))
      (rules_of dangerous_patterns)
  /\ forall p, StronglySorted lt (map fst (matching_lines p (splitlines content))).
Proof.
  split.
  - unfold _check_dangerous_patterns. rewrite check_patterns_with_rules.
    apply flat_map_ext. intros [c p]. apply scan_lines_matching.
  - intros p. apply filter_increasing. rewrite enumerate1_fst. apply seq_increasing.
Qed.

(** The line feed as a string. *)
Definition LF : string := newline_string.

(** C9, counterexample. On the two lines [eval(a)] and [exec(b)] the
    scanner reports line 2 before line 1: the rule for [exec] comes
    before the rule for [eval] in the catalog, and the rules, not the
    lines, are the outer order. *)
Lemma later_line_reported_first :
  map line_number (_check_dangerous_patterns ("eval(a)" +:+ LF +:+ "exec(b)") "f.py")
  = [Some 2; Some 1].
Proof. vm_compute. reflexivity. Qed.

End PatternScanner.

(** ** A call of [exec] on a source line *)

Section ExecLine.
Import PyStr Ast Fs SecurityAudit.

(** The issues a list holds for a line number. *)
Definition at_line (n : nat) (l : list SecurityIssue) : list SecurityIssue :=
  List.filter (fun i => bool_decide (line_number i = Some n)) l.

Lemma at_line_app n l1 l2 : at_line n (l1 ++ l2) = at_line n l1 ++ at_line n l2.
Proof. apply List.filter_app. Qed.

Lemma at_line_scan_one c p path n m line :
  at_line n (scan_lines c p path [(m, line)])
  = if decide (m = n) then scan_lines c p path [(m, line)] else [].
Proof.
  unfold at_line, scan_lines. simpl. rewrite app_nil_r.
  destruct (is_comment_line line); [now destruct (decide (m = n))|].
  destruct (Re.found p line Re.IGNORECASE); [|now destruct (decide (m = n))].
  simpl. destruct (decide (m = n)) as [->|Hne].
  - now rewrite bool_decide_eq_true_2.
  - rewrite bool_decide_eq_false_2; [reflexivity|congruence].
Qed.

Lemma scan_lines_cons c p path x rest :
  scan_lines c p path (x :: rest)
  = scan_lines c p path [x] ++ scan_lines c p path rest.
Proof. unfold scan_lines. simpl. now rewrite app_nil_r. Qed.

Lemma at_line_before c p path ls k n :
  n < k -> at_line n (scan_lines c p path (combine (seq k (length ls)) ls)) = [].
Proof.
  revert k. induction ls as [|l ls IH]; intros k Hlt; [reflexivity|].
  cbn [combine seq length].
  rewrite scan_lines_cons, at_line_app, at_line_scan_one, IH by lia.
  rewrite decide_False by lia. reflexivity.
Qed.

Lemma at_line_numbered c p path ls k n line :
  ls !! n = Some line ->
  at_line (k + n) (scan_lines c p path (combine (seq k (length ls)) ls))
  = scan_lines c p path [(k + n, line)].
Proof.
  revert k n. induction ls as [|l ls IH]; intros k n Hn; [discriminate|].
  cbn [combine seq length].
  rewrite scan_lines_cons, at_line_app, at_line_scan_one.
  destruct n as [|n]; simpl in Hn.
  - injection Hn as ->. rewrite Nat.add_0_r, decide_True by reflexivity.
    rewrite at_line_before by lia. apply app_nil_r.
  - rewrite decide_False by lia. simpl.
    replace (k + S n) with (S k + n) by lia. now apply IH.
Qed.

(** The issues of the text-pattern scan for one line of the source are
    those its rules raise on that line alone. *)
Lemma patterns_at_line content path n line :
  splitlines content !! n = Some line ->
  at_line (S n) (_check_dangerous_patterns content path)
  = flat_map (fun '(c, p) => scan_lines c p path [(S n, line)]) (rules_of dangerous_patterns).
Proof.
  intros Hn. unfold _check_dangerous_patterns. rewrite check_patterns_with_rules.
  induction (rules_of dangerous_patterns) as [|[c p] rs IH]; simpl; [reflexivity|].
  rewrite at_line_app, IH. f_equal.
  apply (at_line_numbered c p path (splitlines content) 1 n line Hn).
Qed.

Definition code_injection : PatternCategory :=
  {| cat_name := "code_injection";
     cat_patterns := ["\bexec\s*\("; "\beval\s*\("; "\bcompile\s*\("; "__import__\s*\("];
     cat_severity := CRITICAL; cat_category := "Code Injection" |}.

(** The file whose only line is [exec(user_input)], with the tree
    [ast.parse] returns for it: a module whose body is one expression
    statement, the call [exec(user_input)]. *)
Definition exec_tree : node :=
  Other [Other [Call 1 (Name "exec") [Name "user_input"] []]].

Definition exec_file : Entry :=
  {| rel_path := "your-strategy-template/your_strategy.py";
     is_file := true; is_dir := false; file_size := 16;
     text := ReadText "exec(user_input)"; parsed := Parsed exec_tree |}.

Definition exec_submission : Submission :=
  {| sub_path := "final_evaluation/#1 (Eve)"; entries := [exec_file] |}.

(** The "Code Injection" issues a list holds for a line number. *)
Definition injection_at (n : nat) (l : list SecurityIssue) : list SecurityIssue :=
  List.filter (fun i => String.eqb (category i) "Code Injection") (at_line n l).

(** A call, at a given line, of one of the four functions the
    structural analysis takes for code execution, by its plain name. *)
Definition is_injection_call (line : nat) (nd : node) : bool :=
  match nd with
  | Call lineno (Name id) _ _ =>
      (lineno =? line) && in_list id ["exec"; "eval"; "compile"; "__import__"]
  | _ => false
  end.

(** The issue the structural analysis raises for such a call. *)
Definition call_issue (content_lines : list string) (path : string) (nd : node)
    : list SecurityIssue :=
  match nd with
  | Call lineno (Name id) _ _ =>
      [ {| severity := CRITICAL;
           category := "Code Injection";
           description := "Dangerous code execution function: " +:+ id;
           file_path := path;
           line_number := Some lineno;
           code_snippet := Some (full_line_at content_lines lineno) |} ]
  | _ => []
  end.

Lemma injection_at_app n l1 l2 :
  injection_at n (l1 ++ l2) = injection_at n l1 ++ injection_at n l2.
Proof. unfold injection_at. now rewrite at_line_app, List.filter_app. Qed.

Lemma injection_at_other n i :
  String.eqb (category i) "Code Injection" = false -> injection_at n [i] = [].
Proof.
  intros H. unfold injection_at, at_line. cbn [List.filter].
  destruct (bool_decide (line_number i = Some n)); cbn [List.filter]; now rewrite ?H.
Qed.

Lemma injection_at_flat_map {A : Type} n (f g : A -> list SecurityIssue) (l : list A) :
  (forall x, injection_at n (f x) = g x) ->
  injection_at n (flat_map f l) = flat_map g l.
Proof.
  intros H. induction l as [|x l IH]; [reflexivity|].
  cbn [flat_map]. now rewrite injection_at_app, H, IH.
Qed.

Lemma flat_map_filter {A B : Type} (p : A -> bool) (g : A -> list B) (l : list A) :
  flat_map (fun x => if p x then g x else []) l = flat_map g (List.filter p l).
Proof.
  induction l as [|x l IH]; [reflexivity|]. cbn [flat_map List.filter].
  destruct (p x); cbn [flat_map app]; now rewrite IH.
Qed.

Lemma injection_at_imports n nd lines path :
  injection_at n (_check_imports_allowlist nd lines path) = [].
Proof.
  unfold _check_imports_allowlist.
  rewrite (injection_at_flat_map n _ (fun _ => [])).
  - induction (imported_modules nd); [reflexivity|assumption].
  - intros md. destruct (_ && _); [|reflexivity].
    destruct (existsb _ strategy_words); now apply injection_at_other.
Qed.

Lemma injection_at_obfuscation n content path :
  injection_at n (_check_obfuscation content path) = [].
Proof.
  unfold _check_obfuscation.
  rewrite (injection_at_flat_map n _ (fun _ => [])).
  - induction (enumerate1 (splitlines content)); [reflexivity|assumption].
  - intros [k line]. destruct (Re.found _ _ _); [|reflexivity].
    destruct (_ && _); [now apply injection_at_other|].
    destruct (_ <? _); [now apply injection_at_other|reflexivity].
Qed.

(** The structural analysis raises a "Code Injection" issue for a line
    at the calls of the four functions at that line, and nowhere
    else. *)
Lemma injection_at_node n lines path nd :
  injection_at n (node_issues lines path nd)
  = if is_injection_call n nd then call_issue lines path nd else [].
Proof.
  destruct nd as [l names|l md|l func args kws|l v attr| | | | | |];
    cbn [node_issues is_injection_call]; try reflexivity.
  - apply injection_at_imports.
  - apply injection_at_imports.
  - cbn [_check_dangerous_calls].
    destruct func as [| | |l' v attr|id| | | | |];
      cbn [as_name as_attribute_of_name]; try reflexivity.
    + destruct v; cbn [as_name]; try reflexivity.
      unfold subprocess_issues. destruct (String.eqb _ "subprocess"); [|reflexivity].
      destruct (is_yfinance_install args); now apply injection_at_other.
    + unfold code_execution_issues, call_issue.
      destruct (in_list id _); [|now rewrite andb_false_r].
      rewrite andb_true_r. unfold injection_at, at_line. cbn [List.filter line_number].
      destruct (decide (l = n)) as [->|Hne].
      * rewrite bool_decide_eq_true_2 by reflexivity. now rewrite Nat.eqb_refl.
      * rewrite bool_decide_eq_false_2 by congruence.
        apply Nat.eqb_neq in Hne. now rewrite Hne.
  - unfold _check_attribute_access. destruct v; try reflexivity.
    destruct (_ && _); [now apply injection_at_other|reflexivity].
Qed.

Lemma file_issues_parsed sub e content tree :
  text e = ReadText content -> parsed e = Parsed tree ->
  file_issues sub e
  = _check_dangerous_patterns content (full_path sub e)
    ++ flat_map (node_issues (splitlines content) (full_path sub e)) (walk tree)
    ++ _check_obfuscation content (full_path sub e).
Proof.
  intros Ht Hp. unfold file_issues, _scan_python_file, _analyze_ast.
  now rewrite Ht, Hp.
Qed.

(** C4 (amended). For a Python file that is read and parsed and one of
    whose lines is [exec(user_input)], the "Code Injection" issues the
    scan of the file reports for that line are one issue of the text
    patterns, CRITICAL, followed by one issue of the structural analysis
    for every call of [exec], [eval], [compile] or [__import__] by its
    plain name that the syntax tree of the file has at that line: one
    issue when the line is mere text, two when it is the call statement.
    These issues are among those of the submission, and a result whose
    only issue is one CRITICAL issue has the score 60 and does not
    pass. *)
Theorem exec_line_issues (sub : Submission) (e : Entry) (content : string)
    (tree : node) (n : nat) :
  text e = ReadText content ->
  parsed e = Parsed tree ->
  splitlines content !! n = Some "exec(user_input)" ->
  injection_at (S n) (file_issues sub e)
  = pattern_issue code_injection "\bexec\s*\(" (full_path sub e) (S n) "exec(user_input)"
    :: flat_map (call_issue (splitlines content) (full_path sub e))
         (List.filter (is_injection_call (S n)) (walk tree))
  /\ severity (pattern_issue code_injection "\bexec\s*\(" (full_path sub e) (S n)
                 "exec(user_input)") = CRITICAL
  /\ (In e (python_files sub) ->
      forall i, In i (injection_at (S n) (file_issues sub e)) ->
        In i (issues (scan_submission sub)))
  /\ (forall id who scanned i,
        severity i = CRITICAL ->
        (security_score (audit_result id who [i] scanned) == 60)%Q
        /\ passed (audit_result id who [i] scanned) = false).
Proof.
  intros Ht Hp Hn. split; [|split; [reflexivity|split]].
  - rewrite (file_issues_parsed sub e content tree Ht Hp), !injection_at_app.
    rewrite injection_at_obfuscation, app_nil_r.
    rewrite (injection_at_flat_map (S n) _ _ _ (injection_at_node (S n) _ _)).
    rewrite flat_map_filter.
    unfold injection_at at 1. rewrite (patterns_at_line content _ n _ Hn).
    vm_compute (List.filter _ _). reflexivity.
  - intros He i Hi. cbn [scan_submission audit_result issues].
    apply in_or_app. right. apply in_flat_map. exists e. split; [exact He|].
    unfold injection_at, at_line in Hi.
    apply filter_In in Hi as [Hi _]. now apply filter_In in Hi as [Hi _].
  - intros id who scanned i Hi. unfold audit_result, count_severity. simpl.
    rewrite Hi. split; reflexivity.
Qed.

(** A file in which the line stands in a string literal: the tree of
    the file is a module whose one statement is that constant. *)
Definition quoted_exec_text : string :=
  "'''" +:+ newline_string +:+ "exec(user_input)" +:+ newline_string +:+ "'''".

Definition quoted_exec_file : Entry :=
  {| rel_path := "your-strategy-template/your_strategy.py";
     is_file := true; is_dir := false; file_size := 24;
     text := ReadText quoted_exec_text;
     parsed := Parsed (Other [Other [Constant
                 (newline_string +:+ "exec(user_input)" +:+ newline_string)]]) |}.

Definition quoted_exec_submission : Submission :=
  {| sub_path := "final_evaluation/#2 (Bob)"; entries := [quoted_exec_file] |}.

Lemma exec_line_issues_witness :
  injection_at 2 (file_issues quoted_exec_submission quoted_exec_file)
  = [pattern_issue code_injection "\bexec\s*\("
       (full_path quoted_exec_submission quoted_exec_file) 2 "exec(user_input)"]
  /\ injection_at 1 (file_issues exec_submission exec_file)
     = pattern_issue code_injection "\bexec\s*\(" (full_path exec_submission exec_file) 1
         "exec(user_input)"
       :: call_issue ["exec(user_input)"] (full_path exec_submission exec_file)
            (Call 1 (Name "exec") [Name "user_input"] [])
  /\ length (issues (scan_submission quoted_exec_submission)) = 1
  /\ security_score (scan_submission quoted_exec_submission) = 60%Q.
Proof.
  pose proof (exec_line_issues quoted_exec_submission quoted_exec_file quoted_exec_text
                _ 1 eq_refl eq_refl eq_refl) as [H1 _].
  pose proof (exec_line_issues exec_submission exec_file "exec(user_input)" exec_tree
                0 eq_refl eq_refl eq_refl) as [H2 _].
  split; [|split; [|split]].
  - rewrite H1. reflexivity.
  - rewrite H2. reflexivity.
  - vm_compute. reflexivity.
  - vm_compute. reflexivity.
Defined.

(** C4, counterexample. The scan of a submission whose only file
    consists of the line [exec(user_input)] reports two CRITICAL "Code
    Injection" issues for that line, one from the text patterns and one
    from the syntax tree, and its score is 20, not 60. *)
Lemma exec_line_counted_twice :
  map (fun i => (severity i, category i, line_number i))
      (issues (scan_submission exec_submission))
  = [ (CRITICAL, "Code Injection", Some 1); (CRITICAL, "Code Injection", Some 1) ]
  /\ security_score (scan_submission exec_submission) = 20%Q
  /\ passed (scan_submission exec_submission) = false.
Proof. vm_compute. repeat split. Qed.

End ExecLine.

(** ** The drawdown limit *)

Section Drawdown.
Import PyStr Fs ContestRules.

Lemma count_severity_pos {A : Type} (sev : A -> Severity) (s : Severity) (x : A)
    (xs : list A) :
  In x xs -> sev x = s -> count_severity sev s xs <> 0.
Proof.
  intros Hin Hs H. apply count_severity_zero in H. apply H.
  apply in_map_iff. now exists x.
Qed.

Lemma financial_violations_in_result sub csv v :
  In v (validate_financial_constraints (performance_metrics sub csv)) ->
  In v (violations (check_submission sub csv)).
Proof.
  intros Hv. simpl. unfold all_violations. rewrite !in_app_iff. tauto.
Qed.

(** C10. A maximum drawdown greater than or equal to 50.0 raises the
    CRITICAL violation "DISQUALIFICATION - Drawdown Violation", and the
    submission does not pass: the limit itself disqualifies. *)
Theorem drawdown_at_limit_disqualifies (sub : Submission) (csv : CsvReader) (dd : Q) :
  performance_metrics sub csv !! "max_drawdown" = Some dd ->
  (50 <= dd)%Q ->
  In (drawdown_violation dd) (violations (check_submission sub csv))
  /\ severity (drawdown_violation dd) = CRITICAL
  /\ category (drawdown_violation dd) = "DISQUALIFICATION - Drawdown Violation"
  /\ passed (check_submission sub csv) = false.
Proof.
  intros Hm Hdd.
  assert (Hin : In (drawdown_violation dd) (violations (check_submission sub csv))).
  { apply financial_violations_in_result. unfold validate_financial_constraints.
    rewrite Hm. unfold ge, MAX_DRAWDOWN.
    apply Qle_bool_iff in Hdd. rewrite Hdd. apply in_app_iff. left. now left. }
  repeat split; [exact Hin|].
  simpl. unfold verdict.
  destruct (count_severity severity CRITICAL (all_violations sub csv) =? 0) eqn:E.
  - apply Nat.eqb_eq in E. exfalso.
    exact (count_severity_pos severity CRITICAL _ _ Hin eq_refl E).
  - now rewrite andb_false_r.
Qed.

(** A reader for a submission without CSV files. *)
Definition no_csv : CsvReader := {| frames := fun _ => None; spans := fun _ => None |}.

Definition text_file (rel content : string) : Entry :=
  {| rel_path := rel; is_file := true; is_dir := false;
     file_size := N.of_nat (String.length content);
     text := ReadText content; parsed := Ast.ParseRaised EmptyString |}.

Definition directory (rel : string) : Entry :=
  {| rel_path := rel; is_file := false; is_dir := true; file_size := 4096;
     text := ReadRaised "Is a directory"; parsed := Ast.ParseRaised EmptyString |}.

(** A submission whose report states a maximum drawdown of exactly
    50.0 percent. *)
Definition at_limit_submission : Submission :=
  {| sub_path := "final_evaluation/#7 (Max)";
     entries :=
       [ directory "your-strategy-template"; directory "reports";
         text_file "reports/backtest_report.md" "Max Drawdown: 50.0%" ] |}.

Lemma drawdown_at_limit_disqualifies_witness :
  In (drawdown_violation 50.0) (violations (check_submission at_limit_submission no_csv))
  /\ passed (check_submission at_limit_submission no_csv) = false.
Proof.
  destruct (drawdown_at_limit_disqualifies at_limit_submission no_csv 50.0)
    as (H1 & _ & _ & H2).
  - vm_compute. reflexivity.
  - unfold Qle. simpl. lia.
  - split; assumption.
Defined.

End Drawdown.

(** ** The metric extractor *)

Section MetricExtraction.
Import PyStr PyNum Fs ContestRules.

(** The value a list of patterns yields: that of the first pattern
    which matches and whose group can be read. *)
Fixpoint first_value (patterns : list string) (text : string)
    (read : string -> option Q) : option Q :=
  match patterns with
  | [] => None
  | pattern :: rest =>
      match search_group1 pattern text ≫= read with
      | Some v => Some v
      | None => first_value rest text read
      end
  end.

Definition read_int (g : string) : option Q := inject_Z <$> int_of_string g.

(** The value of the pattern for a combined Sharpe ratio, when it is
    plausible. *)
Definition combined_sharpe (text : string) : option Q :=
  match search_group1 combined_sharpe_pattern text ≫= float_of_string with
  | Some v => if plausible_sharpe v then Some v else None
  | None => None
  end.

(** The metrics of the CSV files that are read, in the order of the
    files. *)
Definition csv_metrics (sub : Submission) (frames : string -> option DataFrame)
    : list Metrics :=
  omap (fun e =>
          if (1024 * 1024 <? file_size e)%N then None
          else extract_metrics_from_csv <$> frames (rel_path e))
       (glob_name sub (endswith ".csv")).

Lemma lookup_update (a b : Metrics) (k : string) :
  update a b !! k = match b !! k with Some v => Some v | None => a !! k end.
Proof.
  unfold update. rewrite lookup_union.
  destruct (b !! k), (a !! k); reflexivity.
Qed.

Lemma update_empty (b : Metrics) : update ∅ b = b.
Proof.
  apply map_eq. intros k. rewrite lookup_update, lookup_empty.
  now destruct (b !! k).
Qed.

Lemma first_attempt_uniform patterns text attempt read
    (change : Q -> Metrics -> Metrics) (m : Metrics) :
  (forall p g, In p patterns -> attempt p g = change <$> read g) ->
  first_attempt patterns text attempt m =
  match first_value patterns text read with
  | Some v => change v m
  | None => m
  end.
Proof.
  induction patterns as [|p rest IH]; intros H; simpl; [reflexivity|].
  destruct (search_group1 p text) as [g|]; simpl.
  - rewrite (H p g (or_introl eq_refl)).
    destruct (read g); simpl; [reflexivity|].
    apply IH. intros; apply H; now right.
  - apply IH. intros; apply H; now right.
Qed.

Lemma first_attempt_keeps patterns text attempt (m : Metrics) (k : string) :
  (forall p g change, attempt p g = Some change ->
     forall m' : Metrics, change m' !! k = m' !! k) ->
  first_attempt patterns text attempt m !! k = m !! k.
Proof.
  intros H. induction patterns as [|p rest IH]; simpl; [reflexivity|].
  destruct (search_group1 p text) as [g|]; simpl; [|exact IH].
  destruct (attempt p g) as [change|] eqn:E; [|exact IH].
  exact (H p g change E m).
Qed.

Lemma store_return_keeps pattern value (m : Metrics) (k : string) :
  k <> "total_return" -> k <> "total_pnl" ->
  store_return pattern value m !! k = m !! k.
Proof.
  intros H1 H2. unfold store_return, set_return.
  destruct (_ || _ || _); now rewrite !lookup_insert_ne by congruence.
Qed.

Lemma fold_update_none (l : list Metrics) (data : Metrics) (k : string) :
  Forall (fun m => m !! k = None) l -> fold_left update l data !! k = data !! k.
Proof.
  revert data. induction l as [|m l IH]; intros data H; simpl; [reflexivity|].
  inversion H as [|? ? Hm Hl]; subst.
  rewrite (IH _ Hl), lookup_update, Hm. reflexivity.
Qed.

Lemma fold_update_last (l1 l2 : list Metrics) (mc data : Metrics) (k : string) (v : Q) :
  mc !! k = Some v -> Forall (fun m => m !! k = None) l2 ->
  fold_left update (l1 ++ mc :: l2) data !! k = Some v.
Proof.
  intros Hm Hl. rewrite fold_left_app. simpl.
  rewrite (fold_update_none _ _ _ Hl), lookup_update, Hm. reflexivity.
Qed.

Lemma extract_performance_metrics_fold sub frames data :
  fst (extract_performance_metrics sub frames data)
  = fold_left update (csv_metrics sub frames) data.
Proof.
  unfold extract_performance_metrics, csv_metrics. simpl.
  generalize (glob_name sub (endswith ".csv")). intros files. revert data.
  induction files as [|e files IH]; intros data; simpl; [reflexivity|].
  destruct (1024 * 1024 <? file_size e)%N; [apply IH|].
  destruct (frames (rel_path e)); simpl; apply IH.
Qed.

Ltac attempt_keeps :=
  let g := fresh "g" in
  let E := fresh "E" in
  intros ? g ? E ?; cbn beta in E;
  repeat match type of E with
         | context [float_of_string g] => destruct (float_of_string g)
         | context [int_of_string g] => destruct (int_of_string g)
         | context [plausible_sharpe ?v] => destruct (plausible_sharpe v)
         end;
  cbn [fmap option_fmap option_map] in E; inversion E; subst;
  first [ apply store_return_keeps; congruence
        | rewrite lookup_insert_ne by congruence; reflexivity ].

Ltac skip_stage := rewrite first_attempt_keeps by attempt_keeps.

Ltac skip_fallback_sharpe :=
  match goal with
  | |- context [bool_decide ?P] => destruct (bool_decide P)
  end; [|skip_stage].

Ltac skip_combined_sharpe :=
  match goal with
  | |- context [search_group1 combined_sharpe_pattern ?t ≫= float_of_string] =>
      destruct (search_group1 combined_sharpe_pattern t ≫= float_of_string) as [c|];
      [destruct (plausible_sharpe c);
       [rewrite lookup_insert_ne by congruence|]|]
  end.

(** The return of the text is what the return patterns leave. *)
Lemma text_return_lookup (content k : string) :
  k = "total_return" \/ k = "total_pnl" ->
  extract_metrics_from_text content !! k
  = first_attempt pnl_patterns (lower content)
      (fun pattern g => store_return pattern <$> float_of_string g)
      (extract_from_markdown_table content) !! k.
Proof.
  intros Hk. unfold extract_metrics_from_text. cbv zeta. rewrite update_empty.
  destruct Hk; subst k; skip_stage; skip_fallback_sharpe; skip_combined_sharpe;
    skip_stage; skip_stage; reflexivity.
Qed.

Lemma text_drawdown_lookup (content : string) :
  extract_metrics_from_text content !! "max_drawdown"
  = match first_value drawdown_patterns (lower content) float_of_string with
    | Some v => Some (Qabs v)
    | None => extract_from_markdown_table content !! "max_drawdown"
    end.
Proof.
  unfold extract_metrics_from_text. cbv zeta. rewrite update_empty.
  skip_stage; skip_fallback_sharpe; skip_combined_sharpe; skip_stage.
  all: rewrite (first_attempt_uniform drawdown_patterns _ _ float_of_string
                  (fun v => <["max_drawdown" := Qabs v]>)) by reflexivity.
  all: destruct (first_value drawdown_patterns _ _);
    [now rewrite lookup_insert_eq | skip_stage; reflexivity].
Qed.

Lemma text_trades_lookup (content : string) :
  extract_metrics_from_text content !! "total_trades"
  = match first_value trade_patterns (lower content) read_int with
    | Some v => Some v
    | None => extract_from_markdown_table content !! "total_trades"
    end.
Proof.
  unfold extract_metrics_from_text. cbv zeta. rewrite update_empty.
  skip_stage; skip_fallback_sharpe; skip_combined_sharpe.
  all: rewrite (first_attempt_uniform trade_patterns _ _ read_int
                  (fun v => <["total_trades" := v]>))
    by (intros p g _; unfold read_int; now destruct (int_of_string g)).
  all: destruct (first_value trade_patterns _ _);
    [now rewrite lookup_insert_eq | skip_stage; skip_stage; reflexivity].
Qed.

Lemma pnl_patterns_store (p g : string) :
  In p pnl_patterns ->
  store_return p <$> float_of_string g = set_return <$> float_of_string g.
Proof.
  intros Hp. destruct (float_of_string g) as [v|]; [|reflexivity].
  cbn [fmap option_fmap option_map]. f_equal.
  unfold pnl_patterns in Hp. simpl in Hp.
  repeat (destruct Hp as [<-|Hp]; [reflexivity|]). destruct Hp.
Qed.

Lemma text_return_value (content : string) :
  extract_metrics_from_text content !! "total_return"
  = match first_value pnl_patterns (lower content) float_of_string with
    | Some v => Some v
    | None => extract_from_markdown_table content !! "total_return"
    end.
Proof.
  rewrite text_return_lookup by now left.
  rewrite (first_attempt_uniform pnl_patterns _ _ float_of_string set_return)
    by (intros; now apply pnl_patterns_store).
  destruct (first_value pnl_patterns _ _); [|reflexivity].
  unfold set_return. rewrite lookup_insert_ne by congruence.
  now rewrite lookup_insert_eq.
Qed.

Lemma text_pnl_value (content : string) :
  extract_metrics_from_text content !! "total_pnl"
  = match first_value pnl_patterns (lower content) float_of_string with
    | Some v => Some (v * STARTING_CAPITAL / 100)%Q
    | None => extract_from_markdown_table content !! "total_pnl"
    end.
Proof.
  rewrite text_return_lookup by now right.
  rewrite (first_attempt_uniform pnl_patterns _ _ float_of_string set_return)
    by (intros; now apply pnl_patterns_store).
  destruct (first_value pnl_patterns _ _); [|reflexivity].
  unfold set_return. now rewrite lookup_insert_eq.
Qed.

(** A group read as a Sharpe ratio: a float between -5 and 10. *)
Definition read_plausible (g : string) : option Q :=
  match float_of_string g with
  | Some v => if plausible_sharpe v then Some v else None
  | None => None
  end.

Lemma text_sharpe_lookup (content : string) :
  extract_metrics_from_text content !! "sharpe_ratio"
  = match combined_sharpe (lower content) with
    | Some c => Some c
    | None =>
        match extract_from_markdown_table content !! "sharpe_ratio" with
        | Some v => Some v
        | None => first_value sharpe_patterns (lower content) read_plausible
        end
    end.
Proof.
  unfold extract_metrics_from_text. cbv zeta. rewrite update_empty. skip_stage.
  match goal with
  | |- context [first_attempt trade_patterns ?t ?a ?m] =>
      set (m3 := first_attempt trade_patterns t a m)
  end.
  assert (Hm3 : m3 !! "sharpe_ratio"
                = extract_from_markdown_table content !! "sharpe_ratio")
    by (subst m3; skip_stage; skip_stage; skip_stage; reflexivity).
  clearbody m3. unfold combined_sharpe.
  assert (Hrest :
    (if bool_decide (is_Some (m3 !! "sharpe_ratio")) then m3
     else first_attempt sharpe_patterns (lower content)
            (fun _ g =>
               match float_of_string g with
               | Some v => if plausible_sharpe v
                           then Some (<["sharpe_ratio" := v]>) else None
               | None => None
               end) m3) !! "sharpe_ratio"
    = match extract_from_markdown_table content !! "sharpe_ratio" with
      | Some v => Some v
      | None => first_value sharpe_patterns (lower content) read_plausible
      end).
  { destruct (extract_from_markdown_table content !! "sharpe_ratio") as [v|] eqn:Et.
    - rewrite bool_decide_eq_true_2 by (rewrite Hm3; eauto). exact Hm3.
    - rewrite bool_decide_eq_false_2
        by (rewrite Hm3; intros [? ?]; discriminate).
      rewrite (first_attempt_uniform sharpe_patterns _ _ read_plausible
                 (fun v => <["sharpe_ratio" := v]>))
        by (intros p g _; unfold read_plausible;
            destruct (float_of_string g) as [v|];
            [destruct (plausible_sharpe v)|]; reflexivity).
      destruct (first_value sharpe_patterns _ _);
        [now rewrite lookup_insert_eq | exact Hm3]. }
  destruct (search_group1 combined_sharpe_pattern (lower content) ≫= float_of_string)
    as [c|]; [destruct (plausible_sharpe c)|]; try exact Hrest.
  rewrite bool_decide_eq_true_2 by (rewrite lookup_insert_eq; eauto).
  now rewrite lookup_insert_eq.
Qed.

(** C5. The strategies run in the order table-aware parse, free-text
    patterns, CSV files, and the LAST one that extracts a value for a key
    decides it: a value of the return, drawdown or trade patterns replaces
    the one read from a table (within a list of patterns the first that
    yields a value is used), and so does a plausible value of the
    combined-Sharpe pattern; the metrics of a CSV file replace those of the
    reports and of the CSV files before it. Only the two fallback Sharpe
    patterns leave a populated [sharpe_ratio] alone. *)
Theorem last_extraction_wins (content : string) (sub : Submission)
    (frames : string -> option DataFrame) (data : Metrics) :
  (forall v, first_value pnl_patterns (lower content) float_of_string = Some v ->
     extract_metrics_from_text content !! "total_return" = Some v
     /\ extract_metrics_from_text content !! "total_pnl"
        = Some (v * STARTING_CAPITAL / 100)%Q)
  /\ (forall v, first_value drawdown_patterns (lower content) float_of_string = Some v ->
        extract_metrics_from_text content !! "max_drawdown" = Some (Qabs v))
  /\ (forall v, first_value trade_patterns (lower content) read_int = Some v ->
        extract_metrics_from_text content !! "total_trades" = Some v)
  /\ (forall v, combined_sharpe (lower content) = Some v ->
        extract_metrics_from_text content !! "sharpe_ratio" = Some v)
  /\ (forall v, combined_sharpe (lower content) = None ->
        extract_from_markdown_table content !! "sharpe_ratio" = Some v ->
        extract_metrics_from_text content !! "sharpe_ratio" = Some v)
  /\ (forall before after last_csv k v,
        csv_metrics sub frames = before ++ last_csv :: after ->
        last_csv !! k = Some v ->
        Forall (fun m : Metrics => m !! k = None) after ->
        fst (extract_performance_metrics sub frames data) !! k = Some v).
Proof.
  repeat split.
  - rewrite text_return_value. now rewrite H.
  - rewrite text_pnl_value. now rewrite H.
  - intros v H. rewrite text_drawdown_lookup. now rewrite H.
  - intros v H. rewrite text_trades_lookup. now rewrite H.
  - intros v H. rewrite text_sharpe_lookup. now rewrite H.
  - intros v H Ht. rewrite text_sharpe_lookup. now rewrite H, Ht.
  - intros l1 l2 mc k v Hl Hm Hrest.
    rewrite extract_performance_metrics_fold, Hl.
    now apply fold_update_last.
Qed.

(** A report whose table gives a combined return of 28.65 percent and
    which then speaks of another return. *)
Definition two_returns_report : string :=
  "| Symbol | Return | Max DD | Sharpe | Trades |" +:+ SecurityAudit.newline_string
  +:+ "| Combined | 28.65% | 14.98% | 1.75 | 112 |" +:+ SecurityAudit.newline_string
  +:+ "Annualised return: 5.5%".

Definition signals_frame : DataFrame :=
  [ ("signal", ObjCol [Some "BUY"; Some "HOLD"; Some "SELL"]) ].

(** A submission with that report and a CSV file of three signals. *)
Definition two_returns_submission : Submission :=
  {| sub_path := "final_evaluation/#3 (Ann)";
     entries :=
       [ directory "reports";
         text_file "reports/backtest_report.md" two_returns_report;
         text_file "reports/signals.csv" "signal" ] |}.

Definition signals_reader (rel : string) : option DataFrame :=
  if String.eqb rel "reports/signals.csv" then Some signals_frame else None.

Lemma last_extraction_wins_witness :
  extract_metrics_from_text two_returns_report !! "total_return" = Some 5.5%Q
  /\ fst (extract_performance_metrics two_returns_submission signals_reader
            (extract_metrics_from_text two_returns_report)) !! "total_trades" = Some 2%Q.
Proof.
  destruct (last_extraction_wins two_returns_report two_returns_submission
              signals_reader (extract_metrics_from_text two_returns_report))
    as (Hret & _ & _ & _ & _ & Hcsv).
  split.
  - apply (Hret 5.5%Q). vm_compute. reflexivity.
  - apply (Hcsv [] [] (extract_metrics_from_csv signals_frame)).
    + vm_compute. reflexivity.
    + vm_compute. reflexivity.
    + constructor.
Defined.

(** The table of the report gives 28.65 for the return and 112 trades;
    the text patterns put 5.5 in the place of the former and the CSV file
    2 in the place of the latter. *)
Lemma populated_value_overwritten :
  extract_from_markdown_table two_returns_report !! "total_return" = Some 28.65%Q
  /\ extract_metrics_from_text two_returns_report !! "total_return" = Some 5.5%Q
  /\ extract_metrics_from_text two_returns_report !! "total_trades" = Some 112%Q
  /\ fst (extract_performance_metrics two_returns_submission signals_reader
            (extract_metrics_from_text two_returns_report)) !! "total_trades" = Some 2%Q.
Proof. vm_compute. repeat split; reflexivity. Qed.

(** A report whose table gives a Sharpe ratio of 12.5. *)
Definition high_sharpe_report : string :=
  "| Symbol | Return | Max DD | Sharpe | Trades |" +:+ SecurityAudit.newline_string
  +:+ "| Combined | 28.65% | 14.98% | 12.5 | 112 |".

Definition high_sharpe_submission : Submission :=
  {| sub_path := "final_evaluation/#4 (Bo)";
     entries :=
       [ directory "reports";
         text_file "reports/backtest_report.md" high_sharpe_report ] |}.

(** C6. The Sharpe ratio read from a table is stored without the test
    of its range: a table cell of 12.5 gives [sharpe_ratio] = 12.5 in the
    metrics of the text and in those of the submission. *)
Theorem table_sharpe_out_of_range :
  plausible_sharpe 12.5%Q = false
  /\ extract_metrics_from_text high_sharpe_report !! "sharpe_ratio" = Some 12.5%Q
  /\ performance_metrics high_sharpe_submission no_csv !! "sharpe_ratio" = Some 12.5%Q.
Proof. vm_compute. repeat split; reflexivity. Qed.

End MetricExtraction.

(** ** The survivors from stage to stage *)

Section Pipeline.
Import PyStr Fs Orchestrator.

(** A base directory whose only submission consists of the line
    [exec(user_input)]. *)
Definition eve_folder : Folder :=
  {| folder_name := "#1 (Eve)";
     folder_entries := [exec_file];
     folder_stats := fun _ => DataIntegrity.CsvRaised;
     folder_csv := no_csv |}.

Definition rejected_world : World :=
  {| base_path := "final_evaluation"; folders := [eve_folder] |}.

(** C2. When the security audit rejects every submission, the
    compliance checker is run with an empty [--submissions] value, which
    it reads as the one id [""]: it evaluates the base directory itself,
    under the name of that directory. The base directory, which is not
    a survivor of any stage before, is evaluated by the compliance
    check and, the survivors being empty again, by the data integrity
    check; it survives the latter and is ranked. *)
Theorem empty_survivors_evaluate_base_directory :
  security_survivors (run_stages (tools rejected_world)).2 = []
  /\ submissions_argument [] = EmptyString
  /\ evaluated rejected_world [] = ["final_evaluation"]
  /\ compliance_run (tools rejected_world) []
     = Results [ {| row_id := "final_evaluation"; row_passed := false; row_score := 0 |} ]
  /\ compliance_survivors (run_stages (tools rejected_world)).2 = []
  /\ data_survivors (run_stages (tools rejected_world)).2 = ["final_evaluation"]
  /\ map submission_id
       (final_results
          (run_full_evaluation (tools rejected_world) ["#1 (Eve)"; "final_evaluation"]))
     = ["final_evaluation"; "#1 (Eve)"].
Proof. vm_compute. repeat split; reflexivity. Qed.

End Pipeline.

(** * Further properties of the stage tools *)

(** ** The security audit: score and verdict *)

Section SecurityVerdict.
Import PyStr PyNum Ast Fs SecurityAudit.

Lemma of_nat_nonneg (n : nat) : (0 <= of_nat n)%Q.
Proof. unfold of_nat, Qle. simpl. lia. Qed.






End SecurityVerdict.

(** ** The security audit: what the scans see *)

Section SecurityScans.
Import PyStr PyNum Ast Fs SecurityAudit.







End SecurityScans.

(** ** The security audit: the walk over the syntax tree *)

Section TreeWalk.
Import PyStr PyNum Ast Fs SecurityAudit.














End TreeWalk.

(** ** Scores by deduction *)

Section Deductions.
Import PyNum.

Context {A : Type} (sev : A -> Severity) (d : Severity -> Q).






End Deductions.


Section StageVerdicts.
Import PyNum Fs.



End StageVerdicts.

(** ** The strict compliance check and the data integrity check *)

Section ComplianceAndIntegrity.
Import PyStr PyNum Ast Fs.










(** A submission directory that holds no file passes the data
    integrity check with the full score: the checks look only at the
    files they find. *)
Lemma empty_directory_passes_integrity (path : string)
    (stats : string -> DataIntegrity.csv_outcome) :
  let r := DataIntegrity.check_submission {| sub_path := path; entries := [] |} stats in
  DataIntegrity.passed r = true
  /\ DataIntegrity.integrity_score r = 100%Q
  /\ DataIntegrity.issues r = [].
Proof. repeat split. Qed.

End ComplianceAndIntegrity.

(** ** The contest rules: financial limits *)

Section FinancialLimits.
Import PyStr PyNum Fs ContestRules.








End FinancialLimits.

(** ** The contest rules: extraction, capital and score *)

Section RulesScore.
Import PyStr PyNum Fs ContestRules.










End RulesScore.

(** ** The contest rules: folders and the report table *)

Section FoldersAndTables.
Import PyStr PyNum Fs ContestRules.







End FoldersAndTables.

(** ** The final records *)

Section FinalRecords.
Import PyStr Fs Orchestrator.









End FinalRecords.

(** ** The survivors as an argument of the stage tools *)

Section SubmissionsArgument.
Import PyStr Fs Orchestrator.










End SubmissionsArgument.

(** ** The survivors along the pipeline *)

Section PipelineSurvivors.
Import PyStr Fs Orchestrator.















End PipelineSurvivors.

(** ** The interactive mode *)

Section Interactive.
Import PyStr Fs Orchestrator.







End Interactive.

(** ** The exemption for installing yfinance *)

Section YfinanceExemption.
Import PyStr PyNum Ast Fs SecurityAudit.








End YfinanceExemption.

(** ** The overall score in binary floating point *)

Section BinaryScore.
Import Orchestrator.



End BinaryScore.

(** ** The drawdown of a portfolio value column *)

Section CsvDrawdown.
Import PyNum ContestRules.











End CsvDrawdown.

(** ** A compliance check that cannot be run *)

Section FailedCompliance.
Import PyStr Fs Orchestrator.








End FailedCompliance.
